(** * Like-toggle client scripts: a shallow embedding and its properties

    The development embeds [app/static/js/likes.js] and
    [app/static/js/liked-posts.js].

    - The document is a tree of nodes.  An element reference is the path
      of child indices that leads to the element.  Within one run of a
      handler the scripts do not move the elements they hold.  A reference
      that a closure holds across an [await] denotes its element for as
      long as the document is written in place, that is, as long as no node
      is inserted or removed at an ancestor of the element; what is stated
      of a resumed closure is stated for such documents.  A clone lives
      outside the document, as a value.
    - A script function that only reads or writes the document is a
      function on documents.  An [async] function is a task: it runs until
      it finishes or until it is suspended at a [fetch], and its
      continuation is resumed later, in the document of that moment.
      Reading the body of a response is not a suspension point of its
      own: a response comes with the outcome of [json()] and [text()].
    - What a run does besides changing the document (requests, notices,
      console errors, timers, reloads) is recorded in a trace.
    - Numbers are integers and strings are byte strings; see [Js]. *)

From Stdlib Require Import List String Ascii ZArith Bool Lia Arith DecimalString.
Import ListNotations.
Local Open Scope string_scope.
Local Open Scope list_scope.
Set Warnings "-register-all".

(* ------------------------------------------------------------------ *)
(** ** JavaScript values used by the scripts *)

Module Js.

(** Result of [parseInt]: either [NaN] or an integer.  Integers are kept
    exact, whatever their size; the sign of zero is not distinguished
    (both zeros are falsy and neither is [NaN], which is all the scripts
    look at). *)
Inductive jsnum : Type :=
| NaN
| Num (z : Z).

Definition isNaN (n : jsnum) : bool :=
  match n with NaN => true | Num _ => false end.

(** Values that come out of [response.json()]. *)
Inductive json : Type :=
| JNull
| JBool (b : bool)
| JNum (z : Z)
| JStr (s : string)
| JArr (items : list json)
| JObj (fields : list (string * json)).

(** A JavaScript value as the scripts see it: [None] is [undefined]. *)
Definition jsval : Type := option json.

Definition js_false : jsval := Some (JBool false).

(** ToBoolean. *)
Definition truthy (v : jsval) : bool :=
  match v with
  | None => false
  | Some JNull => false
  | Some (JBool b) => b
  | Some (JNum z) => negb (Z.eqb z 0)
  | Some (JStr s) => negb (String.eqb s "")
  | Some (JArr _) => true
  | Some (JObj _) => true
  end.

(** A viewer identity as [getCurrentUserId] returns it: [null] or a number. *)
Definition truthy_id (userId : option Z) : bool :=
  match userId with
  | None => false
  | Some z => negb (Z.eqb z 0)
  end.

(** White space skipped by [trim] and by [parseInt].  A string is a
    sequence of code units below 256; the white space among them is TAB,
    LF, VT, FF, CR, SP and NBSP. *)
Definition is_ws (c : ascii) : bool :=
  let n := nat_of_ascii c in
  (n =? 9)%nat || (n =? 10)%nat || (n =? 11)%nat || (n =? 12)%nat
  || (n =? 13)%nat || (n =? 32)%nat || (n =? 160)%nat.

Fixpoint drop_ws (s : string) : string :=
  match s with
  | EmptyString => EmptyString
  | String c s' => if is_ws c then drop_ws s' else s
  end.

Definition rev_string (s : string) : string :=
  string_of_list_ascii (rev (list_ascii_of_string s)).

(** [String.prototype.trim]. *)
Definition trim (s : string) : string :=
  rev_string (drop_ws (rev_string (drop_ws s))).

(** Value of a digit in the given radix (10 or 16). *)
Definition digit_of (radix : Z) (c : ascii) : option Z :=
  let n := Z.of_nat (nat_of_ascii c) in
  let v :=
    if (48 <=? n)%Z && (n <=? 57)%Z then Some (n - 48)%Z
    else if (97 <=? n)%Z && (n <=? 122)%Z then Some (n - 87)%Z
    else if (65 <=? n)%Z && (n <=? 90)%Z then Some (n - 55)%Z
    else None in
  match v with
  | Some d => if (d <? radix)%Z then Some d else None
  | None => None
  end.

(** Longest prefix of digits; [None] when there is no digit at all. *)
Fixpoint parse_digits (radix : Z) (s : string) (acc : option Z) : option Z :=
  match s with
  | EmptyString => acc
  | String c s' =>
      match digit_of radix c with
      | Some d =>
          parse_digits radix s'
            (Some (radix * match acc with Some a => a | None => 0 end + d)%Z)
      | None => acc
      end
  end.

(** [parseInt(s)] with no radix argument. *)
Definition parseInt (s : string) : jsnum :=
  let s1 := drop_ws s in
  let '(sign, s2) :=
    match s1 with
    | String "-" r => ((-1)%Z, r)
    | String "+" r => (1%Z, r)
    | _ => (1%Z, s1)
    end in
  let '(radix, s3) :=
    match s2 with
    | String "0" (String "x" r) => (16%Z, r)
    | String "0" (String "X" r) => (16%Z, r)
    | _ => (10%Z, s2)
    end in
  match parse_digits radix s3 None with
  | None => NaN
  | Some n => Num (sign * n)%Z
  end.

(** ToString of a number, as template literals apply it. *)
Definition num_to_string (n : jsnum) : string :=
  match n with
  | NaN => "NaN"
  | Num z => NilZero.string_of_int (Z.to_int z)
  end.

(** ToString of an identity ([null] prints as "null"). *)
Definition id_to_string (userId : option Z) : string :=
  match userId with
  | None => "null"
  | Some z => num_to_string (Num z)
  end.

(** [JSON.stringify] of a number inside an object: [NaN] becomes [null]. *)
Definition num_to_json (n : jsnum) : json :=
  match n with
  | NaN => JNull
  | Num z => JNum z
  end.

(** Property read [o.name] on a parsed JSON object; the last duplicate key
    wins, as in [JSON.parse]. *)
Definition field (name : string) (fields : list (string * json)) : jsval :=
  option_map snd
    (find (fun kv => String.eqb (fst kv) name) (rev fields)).

End Js.

(* ------------------------------------------------------------------ *)
(** ** The document *)

Module Dom.

(** The inline style properties the scripts write. *)
Record Style : Type := mkStyle {
  fill : string;
  stroke : string;
  transition : string;
  opacity : string;
  transform : string
}.

Definition no_style : Style := mkStyle "" "" "" "" "".

Record Props : Type := mkProps {
  tagName : string;
  classList : list string;
  attributes : list (string * string);
  style : Style;
  disabled : bool
}.

Inductive node : Type :=
| Elem (props : Props) (childNodes : list node)
| Text (data : string).

(** An element reference: the child indices leading to it from the root. *)
Definition path : Type := list nat.

Inductive selector : Type :=
| ByClass (c : string)                 (* .c *)
| ByClassAttr (c a : string)           (* .c[a] *)
| ByTagAttrEq (t a v : string).        (* t[a="v"] *)

Definition has_class (c : string) (pr : Props) : bool :=
  existsb (String.eqb c) (classList pr).

Definition attr_of (a : string) (pr : Props) : option string :=
  option_map snd (find (fun kv => String.eqb (fst kv) a) (attributes pr)).

Definition matches (sel : selector) (pr : Props) : bool :=
  match sel with
  | ByClass c => has_class c pr
  | ByClassAttr c a =>
      has_class c pr && match attr_of a pr with Some _ => true | None => false end
  | ByTagAttrEq t a v =>
      String.eqb (tagName pr) t
      && match attr_of a pr with Some v' => String.eqb v' v | None => false end
  end.

Definition matches_node (sel : selector) (n : node) : bool :=
  match n with
  | Elem pr _ => matches sel pr
  | Text _ => false
  end.

Section Indexed.
Context {A : Type}.
Variable f : A -> option path.
Variable g : A -> list path.

(** First hit among the items, in order, tagged with the item's index. *)
Fixpoint find_first (ks : list A) (i : nat) : option path :=
  match ks with
  | [] => None
  | k :: ks' =>
      match f k with
      | Some p => Some (i :: p)
      | None => find_first ks' (S i)
      end
  end.

(** All hits, in order, tagged with the item's index. *)
Fixpoint collect_all (ks : list A) (i : nat) : list path :=
  match ks with
  | [] => []
  | k :: ks' => map (cons i) (g k) ++ collect_all ks' (S i)
  end.
End Indexed.

(** First element in tree order, the node itself included. *)
Fixpoint qs_node (sel : selector) (n : node) : option path :=
  match n with
  | Text _ => None
  | Elem pr kids =>
      if matches sel pr then Some []
      else find_first (qs_node sel) kids 0
  end.

(** All elements in tree order, the node itself included. *)
Fixpoint qsa_node (sel : selector) (n : node) : list path :=
  match n with
  | Text _ => []
  | Elem pr kids =>
      (if matches sel pr then [[]] else [])
      ++ collect_all (qsa_node sel) kids 0
  end.

(** [element.querySelector]: proper descendants only. *)
Definition qs_inside (sel : selector) (n : node) : option path :=
  match n with
  | Text _ => None
  | Elem _ kids => find_first (qs_node sel) kids 0
  end.

Definition qsa_inside (sel : selector) (n : node) : list path :=
  match n with
  | Text _ => []
  | Elem _ kids => collect_all (qsa_node sel) kids 0
  end.

Fixpoint get (n : node) (p : path) : option node :=
  match p with
  | [] => Some n
  | i :: p' =>
      match n with
      | Elem _ kids =>
          match nth_error kids i with
          | Some c => get c p'
          | None => None
          end
      | Text _ => None
      end
  end.

Fixpoint update_nth {A : Type} (i : nat) (f : A -> A) (l : list A) : list A :=
  match l, i with
  | [], _ => []
  | x :: l', O => f x :: l'
  | x :: l', S i' => x :: update_nth i' f l'
  end.

Fixpoint remove_nth {A : Type} (i : nat) (l : list A) : list A :=
  match l, i with
  | [], _ => []
  | _ :: l', O => l'
  | x :: l', S i' => x :: remove_nth i' l'
  end.

(** Apply [f] to the node a reference points to; a stale reference changes
    nothing in the document. *)
Fixpoint update_at (p : path) (f : node -> node) (n : node) : node :=
  match p with
  | [] => f n
  | i :: p' =>
      match n with
      | Elem pr kids => Elem pr (update_nth i (update_at p' f) kids)
      | Text _ => n
      end
  end.

(** [node.remove()]. Removing the root leaves the tree as it is (the root
    has no parent to be removed from). *)
Fixpoint remove_at (p : path) (n : node) : node :=
  match p with
  | [] => n
  | [i] =>
      match n with
      | Elem pr kids => Elem pr (remove_nth i kids)
      | Text _ => n
      end
  | i :: p' =>
      match n with
      | Elem pr kids => Elem pr (update_nth i (remove_at p') kids)
      | Text _ => n
      end
  end.

Fixpoint is_prefix (p q : path) : bool :=
  match p, q with
  | [], _ => true
  | i :: p', j :: q' => (i =? j)%nat && is_prefix p' q'
  | _ :: _, [] => false
  end.

(** Where a reference [q] points after the node at [c] was removed:
    [None] when [q] was inside the removed subtree. *)
Fixpoint relocate (c q : path) : option path :=
  match c, q with
  | [], _ => None
  | _, [] => Some []
  | [i], j :: q' =>
      if (i =? j)%nat then None
      else if (i <? j)%nat then Some (pred j :: q')
      else Some q
  | i :: c', j :: q' =>
      if (i =? j)%nat then option_map (cons j) (relocate c' q')
      else Some q
  end.

(** [element.closest(sel)]: the nearest ancestor-or-self that matches. *)
Fixpoint closest (sel : selector) (n : node) (p : path) : option path :=
  match p with
  | [] => if matches_node sel n then Some [] else None
  | i :: p' =>
      match n with
      | Elem pr kids =>
          match nth_error kids i with
          | Some c =>
              match closest sel c p' with
              | Some q => Some (i :: q)
              | None => if matches sel pr then Some [] else None
              end
          | None => None
          end
      | Text _ => None
      end
  end.

(** [ref.querySelector(sel)] and [ref.querySelectorAll(sel)] as references
    into the document. *)
Definition querySelector (sel : selector) (ref : path) (d : node) : option path :=
  match get d ref with
  | Some n => option_map (app ref) (qs_inside sel n)
  | None => None
  end.

Definition querySelectorAll (sel : selector) (ref : path) (d : node) : list path :=
  match get d ref with
  | Some n => map (app ref) (qsa_inside sel n)
  | None => []
  end.

(** ** Element mutators *)

Definition on_props (g : Props -> Props) (n : node) : node :=
  match n with
  | Elem pr kids => Elem (g pr) kids
  | Text _ => n
  end.

Definition on_children (g : list node -> list node) (n : node) : node :=
  match n with
  | Elem pr kids => Elem pr (g kids)
  | Text _ => n
  end.

Definition with_disabled (b : bool) (pr : Props) : Props :=
  mkProps (tagName pr) (classList pr) (attributes pr) (style pr) b.

Definition with_classes (cs : list string) (pr : Props) : Props :=
  mkProps (tagName pr) cs (attributes pr) (style pr) (disabled pr).

Definition with_style (s : Style) (pr : Props) : Props :=
  mkProps (tagName pr) (classList pr) (attributes pr) s (disabled pr).

Definition with_fill (v : string) (s : Style) : Style :=
  mkStyle v (stroke s) (transition s) (opacity s) (transform s).

Definition with_stroke (v : string) (s : Style) : Style :=
  mkStyle (fill s) v (transition s) (opacity s) (transform s).

Definition with_transition (v : string) (s : Style) : Style :=
  mkStyle (fill s) (stroke s) v (opacity s) (transform s).

Definition with_opacity (v : string) (s : Style) : Style :=
  mkStyle (fill s) (stroke s) (transition s) v (transform s).

Definition with_transform (v : string) (s : Style) : Style :=
  mkStyle (fill s) (stroke s) (transition s) (opacity s) v.

(** [classList.add] and [classList.remove]. *)
Definition class_add (c : string) (cs : list string) : list string :=
  if existsb (String.eqb c) cs then cs else cs ++ [c].

Definition class_remove (c : string) (cs : list string) : list string :=
  filter (fun x => negb (String.eqb c x)) cs.

Definition set_disabled (ref : path) (b : bool) (d : node) : node :=
  update_at ref (on_props (with_disabled b)) d.

Definition classList_add (ref : path) (c : string) (d : node) : node :=
  update_at ref (on_props (fun pr => with_classes (class_add c (classList pr)) pr)) d.

Definition classList_remove (ref : path) (c : string) (d : node) : node :=
  update_at ref (on_props (fun pr => with_classes (class_remove c (classList pr)) pr)) d.

Definition set_style (ref : path) (g : Style -> Style) (d : node) : node :=
  update_at ref (on_props (fun pr => with_style (g (style pr)) pr)) d.

(** [ref.innerHTML = ...] with the markup already parsed. *)
Definition set_children (ref : path) (kids : list node) (d : node) : node :=
  update_at ref (on_children (fun _ => kids)) d.

(** [ref.appendChild(n)] for a node [n] that is not in the document. *)
Definition appendChild (ref : path) (n : node) (d : node) : node :=
  update_at ref (on_children (fun kids => kids ++ [n])) d.

(** [ref.textContent = s]. *)
Definition set_textContent (ref : path) (s : string) (d : node) : node :=
  set_children ref (if String.eqb s "" then [] else [Text s]) d.

(** The [textContent] getter. *)
Fixpoint textContent (n : node) : string :=
  match n with
  | Text s => s
  | Elem _ kids => fold_right (fun k acc => String.append (textContent k) acc) "" kids
  end.

Definition props_at (d : node) (ref : path) : option Props :=
  match get d ref with
  | Some (Elem pr _) => Some pr
  | _ => None
  end.

Definition children_at (d : node) (ref : path) : option (list node) :=
  match get d ref with
  | Some (Elem _ kids) => Some kids
  | _ => None
  end.

(** [ref.disabled], read as a condition. *)
Definition disabled_at (d : node) (ref : path) : bool :=
  match props_at d ref with
  | Some pr => disabled pr
  | None => false
  end.

(** [ref.getAttribute(a)]; [None] is [null]. *)
Definition getAttribute (d : node) (ref : path) (a : string) : option string :=
  match props_at d ref with
  | Some pr => attr_of a pr
  | None => None
  end.

End Dom.

(* ------------------------------------------------------------------ *)
(** ** Network, effects and asynchronous tasks *)

Module Async.
Import Js Dom.

Inductive Method : Type := GET | POST.

Record Request : Type := mkRequest {
  url : string;
  method : Method;
  headers : list (string * string);
  body : option json
}.

(** What the scripts read off a response: [ok], the outcome of [json()]
    and the outcome of [text()] ([None]: the promise rejects). *)
Record Response : Type := mkResponse {
  ok : bool;
  json_body : option json;
  text_body : option string
}.

Inductive FetchOutcome : Type :=
| NetworkFailure
| Responded (r : Response).

(** The one timer callback of the scripts, as data. *)
Inductive TimerCallback : Type :=
| RemoveCard (card likedPostsList : path).

Inductive Effect : Type :=
| EFetch (r : Request)
| EAlert (msg : string)
| EConsoleError (msg : string)
| EReload
| ESetTimeout (cb : TimerCallback) (ms : nat).

Record World : Type := mkWorld {
  doc : node;
  trace : list Effect
}.

Inductive completion (A : Type) : Type :=
| Normal (a : A)
| Thrown (e : string).
Arguments Normal {A} a.
Arguments Thrown {A} e.

(** A task either runs to completion or is suspended at a [fetch]; the
    continuation is resumed in the world of the moment the response
    arrives. *)
Inductive Res (A : Type) : Type :=
| Finished (c : completion A) (w : World)
| Awaiting (req : Request) (k : FetchOutcome -> World -> Res A) (w : World).
Arguments Finished {A} c w.
Arguments Awaiting {A} req k w.

Definition Task (A : Type) : Type := World -> Res A.

Definition ret {A : Type} (a : A) : Task A :=
  fun w => Finished (Normal a) w.

Definition throw {A : Type} (e : string) : Task A :=
  fun w => Finished (Thrown e) w.

Fixpoint bind_res {A B : Type} (r : Res A) (f : A -> Task B) : Res B :=
  match r with
  | Finished (Normal a) w => f a w
  | Finished (Thrown e) w => Finished (Thrown e) w
  | Awaiting req k w => Awaiting req (fun o w' => bind_res (k o w') f) w
  end.

Definition bind {A B : Type} (m : Task A) (f : A -> Task B) : Task B :=
  fun w => bind_res (m w) f.

(** [try { ... } catch (error) { ... }]: changes made before the throw
    stay. *)
Fixpoint catch_res {A : Type} (r : Res A) (h : string -> Task A) : Res A :=
  match r with
  | Finished (Normal a) w => Finished (Normal a) w
  | Finished (Thrown e) w => h e w
  | Awaiting req k w => Awaiting req (fun o w' => catch_res (k o w') h) w
  end.

Definition try_catch {A : Type} (m : Task A) (h : string -> Task A) : Task A :=
  fun w => catch_res (m w) h.

Declare Scope task_scope.
Delimit Scope task_scope with task.
Notation "x <- m ;; k" := (bind m (fun x => k))
  (at level 100, m at next level, right associativity) : task_scope.
Notation "m ;; k" := (bind m (fun _ => k))
  (at level 100, right associativity) : task_scope.
Local Open Scope task_scope.

Definition read_doc : Task node :=
  fun w => Finished (Normal (doc w)) w.

Definition modify_doc (g : node -> node) : Task unit :=
  fun w => Finished (Normal tt) (mkWorld (g (doc w)) (trace w)).

Definition emit (e : Effect) : Task unit :=
  fun w => Finished (Normal tt) (mkWorld (doc w) (trace w ++ [e])).

Definition alert (msg : string) : Task unit := emit (EAlert msg).
Definition console_error (msg : string) : Task unit := emit (EConsoleError msg).
Definition reload : Task unit := emit EReload.
Definition setTimeout (cb : TimerCallback) (ms : nat) : Task unit :=
  emit (ESetTimeout cb ms).

(** [await fetch(req)]: the request goes out at once; the task resumes
    with the response, or with an exception on a network failure. *)
Definition fetch (req : Request) : Task Response :=
  fun w =>
    Awaiting req
      (fun o w' =>
         match o with
         | NetworkFailure => Finished (Thrown "TypeError: Failed to fetch") w'
         | Responded r => Finished (Normal r) w'
         end)
      (mkWorld (doc w) (trace w ++ [EFetch req])).

(** [await response.json()] and [await response.text()]. *)
Definition response_json (r : Response) : Task json :=
  match json_body r with
  | Some j => ret j
  | None => throw "SyntaxError: Unexpected token"
  end.

Definition response_text (r : Response) : Task string :=
  match text_body r with
  | Some s => ret s
  | None => throw "TypeError: Failed to read body"
  end.

(** [result.liked] for a parsed body. *)
Definition get_liked (result : json) : Task jsval :=
  match result with
  | JNull => throw "TypeError: Cannot read properties of null"
  | JObj fields => ret (field "liked" fields)
  | _ => ret None
  end.

(** A suspended task, as the event loop holds it. *)
Definition Suspended : Type := (Request * (FetchOutcome -> World -> Res unit))%type.

(** Start tasks one after the other, each up to its first suspension. *)
Fixpoint spawn_all (ts : list (Task unit)) (w : World) : World * list Suspended :=
  match ts with
  | [] => (w, [])
  | t :: ts' =>
      match t w with
      | Finished _ w' => spawn_all ts' w'
      | Awaiting req k w' =>
          let '(w'', rest) := spawn_all ts' w' in (w'', (req, k) :: rest)
      end
  end.

(** Requests sent, and notices shown, in a trace. *)
Definition requests (t : list Effect) : list Request :=
  flat_map (fun e => match e with EFetch r => [r] | _ => [] end) t.

Definition alerts (t : list Effect) : list string :=
  flat_map (fun e => match e with EAlert m => [m] | _ => [] end) t.

End Async.

(* ------------------------------------------------------------------ *)
(** ** likes.js *)

Module Likes.
Import Js Dom Async.
Local Open Scope task_scope.

Definition like_button : selector := ByClass "like-button".
Definition like_button_with_id : selector := ByClassAttr "like-button" "data-post-id".
Definition like_icon : selector := ByClass "like-icon".
Definition like_text : selector := ByClass "like-text".
Definition user_meta : selector := ByTagAttrEq "meta" "name" "user-id".

(** The notices and labels, as the bytes of their UTF-8 form; they are
    written and compared, never looked into. *)
Definition sign_in_notice : string :=
  "Пожалуйста, войдите в систему, чтобы ставить лайки".
Definition failure_notice : string :=
  "Произошла ошибка при обновлении лайка".
Definition liked_label : string := "Лайкнуто".
Definition like_label : string := "Лайк".
Definition liked_colour : string := "#e91e63".

(** [getCurrentUserId()]. *)
Definition getCurrentUserId (d : node) : option Z :=
  match qs_node user_meta d with
  | None => None
  | Some userMeta =>
      let content :=
        match getAttribute d userMeta "content" with
        | Some c => c
        | None => ""
        end in
      if String.eqb content "" || String.eqb (trim content) "" then None
      else
        match parseInt content with
        | NaN => None
        | Num userId => Some userId
        end
  end.

Definition status_request (userId : option Z) (postId : jsnum) : Request :=
  mkRequest
    ("/api/likes/user/" ++ id_to_string userId ++ "/post/" ++ num_to_string postId)%string
    GET [] None.

Definition toggle_request (postId : jsnum) : Request :=
  mkRequest "/api/likes/toggle" POST
    [("Content-Type", "application/json")]
    (Some (JObj [("post_id", num_to_json postId); ("liked", JBool true)])).

(** [isLiked(postId, userId)]. *)
Definition isLiked (postId : jsnum) (userId : option Z) : Task jsval :=
  if negb (truthy_id userId) then ret js_false
  else
    try_catch
      (response <- fetch (status_request userId postId) ;;
       if negb (ok response) then
         (_ <- response_text response ;;
          console_error "Error checking like status:" ;;
          ret js_false)
       else
         (j <- response_json response ;;
          ret (Some j)))
      (fun error =>
         console_error "Error checking like status:" ;;
         ret js_false).

(** [updateLikeButton(button, isLiked)]; it only touches the document. *)
Definition updateLikeButton (button : option path) (isLiked : jsval)
    (d : node) : node :=
  match button with
  | None => d
  | Some b =>
      let icon := querySelector like_icon b d in
      let text := querySelector like_text b d in
      if truthy isLiked then
        let d1 := classList_add b "liked" d in
        let d2 :=
          match icon with
          | Some i =>
              set_style i (with_stroke liked_colour)
                (set_style i (with_fill liked_colour) d1)
          | None => d1
          end in
        match text with
        | Some t => set_textContent t liked_label d2
        | None => d2
        end
      else
        let d1 := classList_remove b "liked" d in
        let d2 :=
          match icon with
          | Some i =>
              set_style i (with_stroke "") (set_style i (with_fill "none") d1)
          | None => d1
          end in
        match text with
        | Some t => set_textContent t like_label d2
        | None => d2
        end
  end.

(** The loading indicator written by [toggleLike]. *)
Definition spinner : node :=
  Elem (mkProps "span" ["spinner-border"; "spinner-border-sm"]
          [("role", "status"); ("aria-hidden", "true")] no_style false) [].

(** [ref?.cloneNode(true)]: a copy that lives outside the document. *)
Definition cloneNode (d : node) (ref : option path) : option node :=
  match ref with
  | Some r => get d r
  | None => None
  end.

(** Children of the button after [innerHTML = ''; appendChild(icon);
    appendChild(text)] for two elements that were inside it: appending
    moves a node, so an element nested in the other one is taken out of
    it, and one element that is both ends up once. *)
Definition reattach_pair (d : node) (icon text : path) : list node :=
  match get d icon, get d text with
  | Some ni, Some nt =>
      if is_prefix icon text && is_prefix text icon then [nt]
      else if is_prefix icon text then
        [remove_at (skipn (List.length icon) text) ni; nt]
      else if is_prefix text icon then
        [ni; remove_at (skipn (List.length text) icon) nt]
      else [ni; nt]
  | _, _ => []
  end.

(** [toggleLike(postId, userId, button = null)]. *)
Definition toggleLike (postId : jsnum) (userId : option Z)
    (button : option path) : Task jsval :=
  if negb (truthy_id userId) then
    (alert sign_in_notice ;;
     ret js_false)
  else
    try_catch
      (originalContent <-
         match button with
         | Some b =>
             (d <- read_doc ;;
              let icon := cloneNode d (querySelector like_icon b d) in
              let text := cloneNode d (querySelector like_text b d) in
              modify_doc (set_disabled b true) ;;
              modify_doc (set_children b [spinner]) ;;
              ret (Some (icon, text)))
         | None => ret None
         end ;;
       response <- fetch (toggle_request postId) ;;
       (if negb (ok response) then throw "Failed to toggle like" else ret tt) ;;
       result <- response_json response ;;
       match button with
       | Some b =>
           match originalContent with
           | Some (icon, text) =>
               modify_doc (set_children b []) ;;
               match icon with
               | Some i => modify_doc (appendChild b i)
               | None => ret tt
               end ;;
               match text with
               | Some t => modify_doc (appendChild b t)
               | None => ret tt
               end ;;
               liked <- get_liked result ;;
               modify_doc (updateLikeButton (Some b) liked) ;;
               modify_doc (set_disabled b false)
           | None => throw "TypeError: Cannot read properties of null"
           end
       | None => ret tt
       end ;;
       liked <- get_liked result ;;
       ret liked)
      (fun error =>
         console_error "Error toggling like:" ;;
         alert failure_notice ;;
         match button with
         | Some b =>
             modify_doc (set_disabled b false) ;;
             d <- read_doc ;;
             match querySelector like_icon b d, querySelector like_text b d with
             | Some icon, Some text =>
                 modify_doc (set_children b (reattach_pair d icon text))
             | _, _ => ret tt
             end
         | None => ret tt
         end ;;
         ret js_false).

(** [parseInt(button.getAttribute('data-post-id'))]; a missing attribute
    reads as [null], which [parseInt] turns into the string "null". *)
Definition post_id_of (d : node) (button : path) : jsnum :=
  parseInt
    match getAttribute d button "data-post-id" with
    | Some s => s
    | None => "null"
    end.

(** One status query of [initializeLikes], with its [then] and [catch].
    The two callbacks hold the button element; [button] is the path of
    that element when the query is sent, and it denotes the element in
    every document that was since written in place only (no node inserted
    or removed at an ancestor of the button). *)
Definition sync_button (userId : option Z) (button : path) (postId : jsnum)
    : Task unit :=
  try_catch
    (v <- isLiked postId userId ;;
     modify_doc (updateLikeButton (Some button) v))
    (fun error =>
       console_error "Error initializing like button:" ;;
       modify_doc (updateLikeButton (Some button) js_false)).

(** [initializeLikes()], up to the point where it waits for its status
    queries; the queries still in flight are returned.  Nothing is left
    to do once they have all completed.  (When [initializeLikes] runs --
    at page load and after insertions seen by the mutation observer -- is
    decided by code that is not embedded here.) *)
Definition initializeLikes (w : World) : World * list Suspended :=
  let userId := getCurrentUserId (doc w) in
  if negb (truthy_id userId) then
    (mkWorld
       (fold_left (fun d button => updateLikeButton (Some button) js_false d)
          (qsa_node like_button_with_id (doc w)) (doc w))
       (trace w),
     [])
  else
    let buttons := qsa_node like_button_with_id (doc w) in
    spawn_all
      (flat_map
         (fun button =>
            let postId := post_id_of (doc w) button in
            if negb (isNaN postId) then [sync_button userId button postId]
            else [])
         buttons)
      w.

(** The click listener installed by [setupLikeButtons].  ([preventDefault]
    and [stopPropagation] have no effect on what is modelled here: this
    listener sits on the document, at the end of the event's way.) *)
Definition likes_click (target : path) : Task unit :=
  d <- read_doc ;;
  match closest like_button d target with
  | None => ret tt
  | Some button =>
      if disabled_at d button then ret tt
      else
        let postId := post_id_of d button in
        let userId := getCurrentUserId d in
        if isNaN postId then console_error "Invalid post ID"
        else
          try_catch
            (_ <- toggleLike postId userId (Some button) ;;
             ret tt)
            (fun error =>
               console_error "Error toggling like:" ;;
               modify_doc (set_disabled button false))
  end.

End Likes.

(* ------------------------------------------------------------------ *)
(** ** liked-posts.js *)

Module LikedPosts.
Import Js Dom Async Likes.
Local Open Scope task_scope.

Definition articles_list : selector := ByClass "articles-list".
Definition article_card : selector := ByClass "article-card".

Definition card_transition : string := "opacity 0.3s ease, transform 0.3s ease".

(** [setupLikedPostsPage()]: the list the listener is installed on, if the
    page has one. *)
Definition setupLikedPostsPage (d : node) : option path :=
  qs_node articles_list d.

(** The callback passed to [setTimeout]. *)
Definition run_timer (cb : TimerCallback) : Task unit :=
  match cb with
  | RemoveCard card likedPostsList =>
      d <- read_doc ;;
      modify_doc (remove_at card) ;;
      d' <- read_doc ;;
      let remainingCards :=
        match relocate card likedPostsList with
        | Some l => querySelectorAll article_card l d'
        | None =>
            (* the list left the document with the card and is unchanged *)
            querySelectorAll article_card likedPostsList d
        end in
      if (List.length remainingCards =? 0)%nat then reload else ret tt
  end.

(** The capturing click listener on the list.  [likesManager] tells
    whether [window.likesManager] is defined. *)
Definition likedPosts_click (likesManager : bool) (likedPostsList : path)
    (target : path) : Task unit :=
  d <- read_doc ;;
  match closest like_button d target with
  | None => ret tt
  | Some button =>
      if disabled_at d button then ret tt
      else
        let postId := post_id_of d button in
        let userId := if likesManager then getCurrentUserId d else None in
        if negb (truthy_id userId) || isNaN postId then ret tt
        else
          modify_doc (set_disabled button true) ;;
          try_catch
            (response <- fetch (toggle_request postId) ;;
             (if negb (ok response) then throw "Failed to toggle like"
              else ret tt) ;;
             result <- response_json response ;;
             liked <- get_liked result ;;
             if negb (truthy liked) then
               (d1 <- read_doc ;;
                match closest article_card d1 button with
                | Some card =>
                    modify_doc (set_style card (with_transition card_transition)) ;;
                    modify_doc (set_style card (with_opacity "0")) ;;
                    modify_doc (set_style card (with_transform "scale(0.95)")) ;;
                    setTimeout (RemoveCard card likedPostsList) 300
                | None => ret tt
                end)
             else modify_doc (set_disabled button false))
            (fun error =>
               console_error "Error toggling like:" ;;
               modify_doc (set_disabled button false) ;;
               alert failure_notice)
  end.

(** Whether the capturing listener calls [stopPropagation] for a click. *)
Definition stops_propagation (d : node) (target : path) : bool :=
  match closest like_button d target with
  | Some _ => true
  | None => false
  end.

End LikedPosts.

(* ------------------------------------------------------------------ *)
(** ** Pages and the event loop *)

Module Page.
Import Js Dom Async Likes LikedPosts.
Local Open Scope task_scope.

(** A page loads [likes.js]; the liked-items page also loads
    [liked-posts.js], whose listener sits on the list. *)
Inductive view : Type :=
| GenericView
| LikedItemsView (likedPostsList : path).

(** Dispatch of one click.  On the liked-items page the capturing listener
    on the list runs first for a click inside the list, and the document's
    listener runs only if propagation was not stopped. *)
Definition dispatch_click (v : view) (target : path) : Task unit :=
  match v with
  | GenericView => likes_click target
  | LikedItemsView l =>
      d <- read_doc ;;
      if is_prefix l target then
        if stops_propagation d target then likedPosts_click true l target
        else (likedPosts_click true l target ;; likes_click target)
      else likes_click target
  end.

Record Sys : Type := mkSys {
  world : World;
  inflight : list Suspended
}.

Inductive Event : Type :=
| Click (target : path)
| Respond (i : nat) (o : FetchOutcome).

Definition absorb (r : Res unit) (rest : list Suspended) : Sys :=
  match r with
  | Finished _ w => mkSys w rest
  | Awaiting req k w => mkSys w (rest ++ [(req, k)])
  end.

(** One turn of the event loop on a page running [likes.js]. *)
Definition step (ev : Event) (s : Sys) : Sys :=
  match ev with
  | Click target => absorb (likes_click target (world s)) (inflight s)
  | Respond i o =>
      match nth_error (inflight s) i with
      | Some (_, k) => absorb (k o (world s)) (remove_nth i (inflight s))
      | None => s
      end
  end.

(** Run a task to its end against one answer of the network. *)
Definition run_with {A : Type} (o : FetchOutcome) (r : Res A) : Res A :=
  match r with
  | Finished c w => Finished c w
  | Awaiting _ k w => k o w
  end.

End Page.

(* ------------------------------------------------------------------ *)
(** ** Sample pages *)

Module Samples.
Import Js Dom Async Likes LikedPosts Page.

Definition el (tag : string) (classes : list string)
    (attrs : list (string * string)) (kids : list node) : node :=
  Elem (mkProps tag classes attrs no_style false) kids.

Definition icon_plain : node := el "svg" ["like-icon"] [] [].
Definition text_plain : node := el "span" ["like-text"] [] [Text like_label].

Definition icon_liked : node :=
  Elem (mkProps "svg" ["like-icon"] []
          (mkStyle liked_colour liked_colour "" "" "") false) [].
Definition text_liked : node := el "span" ["like-text"] [] [Text liked_label].

Definition button_7 : node :=
  el "button" ["like-button"] [("data-post-id", "7")] [icon_plain; text_plain].

Definition button_8 : node :=
  el "button" ["like-button"; "liked"] [("data-post-id", "8")]
    [icon_liked; text_liked].

Definition card (b : node) : node :=
  el "div" ["article-card"] [] [el "h2" [] [] [Text "title"]; b].

(** A page with a viewer identity given by [content] and two cards. *)
Definition page_with (meta : list node) : node :=
  el "html" [] []
    [ el "head" [] [] meta;
      el "body" [] []
        [ el "div" ["articles-list"] [] [card button_7; card button_8] ] ].

Definition meta_user (content : string) : node :=
  el "meta" [] [("name", "user-id"); ("content", content)] [].

Definition page_42 : node := page_with [meta_user "42"].
Definition page_anonymous : node := page_with [].
Definition page_zero : node := page_with [meta_user "0"].

(** A liked-items page whose list holds a single card. *)
Definition page_last_card : node :=
  el "html" [] []
    [ el "head" [] [] [meta_user "42"];
      el "body" [] [] [ el "div" ["articles-list"] [] [card button_8] ] ].

Definition list_ref : path := [1; 0]%nat.
Definition button_7_ref : path := [1; 0; 0; 1]%nat.
Definition card_8_ref : path := [1; 0; 1]%nat.
Definition button_8_ref : path := [1; 0; 1; 1]%nat.

(** A liked button whose icon has a shape inside, on a page of its own. *)
Definition icon_heart (st : Style) : node :=
  Elem (mkProps "svg" ["like-icon"] [("viewBox", "0 0 24 24")] st false)
    [el "path" [] [("d", "M12 21 4 12a5 5 0 0 1 8-6 5 5 0 0 1 8 6z")] []].

Definition button_9 : node :=
  el "button" ["like-button"; "liked"] [("data-post-id", "9")]
    [icon_heart (mkStyle liked_colour liked_colour "" "" ""); text_liked].

Definition page_heart : node :=
  el "html" [] []
    [ el "head" [] [] [meta_user "42"];
      el "body" [] [] [ el "div" ["articles-list"] [] [card button_9] ] ].

Definition button_9_ref : path := [1; 0; 0; 1]%nat.

Definition world_of (d : node) : World := mkWorld d [].

Definition ok_liked (b : bool) : FetchOutcome :=
  Responded (mkResponse true (Some (JObj [("liked", JBool b)])) (Some "")).

Definition server_error : FetchOutcome :=
  Responded (mkResponse false None (Some "Internal Server Error")).

End Samples.

(* ------------------------------------------------------------------ *)
(** ** What is observed of a run *)

Module Obs.
Import Js Dom Async Likes LikedPosts Page.

(** A non-success answer of the network: no response, or one whose status
    is not a success status. *)
Definition failed (o : FetchOutcome) : Prop :=
  o = NetworkFailure \/ exists r, o = Responded r /\ ok r = false.

(** Two references neither of which leads through the other. *)
Definition apart (p q : path) : Prop :=
  is_prefix p q = false /\ is_prefix q p = false.

(** A function on nodes that leaves every query as it was. *)
Definition keeps_queries (F : node -> node) : Prop :=
  forall sel x, qs_node sel (F x) = qs_node sel x.

(** A function on nodes that keeps an element's own properties and can
    only replace what is below an element by text. *)
Definition only_sets_text (G : node -> node) : Prop :=
  forall x,
    match x with
    | Elem pr _ =>
        exists ks, G x = Elem pr ks
                   /\ forall sel c, In c ks -> qs_node sel c = None
    | Text s => G x = Text s
    end.

(** The visual state of a like button, as [updateLikeButton] writes it and
    as a reader of the page finds it: the [liked] class, the fill and
    stroke of the icon and the text of the label. *)
Record Visual : Type := mkVisual {
  shows_liked : bool;
  icon_paint : option (string * string);
  label_text : option string
}.

Definition visual_of (button : node) : option Visual :=
  match button with
  | Elem pr _ =>
      Some (mkVisual (has_class "liked" pr)
              match qs_inside like_icon button with
              | Some q =>
                  option_map (fun p => (fill (style p), stroke (style p)))
                    (props_at button q)
              | None => None
              end
              match qs_inside like_text button with
              | Some q => option_map textContent (get button q)
              | None => None
              end)
  | Text _ => None
  end.

Definition visual_state (d : node) (button : path) : option Visual :=
  match get d button with
  | Some n => visual_of n
  | None => None
  end.

(** The visual state that stands for a boolean, on a button that has, or
    has not, an icon and a label. *)
Definition painted (liked has_icon has_text : bool) : Visual :=
  mkVisual liked
    (if has_icon
     then Some (if liked then (liked_colour, liked_colour) else ("none", ""))
     else None)
    (if has_text
     then Some (if liked then liked_label else like_label)
     else None).

(** Whether a query found something, and what it found as a list. *)
Definition is_some {A : Type} (o : option A) : bool :=
  match o with Some _ => true | None => false end.

Definition olist {A : Type} (o : option A) : list A :=
  match o with Some a => [a] | None => [] end.

(** What identifies an element apart from its style, its state and its
    content: tag, classes and attributes. *)
Definition outline (n : node) : option (string * list string * list (string * string)) :=
  match n with
  | Elem pr _ => Some (tagName pr, classList pr, attributes pr)
  | Text _ => None
  end.

(** A text update at [q] spares the reference [p]: [q] is [p] itself or
    does not lead to [p]. *)
Definition spares (q p : path) : Prop := is_prefix q p = false \/ q = p.

(** Children of a node, each reduced to its outline. *)
Definition children_outline (n : node) :=
  match n with
  | Elem _ ks => map outline ks
  | Text _ => []
  end.

(** The two branches of [updateLikeButton] on the button itself. *)
Definition paint_with (cop : list string -> list string)
    (fv sv lb : string) (n : node) : node :=
  let icon := qs_inside like_icon n in
  let text := qs_inside like_text n in
  let d1 := update_at [] (on_props (fun pr => with_classes (cop (classList pr)) pr)) n in
  let d2 :=
    match icon with
    | Some i => set_style i (with_stroke sv) (set_style i (with_fill fv) d1)
    | None => d1
    end in
  match text with
  | Some t => set_textContent t lb d2
  | None => d2
  end.

(** The content of the user-id meta element, when the page has one (a
    missing [content] attribute reads as the empty string). *)
Definition meta_content (d : node) : option string :=
  match qs_node user_meta d with
  | Some m =>
      Some match getAttribute d m "content" with Some c => c | None => "" end
  | None => None
  end.

(** No viewer identity: the meta element is missing, or its content is
    empty, blank or not a number. *)
Definition no_identity (d : node) : Prop :=
  match meta_content d with
  | None => True
  | Some c => c = "" \/ trim c = "" \/ parseInt c = NaN
  end.

(** In the button [b] the label does not enclose the icon. *)
Definition label_spares_icon (d : node) (b : path) : Prop :=
  forall i t,
    querySelector like_icon b d = Some i ->
    querySelector like_text b d = Some t -> spares t i.

(** The shape of the page that status sync relies on: like buttons are
    not nested in one another, and in a button the label does not enclose
    the icon. *)
Definition buttons_well_formed (d : node) : Prop :=
  ForallOrdPairs apart (qsa_node like_button_with_id d)
  /\ forall b, In b (qsa_node like_button_with_id d) -> label_spares_icon d b.

(** The element a query found, with everything that is below it in the
    document. *)
Definition subtree (d : node) (ref : option path) : option node :=
  match ref with
  | Some r => get d r
  | None => None
  end.

(** The icon and the label as [updateLikeButton] paints them for a
    boolean. *)
Definition paint_icon (liked : bool) (n : node) : node :=
  on_props
    (fun p =>
       with_style
         (with_stroke (if liked then liked_colour else "")
            (with_fill (if liked then liked_colour else "none") (style p))) p)
    n.

Definition paint_label (liked : bool) (n : node) : node :=
  on_children (fun _ => [Text (if liked then liked_label else like_label)]) n.

(** The children of a button that was rebuilt from the captured icon and
    label and then repainted: the icon with its new fill and stroke, the
    label with its new text, both otherwise as they were captured.  (Should
    the captured icon hold a label of its own, that one is the first label
    of the rebuilt button and takes the text.) *)
Definition repainted (liked : bool) (icon text : option node) : list node :=
  match icon, text with
  | Some ni, Some nt =>
      match qs_node like_text ni with
      | Some q => [update_at q (paint_label liked) (paint_icon liked ni); nt]
      | None => [paint_icon liked ni; paint_label liked nt]
      end
  | Some ni, None => [paint_icon liked ni]
  | None, Some nt => [paint_label liked nt]
  | None, None => []
  end.

(** Runs of the event loop in which every click lands on the button [b]:
    [b] is the nearest like button of the click's target.  Responses may
    arrive at any time, for any request slot and with any outcome. *)
Inductive clicks_on (b : path) : Sys -> list Event -> Sys -> Prop :=
| run_done (s : Sys) : clicks_on b s [] s
| run_click (s : Sys) (target : path) (evs : list Event) (s' : Sys) :
    closest like_button (doc (world s)) target = Some b ->
    clicks_on b (step (Click target) s) evs s' ->
    clicks_on b s (Click target :: evs) s'
| run_respond (s : Sys) (i : nat) (o : FetchOutcome) (evs : list Event) (s' : Sys) :
    clicks_on b (step (Respond i o) s) evs s' ->
    clicks_on b s (Respond i o :: evs) s'.

(** The lock invariant: nothing is in flight, or one request is and the
    button is disabled until its continuation, which always finishes, has
    run. *)
Definition locked_or_idle (b : path) (s : Sys) : Prop :=
  inflight s = []
  \/ exists r k,
       inflight s = [(r, k)]
       /\ disabled_at (doc (world s)) b = true
       /\ forall o w, exists c w', k o w = Finished c w'.

End Obs.

(* ------------------------------------------------------------------ *)
(** ** likes.js: the liked-items query and the mutation observer *)

Module LikesMore.
Import Js Dom Async Likes LikedPosts Obs.
Local Open Scope task_scope.

Definition list_request (userId : option Z) : Request :=
  mkRequest ("/api/likes/user/" ++ id_to_string userId)%string GET [] None.

(** [like.post_id] for one item of the parsed body. *)
Definition get_post_id (like : json) : Task jsval :=
  match like with
  | JNull => throw "TypeError: Cannot read properties of null"
  | JObj fields => ret (field "post_id" fields)
  | _ => ret None
  end.

Fixpoint map_post_ids (likes : list json) : Task (list jsval) :=
  match likes with
  | [] => ret []
  | like :: rest =>
      v <- get_post_id like ;;
      vs <- map_post_ids rest ;;
      ret (v :: vs)
  end.

(** [likes.map(like => like.post_id)]: only an array has a [map] to
    call. *)
Definition likes_map (likes : json) : Task (list jsval) :=
  match likes with
  | JArr items => map_post_ids items
  | JNull => throw "TypeError: Cannot read properties of null"
  | _ => throw "TypeError: likes.map is not a function"
  end.

(** [getLikedPosts(userId)]. *)
Definition getLikedPosts (userId : option Z) : Task (list jsval) :=
  if negb (truthy_id userId) then ret []
  else
    try_catch
      (response <- fetch (list_request userId) ;;
       if negb (ok response) then
         (_ <- response_text response ;;
          console_error "Error fetching liked posts:" ;;
          ret [])
       else
         (likes <- response_json response ;;
          likes_map likes))
      (fun error =>
         console_error "Error fetching liked posts:" ;;
         ret []).

(** [like.post_id] for an item that is not [null]. *)
Definition post_id_field (like : json) : jsval :=
  match like with
  | JObj fields => field "post_id" fields
  | _ => None
  end.

(** What [likes.map(like => like.post_id)] yields for the items of an
    array: nothing when an item is [null]. *)
Fixpoint post_ids (items : list json) : option (list jsval) :=
  match items with
  | [] => Some []
  | JNull :: _ => None
  | like :: rest =>
      match post_ids rest with
      | Some vs => Some (post_id_field like :: vs)
      | None => None
      end
  end.

(** What [getLikedPosts] makes of the answer of the network. *)
Definition list_answer (o : FetchOutcome) : list jsval :=
  match o with
  | NetworkFailure => []
  | Responded r =>
      if ok r then
        match json_body r with
        | Some (JArr items) =>
            match post_ids items with
            | Some ids => ids
            | None => []
            end
        | _ => []
        end
      else []
  end.

(** The test the mutation observer applies to one added node:
    [node.nodeType === 1 && (node.classList.contains('article-card') ||
    node.querySelector('.article-card') ||
    node.querySelector('.like-button'))]. *)
Definition node_calls_for_sync (n : node) : bool :=
  match n with
  | Elem pr _ =>
      has_class "article-card" pr
      || is_some (qs_inside article_card n)
      || is_some (qs_inside like_button n)
  | Text _ => false
  end.

(** [shouldReinitialize] for a batch of mutation records, each given by
    its [addedNodes]. *)
Definition shouldReinitialize (mutations : list (list node)) : bool :=
  existsb (fun addedNodes => existsb node_calls_for_sync addedNodes) mutations.

(** One turn of the event loop on a page of the given view. *)
Definition step_on (v : Page.view) (ev : Page.Event) (s : Page.Sys) : Page.Sys :=
  match ev with
  | Page.Click target =>
      Page.absorb (Page.dispatch_click v target (Page.world s)) (Page.inflight s)
  | Page.Respond i o =>
      match nth_error (Page.inflight s) i with
      | Some (_, k) =>
          Page.absorb (k o (Page.world s)) (remove_nth i (Page.inflight s))
      | None => s
      end
  end.

(** What a status query makes of the answer of the network: the parsed
    body of a successful response, and [false] for everything else. *)
Definition status_answer (o : FetchOutcome) : jsval :=
  match o with
  | NetworkFailure => js_false
  | Responded r =>
      if ok r then
        match json_body r with
        | Some j => Some j
        | None => js_false
        end
      else js_false
  end.

(** [result.liked] as [toggleLike] reads it off a parsed body that is not
    [null]. *)
Definition liked_of (result : json) : jsval :=
  match result with
  | JObj fields => field "liked" fields
  | _ => None
  end.

(** The buttons [initializeLikes] queries: those selected by
    [.like-button[data-post-id]] whose item reference is a number. *)
Definition synced_buttons (d : node) : list path :=
  filter (fun b => negb (isNaN (post_id_of d b)))
    (qsa_node like_button_with_id d).

(** One write of a script to the document, as far as a reference [b]
    held across an [await] is concerned.  The properties of any element
    may be written.  The list of children may be rewritten for [b] itself
    and for any element that is not an ancestor of [b]: no node is then
    inserted or removed on the way to [b], which stays where it was. *)
Inductive write_in_place (b : path) : node -> node -> Prop :=
| write_props (p : path) (g : Props -> Props) (d : node) :
    write_in_place b d (update_at p (on_props g) d)
| write_children (p : path) (h : list node -> list node) (d : node) :
    spares p b ->
    write_in_place b d (update_at p (on_children h) d).

(** The documents in which the reference [b], taken in the document [d],
    still denotes the element it was taken from: those reached from [d] by
    writes in place. *)
Inductive stays_put (b : path) (d : node) : node -> Prop :=
| stays_refl : stays_put b d d
| stays_step (d1 d2 : node) :
    stays_put b d d1 -> write_in_place b d1 d2 -> stays_put b d d2.

(** What is known of a suspended status query for the button [b], sent
    in the document [d]: resumed in a document in which [b] still denotes
    the button, it paints the button from the answer. *)
Definition paints_from_answer (userId : option Z) (d : node) (b : path)
    (q : Suspended) : Prop :=
  fst q = status_request userId (post_id_of d b)
  /\ forall o w2,
       stays_put b d (doc w2) ->
       exists errs,
         snd q o w2
         = Finished (Normal tt)
             (mkWorld (updateLikeButton (Some b) (status_answer o) (doc w2))
                (trace w2 ++ map EConsoleError errs)).

(** The answers of the network that send [toggleLike] to its [catch]
    block: no response, a non-success status, a body that is not JSON, or
    the body [null]. *)
Definition toggle_fails (o : FetchOutcome) : Prop :=
  match o with
  | NetworkFailure => True
  | Responded r =>
      ok r = false \/ json_body r = None \/ json_body r = Some JNull
  end.

(** The answers that send [toggleLike] to its [catch] block before the
    body of the response was read. *)
Definition fails_before_body (o : FetchOutcome) : Prop :=
  match o with
  | NetworkFailure => True
  | Responded r => ok r = false \/ json_body r = None
  end.

(** A successful response whose body is [null]. *)
Definition answers_null (o : FetchOutcome) : Prop :=
  exists r, o = Responded r /\ ok r = true /\ json_body r = Some JNull.

(** The children of a button that was rebuilt from the captured icon and
    label and then went through the [catch] block of [toggleLike]: the
    two clones, unpainted.  (Should the captured icon hold a label of its
    own, that label is the one the [catch] block finds and appends: it is
    moved out of the icon, and the second clone is dropped.) *)
Definition caught_content (icon text : option node) : list node :=
  match icon, text with
  | Some ni, Some nt =>
      match qs_node like_text ni with
      | None => [ni; nt]
      | Some [] => [ni]
      | Some q => remove_at q ni :: olist (get ni q)
      end
  | _, _ => olist icon ++ olist text
  end.

(** Runs of the event loop of a page in which every click lands on the
    button [b]. *)
Inductive clicks_on_view (v : Page.view) (b : path)
    : Page.Sys -> list Page.Event -> Page.Sys -> Prop :=
| view_done (s : Page.Sys) : clicks_on_view v b s [] s
| view_click (s : Page.Sys) (target : path) (evs : list Page.Event)
    (s' : Page.Sys) :
    closest like_button (doc (Page.world s)) target = Some b ->
    clicks_on_view v b (step_on v (Page.Click target) s) evs s' ->
    clicks_on_view v b s (Page.Click target :: evs) s'
| view_respond (s : Page.Sys) (i : nat) (o : FetchOutcome)
    (evs : list Page.Event) (s' : Page.Sys) :
    clicks_on_view v b (step_on v (Page.Respond i o) s) evs s' ->
    clicks_on_view v b s (Page.Respond i o :: evs) s'.

End LikesMore.

(* ------------------------------------------------------------------ *)
(** ** theme.js *)

Module Theme.
Import Dom.

(** A key-value list written the way [setAttribute] and
    [localStorage.setItem] write: an existing key keeps its place. *)
Fixpoint set_key (k v : string) (l : list (string * string))
    : list (string * string) :=
  match l with
  | [] => [(k, v)]
  | (k', v') :: rest =>
      if String.eqb k' k then (k, v) :: rest
      else (k', v') :: set_key k v rest
  end.

Definition get_key (k : string) (l : list (string * string)) : option string :=
  option_map snd (find (fun kv => String.eqb (fst kv) k) l).

Definition with_attributes (a : list (string * string)) (pr : Props) : Props :=
  mkProps (tagName pr) (classList pr) a (style pr) (disabled pr).

(** [ref.setAttribute(k, v)]. *)
Definition setAttribute (ref : path) (k v : string) (d : node) : node :=
  update_at ref
    (on_props (fun pr => with_attributes (set_key k v (attributes pr)) pr)) d.

Section FindNode.
Variable pred : Props -> bool.

(** First element in tree order that satisfies [pred]. *)
Fixpoint find_node (n : node) : option path :=
  match n with
  | Text _ => None
  | Elem pr kids =>
      if pred pr then Some [] else find_first find_node kids 0
  end.
End FindNode.

(** [document.getElementById(id)]. *)
Definition getElementById (id : string) (d : node) : option path :=
  find_node
    (fun pr =>
       match attr_of "id" pr with
       | Some v => String.eqb v id
       | None => false
       end) d.

(** The page as the script sees it: the document, whose root is
    [document.documentElement], and [localStorage]. *)
Record Store : Type := mkStore {
  page : node;
  storage : list (string * string)
}.

Definition sun : string := "☀️".
Definition moon : string := "🌙".

(** [x || 'light'] for a string or [null]. *)
Definition or_light (x : option string) : string :=
  match x with
  | Some s => if String.eqb s "" then "light" else s
  | None => "light"
  end.

(** [applyTheme(theme)], for the icon element found at load time. *)
Definition applyTheme (themeIcon : option path) (theme : string)
    (s : Store) : Store :=
  let d1 := setAttribute [] "data-theme" theme (page s) in
  let st := set_key "theme" theme (storage s) in
  let d2 :=
    match themeIcon with
    | Some icon =>
        if String.eqb theme "dark"
        then set_children icon [Text sun] d1
        else set_children icon [Text moon] d1
    | None => d1
    end in
  mkStore d2 st.

(** What the script holds after it ran at load time: the store, and the
    toggle and icon elements it found. *)
Record Loaded : Type := mkLoaded {
  store : Store;
  themeToggle : option path;
  themeIcon : option path
}.

(** The body of the script, run once at load time. *)
Definition load (s : Store) : Loaded :=
  let toggle := getElementById "theme-toggle" (page s) in
  let icon := getElementById "theme-icon" (page s) in
  let savedTheme := or_light (get_key "theme" (storage s)) in
  mkLoaded (applyTheme icon savedTheme s) toggle icon.

(** The click listener on the toggle; without a toggle element there is
    no listener. *)
Definition toggle_click (l : Loaded) : Loaded :=
  match themeToggle l with
  | None => l
  | Some _ =>
      let currentTheme :=
        or_light (getAttribute (page (store l)) [] "data-theme") in
      let newTheme :=
        if String.eqb currentTheme "light" then "dark" else "light" in
      mkLoaded (applyTheme (themeIcon l) newTheme (store l))
        (themeToggle l) (themeIcon l)
  end.

(** The theme the page shows. *)
Definition current_theme (s : Store) : option string :=
  getAttribute (page s) [] "data-theme".

(** What holds of the loaded script after any number of clicks. *)
Definition settled (l : Loaded) : Prop :=
  (exists pr ks, page (store l) = Elem pr ks)
  /\ (forall icon, themeIcon l = Some icon ->
        exists pi ki, get (page (store l)) icon = Some (Elem pi ki))
  /\ exists t,
       current_theme (store l) = Some t
       /\ get_key "theme" (storage (store l)) = Some t
       /\ t <> ""
       /\ forall icon, themeIcon l = Some icon ->
            exists pi,
              get (page (store l)) icon
              = Some (Elem pi [Text (if String.eqb t "dark" then sun else moon)]).

(** A page with the toggle button and its icon. *)
Definition themed_page : node :=
  Samples.el "html" [] [("lang", "ru")]
    [ Samples.el "body" [] []
        [ Samples.el "button" [] [("id", "theme-toggle")]
            [ Samples.el "span" [] [("id", "theme-icon")] [Text moon] ];
          Samples.el "main" [] [] [Text "posts"] ] ].

End Theme.

(* ------------------------------------------------------------------ *)
(** ** Facts about strings and [parseInt] *)

Module JsFacts.
Import Js.

Lemma drop_ws_head (s : string) (a : ascii) (r : string) :
  drop_ws s = String a r -> is_ws a = false.
Proof.
  induction s as [|c s IH]; cbn; [discriminate|].
  destruct (is_ws c) eqn:E; [exact IH|].
  intros H; injection H as -> _; exact E.
Qed.

Lemma drop_ws_empty (s : string) :
  drop_ws s = "" -> forallb is_ws (list_ascii_of_string s) = true.
Proof.
  induction s as [|c s IH]; cbn; [reflexivity|].
  destruct (is_ws c); [exact IH | discriminate].
Qed.

Lemma rev_string_empty (s : string) : rev_string s = "" -> s = "".
Proof.
  unfold rev_string; intros H.
  apply (f_equal list_ascii_of_string) in H.
  rewrite list_ascii_of_string_of_list_ascii in H; cbn in H.
  destruct s as [|c s]; [reflexivity|].
  cbn in H. apply (f_equal (@List.length ascii)) in H.
  rewrite length_app in H; cbn in H; lia.
Qed.

Lemma forallb_rev {A : Type} (f : A -> bool) (l : list A) :
  forallb f (rev l) = forallb f l.
Proof.
  induction l as [|x l IH]; cbn; [reflexivity|].
  rewrite forallb_app, IH; cbn. rewrite andb_true_r, andb_comm; reflexivity.
Qed.

(** A string whose trimmed form is empty holds white space only. *)
Lemma trim_empty (s : string) : trim s = "" -> drop_ws s = "".
Proof.
  unfold trim; intros H.
  apply rev_string_empty, drop_ws_empty in H.
  unfold rev_string in H.
  rewrite list_ascii_of_string_of_list_ascii, forallb_rev in H.
  destruct (drop_ws s) as [|a r] eqn:E; [reflexivity|].
  apply drop_ws_head in E. cbn in H. rewrite E in H. discriminate.
Qed.

Example parseInt_decimal : parseInt "42" = Num 42.
Proof. reflexivity. Qed.

Example parseInt_prefix : parseInt "  7px" = Num 7.
Proof. reflexivity. Qed.

Example parseInt_hex : parseInt "-0x1F" = Num (-31).
Proof. reflexivity. Qed.

Example parseInt_null : parseInt "null" = NaN.
Proof. reflexivity. Qed.

Example parseInt_blank : parseInt "   " = NaN.
Proof. reflexivity. Qed.

Example trim_both_ends : trim "  a b  " = "a b".
Proof. reflexivity. Qed.

(** [parseInt] yields a number only on a string with something left after
    leading white space. *)
Lemma parseInt_num_not_blank (s : string) (z : Z) :
  parseInt s = Num z -> s <> "" /\ trim s <> "".
Proof.
  intros H.
  assert (D : drop_ws s <> "").
  { intros E. unfold parseInt in H. rewrite E in H. cbn in H. discriminate. }
  split.
  - intros ->. apply D. reflexivity.
  - intros E. apply D, trim_empty, E.
Qed.

End JsFacts.

(* ------------------------------------------------------------------ *)
(** ** Facts about references and updates *)

Module DomFacts.
Import Dom Obs.

Lemma nth_error_update_nth_same {A : Type} (i : nat) (f : A -> A) (l : list A) :
  nth_error (update_nth i f l) i = option_map f (nth_error l i).
Proof.
  revert i; induction l as [|x l IH]; intros [|i]; cbn; auto.
Qed.

Lemma nth_error_update_nth_other {A : Type} (i j : nat) (f : A -> A) (l : list A) :
  i <> j -> nth_error (update_nth i f l) j = nth_error l j.
Proof.
  revert i j; induction l as [|x l IH]; intros [|i] [|j] H; cbn; auto.
  congruence.
Qed.

Lemma update_nth_compose {A : Type} (i : nat) (f g : A -> A) (l : list A) :
  update_nth i g (update_nth i f l) = update_nth i (fun x => g (f x)) l.
Proof.
  revert i; induction l as [|x l IH]; intros [|i]; cbn; auto.
  rewrite IH; reflexivity.
Qed.

Lemma update_nth_ext {A : Type} (i : nat) (f g : A -> A) (l : list A) :
  (forall x, f x = g x) -> update_nth i f l = update_nth i g l.
Proof.
  intros H; revert i; induction l as [|x l IH]; intros [|i]; cbn; auto.
  - rewrite H; reflexivity.
  - rewrite IH; reflexivity.
Qed.

Lemma update_nth_id {A : Type} (i : nat) (f : A -> A) (l : list A) :
  (forall x, nth_error l i = Some x -> f x = x) -> update_nth i f l = l.
Proof.
  revert i; induction l as [|x l IH]; intros [|i] H; cbn; auto.
  - rewrite H; reflexivity.
  - rewrite IH; auto.
Qed.

Lemma update_at_ext (p : path) (f g : node -> node) (n : node) :
  (forall x, f x = g x) -> update_at p f n = update_at p g n.
Proof.
  intros H; revert n; induction p as [|i p IH]; intros n; cbn; auto.
  destruct n as [pr kids|s]; auto.
  f_equal. apply update_nth_ext, IH.
Qed.

(** Reading back through the reference that was written. *)
Lemma get_update_at_same (p : path) (f : node -> node) (n : node) :
  get (update_at p f n) p = option_map f (get n p).
Proof.
  revert n; induction p as [|i p IH]; intros n; cbn; auto.
  destruct n as [pr kids|s]; cbn; auto.
  rewrite nth_error_update_nth_same.
  destruct (nth_error kids i); cbn; auto.
Qed.

Lemma update_at_compose (p : path) (f g : node -> node) (n : node) :
  update_at p g (update_at p f n) = update_at p (fun x => g (f x)) n.
Proof.
  revert n; induction p as [|i p IH]; intros n; cbn; auto.
  destruct n as [pr kids|s]; cbn; auto.
  rewrite update_nth_compose. f_equal. apply update_nth_ext, IH.
Qed.

Lemma update_at_app (p q : path) (f : node -> node) (n : node) :
  update_at (p ++ q) f n = update_at p (update_at q f) n.
Proof.
  revert n; induction p as [|i p IH]; intros n; cbn; auto.
  destruct n as [pr kids|s]; cbn; auto.
  f_equal. apply update_nth_ext, IH.
Qed.

Lemma get_app (p q : path) (n : node) :
  get n (p ++ q) = match get n p with Some m => get m q | None => None end.
Proof.
  revert n; induction p as [|i p IH]; intros n; cbn; auto.
  destruct n as [pr kids|s]; auto.
  destruct (nth_error kids i); auto.
Qed.

(** Writing through a reference that points nowhere changes nothing. *)
Lemma update_at_stale (p : path) (f : node -> node) (n : node) :
  get n p = None -> update_at p f n = n.
Proof.
  revert n; induction p as [|i p IH]; intros n; cbn; [discriminate|].
  destruct n as [pr kids|s]; auto.
  intros H. f_equal. apply update_nth_id.
  intros x Hx. rewrite Hx in H. apply IH, H.
Qed.

Lemma update_at_id (p : path) (f : node -> node) (n : node) :
  (forall x, get n p = Some x -> f x = x) -> update_at p f n = n.
Proof.
  revert n; induction p as [|i p IH]; intros n H; cbn; [apply H; reflexivity|].
  destruct n as [pr kids|s]; auto.
  f_equal. apply update_nth_id.
  intros x Hx. apply IH. intros y Hy. apply H. cbn. rewrite Hx. exact Hy.
Qed.

Lemma apart_sym (p q : path) : apart p q -> apart q p.
Proof. intros [H1 H2]; split; assumption. Qed.

(** A write through one reference is not seen through a reference that is
    apart from it. *)
Lemma get_update_at_apart (p q : path) (f : node -> node) (n : node) :
  apart p q -> get (update_at p f n) q = get n q.
Proof.
  unfold apart. revert q n; induction p as [|i p IH]; intros q n [H1 H2].
  - cbn in H1. discriminate.
  - destruct q as [|j q]; [cbn in H2; discriminate|].
    cbn in H1, H2 |- *.
    destruct n as [pr kids|s]; auto. cbn.
    destruct (Nat.eqb_spec i j) as [->|Hij].
    + rewrite Nat.eqb_refl in H2. cbn in H1, H2.
      rewrite nth_error_update_nth_same.
      destruct (nth_error kids j); cbn; auto.
    + rewrite nth_error_update_nth_other by assumption. reflexivity.
Qed.

End DomFacts.

(* ------------------------------------------------------------------ *)
(** ** Status queries and identity *)

Module IdentityFacts.
Import Js Dom Async Likes LikedPosts Page Samples Obs JsFacts DomFacts.

(** Unfold the task combinators in the goal and run what can be run. *)
Ltac run_task :=
  cbv beta iota delta
    [bind try_catch ret throw read_doc modify_doc emit alert console_error
     reload setTimeout fetch response_json response_text get_liked run_with];
  cbn [bind_res catch_res doc trace negb orb andb].

Example page_42_identity : getCurrentUserId page_42 = Some 42%Z.
Proof. reflexivity. Qed.

Example page_42_status_url :
  url (status_request (Some 42%Z) (Num 7)) = "/api/likes/user/42/post/7".
Proof. reflexivity. Qed.

Example page_42_list : setupLikedPostsPage page_42 = Some list_ref.
Proof. reflexivity. Qed.

Example page_42_button_of_click :
  closest like_button page_42 (button_7_ref ++ [1; 0])%nat = Some button_7_ref.
Proof. reflexivity. Qed.

Example page_42_sync_starts_two_queries :
  let '(w, pending) := initializeLikes (world_of page_42) in
  map url (requests (trace w))
  = ["/api/likes/user/42/post/7"; "/api/likes/user/42/post/8"]
  /\ List.length pending = 2.
Proof. split; reflexivity. Qed.

Lemma requests_app (t u : list Effect) :
  requests (t ++ u) = requests t ++ requests u.
Proof. unfold requests. apply flat_map_app. Qed.

Lemma alerts_app (t u : list Effect) :
  alerts (t ++ u) = alerts t ++ alerts u.
Proof. unfold alerts. apply flat_map_app. Qed.

(** C8. A status query whose request fails, or is answered with a
    non-success status, returns normally with the value [false]: the
    failure is logged to the console, nothing is thrown to the caller and
    no notice is shown.  Whatever the network answers, [isLiked] never
    throws. *)
Theorem isLiked_swallows_failures :
  forall (postId : jsnum) (userId : option Z) (w : World) (o : FetchOutcome),
    (exists v w', run_with o (isLiked postId userId w) = Finished (Normal v) w')
    /\ (failed o ->
        exists w',
          run_with o (isLiked postId userId w) = Finished (Normal js_false) w'
          /\ doc w' = doc w
          /\ alerts (trace w') = alerts (trace w)).
Proof.
  intros postId userId w o. unfold isLiked.
  destruct (truthy_id userId); cbn [negb].
  - split.
    + run_task. destruct o as [|r]; run_task; [eauto|].
      destruct (ok r); run_task.
      * destruct (json_body r); run_task; eauto.
      * destruct (text_body r); run_task; eauto.
    + intros [->|(r & -> & Hr)]; run_task.
      * eexists; split; [reflexivity|]. cbn. split; [reflexivity|].
        rewrite !alerts_app; cbn; rewrite !app_nil_r; reflexivity.
      * rewrite Hr; run_task.
        destruct (text_body r); run_task;
          (eexists; split; [reflexivity|]; cbn; split; [reflexivity|];
           rewrite !alerts_app; cbn; rewrite !app_nil_r; reflexivity).
  - run_task. split; [eauto|]. intros _. eauto.
Qed.

Lemma isLiked_swallows_failures_witness :
  failed server_error
  /\ exists w',
       run_with server_error (isLiked (Num 7) (Some 42%Z) (world_of page_42))
       = Finished (Normal js_false) w'
       /\ doc w' = doc (world_of page_42)
       /\ alerts (trace w') = alerts (trace (world_of page_42)).
Proof.
  assert (F : failed server_error).
  { right. exists (mkResponse false None (Some "Internal Server Error")).
    split; reflexivity. }
  split; [exact F|].
  exact (proj2 (isLiked_swallows_failures (Num 7) (Some 42%Z)
                  (world_of page_42) server_error) F).
Defined.

(** C9. When the content of the user-id meta element parses to the integer
    0, [getCurrentUserId] returns the number 0 (not [null]); with that
    identity [isLiked] returns [false] at once without a request, and
    [toggleLike] shows the sign-in notice and returns [false] without a
    request. *)
Theorem zero_identity_is_anonymous :
  forall (d : node) (userMeta : path) (content : string)
         (postId : jsnum) (button : option path) (w : World),
    qs_node user_meta d = Some userMeta ->
    getAttribute d userMeta "content" = Some content ->
    parseInt content = Num 0 ->
    getCurrentUserId d = Some 0%Z
    /\ isLiked postId (Some 0%Z) w = Finished (Normal js_false) w
    /\ toggleLike postId (Some 0%Z) button w
       = Finished (Normal js_false)
           (mkWorld (doc w) (trace w ++ [EAlert sign_in_notice])).
Proof.
  intros d userMeta content postId button w Hm Hc Hp.
  split; [|split; reflexivity].
  unfold getCurrentUserId. rewrite Hm, Hc.
  destruct (parseInt_num_not_blank _ _ Hp) as [H1 H2].
  apply String.eqb_neq in H1, H2. rewrite H1, H2, Hp. reflexivity.
Qed.

Lemma zero_identity_is_anonymous_witness :
  getCurrentUserId page_zero = Some 0%Z
  /\ isLiked (Num 7) (Some 0%Z) (world_of page_zero)
     = Finished (Normal js_false) (world_of page_zero)
  /\ toggleLike (Num 7) (Some 0%Z) (Some button_7_ref) (world_of page_zero)
     = Finished (Normal js_false)
         (mkWorld (doc (world_of page_zero))
            (trace (world_of page_zero) ++ [EAlert sign_in_notice])).
Proof.
  apply (zero_identity_is_anonymous page_zero [0; 0]%nat "0" (Num 7)
           (Some button_7_ref) (world_of page_zero));
    reflexivity.
Defined.

End IdentityFacts.

(* ------------------------------------------------------------------ *)
(** ** The toggle handler: requests and anonymous viewers *)

Module ToggleFacts.
Import Js Dom Async Likes LikedPosts Page Samples Obs JsFacts DomFacts IdentityFacts.

(** Case analysis on whatever a [match] of the goal is stuck on. *)
Ltac split_match :=
  match goal with
  | |- context [match ?x with _ => _ end] =>
      match x with
      | context [match _ with _ => _ end] => fail 1
      | _ => destruct x eqn:?
      end
  end.

Ltac run_all := run_task; repeat (split_match; run_task).

(** Without an identity [toggleLike] only shows the sign-in notice. *)
Lemma toggleLike_anonymous (postId : jsnum) (userId : option Z)
    (button : option path) (w : World) :
  truthy_id userId = false ->
  toggleLike postId userId button w
  = Finished (Normal js_false)
      (mkWorld (doc w) (trace w ++ [EAlert sign_in_notice])).
Proof. intros H. unfold toggleLike. rewrite H. reflexivity. Qed.

(** Without an identity the listener of the liked-items page does
    nothing. *)
Lemma likedPosts_click_anonymous (likesManager : bool) (l target : path)
    (w : World) :
  truthy_id (getCurrentUserId (doc w)) = false ->
  likedPosts_click likesManager l target w = Finished (Normal tt) w.
Proof.
  intros H. unfold likedPosts_click. run_task.
  destruct (closest like_button (doc w) target); [|reflexivity].
  destruct (disabled_at (doc w) p); [reflexivity|].
  destruct likesManager; rewrite ?H; reflexivity.
Qed.

(** Without an identity the document's click listener sends nothing and
    leaves the document alone. *)
Lemma likes_click_anonymous (target : path) (w : World) :
  truthy_id (getCurrentUserId (doc w)) = false ->
  exists c w',
    likes_click target w = Finished c w'
    /\ doc w' = doc w /\ requests (trace w') = requests (trace w).
Proof.
  intros H. unfold likes_click. run_task.
  destruct (closest like_button (doc w) target) as [b|]; [|eauto].
  destruct (disabled_at (doc w) b); [eauto|].
  destruct (isNaN (post_id_of (doc w) b)).
  - run_task. do 2 eexists. split; [reflexivity|]. cbn.
    rewrite requests_app, app_nil_r. auto.
  - run_task. rewrite toggleLike_anonymous by exact H. run_task.
    do 2 eexists. split; [reflexivity|]. cbn.
    rewrite requests_app, app_nil_r. auto.
Qed.

(** C6, counterexample. On the liked-items page of an anonymous viewer a
    click on a like button is handled by the capturing listener alone,
    which returns without surfacing any notice. *)
Lemma liked_items_click_anonymous_shows_no_notice :
  getCurrentUserId page_anonymous = None
  /\ exists w',
       dispatch_click (LikedItemsView list_ref) button_7_ref
         (world_of page_anonymous)
       = Finished (Normal tt) w'
       /\ alerts (trace w') = [].
Proof.
  split; [reflexivity|].
  exists (world_of page_anonymous). split; reflexivity.
Qed.

(** C6, amended. Without a viewer identity no request is sent.
    [toggleLike] shows the sign-in notice and returns [false]; the
    listener of the liked-items page returns silently, leaving the world
    as it was; and a click dispatched on either kind of page finishes
    without a request and without a change to the document. *)
Theorem anonymous_never_calls_server :
  forall (postId : jsnum) (userId : option Z) (button : option path)
         (likesManager : bool) (l target : path) (v : view) (w : World),
    truthy_id userId = false ->
    getCurrentUserId (doc w) = userId ->
    toggleLike postId userId button w
    = Finished (Normal js_false)
        (mkWorld (doc w) (trace w ++ [EAlert sign_in_notice]))
    /\ likedPosts_click likesManager l target w = Finished (Normal tt) w
    /\ exists c w',
         dispatch_click v target w = Finished c w'
         /\ doc w' = doc w
         /\ requests (trace w') = requests (trace w).
Proof.
  intros postId userId button likesManager l target v w Hid Hdoc.
  rewrite <- Hdoc in Hid.
  split; [apply toggleLike_anonymous; rewrite <- Hdoc; exact Hid|].
  split; [apply likedPosts_click_anonymous, Hid|].
  destruct v as [|l0]; cbn [dispatch_click];
    [apply likes_click_anonymous, Hid|].
  run_task.
  destruct (is_prefix l0 target); [|apply likes_click_anonymous, Hid].
  destruct (stops_propagation (doc w) target).
  - rewrite likedPosts_click_anonymous by exact Hid. eauto.
  - rewrite likedPosts_click_anonymous by exact Hid.
    run_task. apply likes_click_anonymous, Hid.
Qed.

Lemma anonymous_never_calls_server_witness :
  toggleLike (Num 7) None (Some button_7_ref) (world_of page_anonymous)
  = Finished (Normal js_false)
      (mkWorld page_anonymous [EAlert sign_in_notice])
  /\ likedPosts_click true list_ref button_7_ref (world_of page_anonymous)
     = Finished (Normal tt) (world_of page_anonymous)
  /\ exists c w',
       dispatch_click GenericView button_7_ref (world_of page_anonymous)
       = Finished c w'
       /\ doc w' = page_anonymous
       /\ requests (trace w') = [].
Proof.
  apply (anonymous_never_calls_server (Num 7) None (Some button_7_ref) true
           list_ref button_7_ref GenericView (world_of page_anonymous));
    reflexivity.
Defined.






(** On the failure path of [toggleLike] the button is looked at only
    after its content was replaced by the loading indicator, so that for
    every button element the indicator is what is left in it. *)
Lemma toggleLike_failure_any_button (d : node) (b : path) (pr : Props)
    (kids : list node) (postId : jsnum) (userId : option Z)
    (tr : list Effect) (o : FetchOutcome) :
  get d b = Some (Elem pr kids) ->
  truthy_id userId = true ->
  failed o ->
  exists w',
    run_with o (toggleLike postId userId (Some b) (mkWorld d tr))
    = Finished (Normal js_false) w'
    /\ get (doc w') b = Some (Elem (with_disabled false pr) [spinner])
    /\ alerts (trace w') = alerts tr ++ [failure_notice].
Proof.
  intros Hb Hu Ho. unfold toggleLike. rewrite Hu. run_task.
  assert (G : get (set_disabled b false
                     (set_children b [spinner] (set_disabled b true d))) b
              = Some (Elem (with_disabled false pr) [spinner])).
  { unfold set_disabled, set_children.
    rewrite !update_at_compose, get_update_at_same, Hb. reflexivity. }
  assert (Q : querySelector like_icon b
                (set_disabled b false
                   (set_children b [spinner] (set_disabled b true d)))
              = None).
  { unfold querySelector. rewrite G. reflexivity. }
  destruct Ho as [->|(r & -> & Hr)]; run_task; rewrite ?Hr; run_task;
    rewrite Q; run_task;
    (eexists; split; [reflexivity|]; cbn [doc trace];
     split; [exact G|];
     rewrite !alerts_app; cbn; rewrite !app_nil_r; reflexivity).
Qed.

(** C1, at the failing input. Viewer 42 clicks the button of item 7, whose
    content is an icon and a label, and the request fails: once without a
    response, once with a non-success status.  Both times the handler
    returns [false], shows the failure notice, leaves the button enabled
    and its classes as they were -- but the content of the button is the
    loading indicator, not the icon and the label it had before the
    click. *)
Theorem toggleLike_failure_leaves_spinner :
  children_at page_42 button_7_ref = Some [icon_plain; text_plain]
  /\ (exists w',
        run_with NetworkFailure
          (toggleLike (Num 7) (Some 42%Z) (Some button_7_ref)
             (world_of page_42))
        = Finished (Normal js_false) w'
        /\ children_at (doc w') button_7_ref = Some [spinner]
        /\ disabled_at (doc w') button_7_ref = false
        /\ option_map classList (props_at (doc w') button_7_ref)
           = option_map classList (props_at page_42 button_7_ref)
        /\ alerts (trace w') = [failure_notice])
  /\ (exists w',
        run_with server_error
          (toggleLike (Num 7) (Some 42%Z) (Some button_7_ref)
             (world_of page_42))
        = Finished (Normal js_false) w'
        /\ children_at (doc w') button_7_ref = Some [spinner]
        /\ disabled_at (doc w') button_7_ref = false
        /\ option_map classList (props_at (doc w') button_7_ref)
           = option_map classList (props_at page_42 button_7_ref)
        /\ alerts (trace w') = [failure_notice]).
Proof.
  split; [reflexivity|].
  split; eexists; repeat split; reflexivity.
Qed.

End ToggleFacts.

(* ------------------------------------------------------------------ *)
(** ** Facts about selector queries *)

Module QueryFacts.
Import Dom Obs DomFacts.

Section FindFirst.
Context {A : Type}.
Variable f : A -> option path.

Lemma find_first_none (ks : list A) (i : nat) :
  find_first f ks i = None <-> (forall c, In c ks -> f c = None).
Proof.
  revert i; induction ks as [|k ks IH]; intros i; cbn.
  - split; [intros _ c []|reflexivity].
  - destruct (f k) as [p|] eqn:E.
    + split; [discriminate|]. intros H.
      rewrite (H k (or_introl eq_refl)) in E. discriminate.
    + rewrite IH. split.
      * intros H c [<-|Hc]; auto.
      * intros H c Hc. apply H. right. exact Hc.
Qed.

Lemma find_first_intro (ks : list A) (i j : nat) (c : A) (q : path) :
  nth_error ks j = Some c ->
  f c = Some q ->
  (forall k c', k < j -> nth_error ks k = Some c' -> f c' = None) ->
  find_first f ks i = Some ((i + j) :: q).
Proof.
  revert i j; induction ks as [|k ks IH]; intros i [|j] Hn Hf Hb; cbn in *;
    try discriminate.
  - injection Hn as ->. rewrite Hf, Nat.add_0_r. reflexivity.
  - rewrite (Hb 0 k) by (cbn; auto; lia).
    rewrite (IH (S i) j Hn Hf).
    + f_equal. f_equal. lia.
    + intros k' c' Hk Hc. apply (Hb (S k') c'); [lia|exact Hc].
Qed.

Lemma find_first_inv (ks : list A) (i : nat) (p : path) :
  find_first f ks i = Some p ->
  exists j q c,
    p = (i + j) :: q
    /\ nth_error ks j = Some c
    /\ f c = Some q
    /\ (forall k c', k < j -> nth_error ks k = Some c' -> f c' = None).
Proof.
  revert i; induction ks as [|k ks IH]; intros i; cbn; [discriminate|].
  destruct (f k) as [q|] eqn:E.
  - intros H; injection H as <-. exists 0, q, k.
    rewrite Nat.add_0_r. repeat split; auto. intros k' c' Hk; lia.
  - intros H. destruct (IH _ H) as (j & q & c & -> & Hn & Hf & Hb).
    exists (S j), q, c. repeat split; auto.
    + f_equal. lia.
    + intros [|k'] c' Hk Hc; cbn in Hc.
      * injection Hc as <-. exact E.
      * apply (Hb k' c'); [lia|exact Hc].
Qed.

Lemma find_first_update_same (F : A -> A) (ks : list A) (i j : nat) :
  (forall c, f (F c) = f c) ->
  find_first f (update_nth j F ks) i = find_first f ks i.
Proof.
  intros H. revert i j; induction ks as [|k ks IH]; intros i [|j]; cbn; auto.
  - rewrite H. reflexivity.
  - rewrite IH. reflexivity.
Qed.

Lemma find_first_update_none (F : A -> A) (ks : list A) (i j : nat) :
  (forall c, f c = None -> f (F c) = None) ->
  find_first f ks i = None ->
  find_first f (update_nth j F ks) i = None.
Proof.
  intros H. revert i j; induction ks as [|k ks IH]; intros i [|j]; cbn; auto.
  - destruct (f k) eqn:E; [discriminate|]. rewrite (H _ E). auto.
  - destruct (f k) eqn:E; [discriminate|]. apply IH.
Qed.

Lemma find_first_update_keep (F : A -> A) (ks : list A) (j : nat) (q : path) :
  find_first f ks 0 = Some (j :: q) ->
  (forall c, nth_error ks j = Some c -> f c = Some q -> f (F c) = Some q) ->
  find_first f (update_nth j F ks) 0 = Some (j :: q).
Proof.
  intros H HF.
  destruct (find_first_inv _ _ _ H) as (j' & q' & c & E & Hn & Hf & Hb).
  cbn in E. injection E as <- <-.
  apply (find_first_intro _ 0 j (F c)).
  - rewrite nth_error_update_nth_same, Hn. reflexivity.
  - apply HF; assumption.
  - intros k c' Hk Hc.
    rewrite nth_error_update_nth_other in Hc by lia. apply (Hb k c' Hk Hc).
Qed.
End FindFirst.

Lemma on_props_keeps_queries (g : Props -> Props) :
  (forall pr, tagName (g pr) = tagName pr
              /\ classList (g pr) = classList pr
              /\ attributes (g pr) = attributes pr) ->
  keeps_queries (on_props g).
Proof.
  intros H sel [pr ks|s]; cbn; auto.
  destruct (H pr) as (Ht & Hc & Ha).
  assert (M : matches sel (g pr) = matches sel pr).
  { destruct sel; cbn; unfold has_class, attr_of; rewrite ?Ht, ?Hc, ?Ha; reflexivity. }
  rewrite M. reflexivity.
Qed.

Lemma update_at_keeps_queries (q : path) (F : node -> node) :
  keeps_queries F -> keeps_queries (update_at q F).
Proof.
  intros H. induction q as [|i q IH]; intros sel x; cbn; [apply H|].
  destruct x as [pr ks|s]; cbn; auto.
  rewrite find_first_update_same by (intros c; apply IH). reflexivity.
Qed.

Lemma update_at_text_none (q : path) (G : node -> node) (sel : selector) :
  only_sets_text G ->
  forall x, qs_node sel x = None -> qs_node sel (update_at q G x) = None.
Proof.
  intros H. induction q as [|i q IH]; intros x Hx; cbn.
  - specialize (H x). destruct x as [pr ks|s]; [|rewrite H; reflexivity].
    destruct H as (ks' & -> & Hk). cbn in Hx |- *.
    destruct (matches sel pr); [discriminate|].
    apply find_first_none. intros c Hc. apply Hk, Hc.
  - destruct x as [pr ks|s]; cbn in *; auto.
    destruct (matches sel pr); [discriminate|].
    apply find_first_update_none; [exact IH|exact Hx].
Qed.

(** Nothing matches below a node in which nothing matches. *)
Lemma qs_node_none_below (sel : selector) (q : path) :
  forall n m, qs_node sel n = None -> get n q = Some m -> qs_node sel m = None.
Proof.
  induction q as [|i q IH]; intros n m Hn Hg; cbn in Hg.
  - injection Hg as <-. exact Hn.
  - destruct n as [pr ks|s]; [|discriminate].
    destruct (nth_error ks i) as [c|] eqn:E; [|discriminate].
    cbn in Hn. destruct (matches sel pr); [discriminate|].
    apply (IH c m); [|exact Hg].
    apply (proj1 (find_first_none _ _ _) Hn). apply (nth_error_In _ _ E).
Qed.

Lemma qs_inside_none_below (sel : selector) (i : nat) (q : path) (n m : node) :
  qs_inside sel n = None -> get n (i :: q) = Some m -> qs_node sel m = None.
Proof.
  intros Hn Hg. cbn in Hg.
  destruct n as [pr ks|s]; [|discriminate].
  destruct (nth_error ks i) as [c|] eqn:E; [|discriminate].
  apply (qs_node_none_below sel q c m); [|exact Hg].
  apply (proj1 (find_first_none _ _ _) Hn). apply (nth_error_In _ _ E).
Qed.

(** What a query returns is an element that matches. *)
Lemma qs_node_sound (sel : selector) (q : path) :
  forall n, qs_node sel n = Some q ->
    exists pr ks, get n q = Some (Elem pr ks) /\ matches sel pr = true.
Proof.
  induction q as [|i q IH]; intros n H; destruct n as [pr ks|s];
    cbn in H; try discriminate.
  - destruct (matches sel pr) eqn:M.
    + exists pr, ks. split; [reflexivity|exact M].
    + destruct (find_first_inv _ _ _ _ H) as (j & q' & c & E & _). discriminate.
  - destruct (matches sel pr) eqn:M; [discriminate|].
    destruct (find_first_inv _ _ _ _ H) as (j & q' & c & E & Hn & Hf & _).
    cbn in E. injection E as -> ->.
    cbn. rewrite Hn. apply IH, Hf.
Qed.

Lemma qs_inside_sound (sel : selector) (n : node) (q : path) :
  qs_inside sel n = Some q ->
  exists i q' pr ks,
    q = i :: q' /\ get n q = Some (Elem pr ks) /\ matches sel pr = true.
Proof.
  destruct n as [pr0 ks0|s]; cbn; [|discriminate]. intros H.
  destruct (find_first_inv _ _ _ _ H) as (j & q' & c & E & Hn & Hf & _).
  cbn in E. subst q.
  destruct (qs_node_sound sel q' c Hf) as (pr & ks & Hg & M).
  exists j, q', pr, ks. cbn. rewrite Hn. auto.
Qed.

(** Replacing what is below the first match leaves it the first match. *)
Lemma qs_node_update_first (sel : selector) (G : node -> node) (q : path) :
  (forall x, matches_node sel (G x) = matches_node sel x) ->
  forall n, qs_node sel n = Some q -> qs_node sel (update_at q G n) = Some q.
Proof.
  intros HG. induction q as [|i q IH]; intros n H.
  - cbn. destruct (qs_node_sound sel [] n H) as (pr & ks & Hg & M).
    cbn in Hg. injection Hg as ->.
    specialize (HG (Elem pr ks)). cbn in HG. rewrite M in HG.
    destruct (G (Elem pr ks)) as [pr' ks'|s]; cbn in HG; [|discriminate].
    cbn. rewrite HG. reflexivity.
  - destruct n as [pr ks|s]; cbn in H |- *; [|discriminate].
    destruct (matches sel pr); [discriminate|].
    apply find_first_update_keep; [exact H|].
    intros c _ Hc. apply IH, Hc.
Qed.

Lemma qs_inside_update_first (sel : selector) (G : node -> node) (q : path)
    (n : node) :
  (forall x, matches_node sel (G x) = matches_node sel x) ->
  qs_inside sel n = Some q -> qs_inside sel (update_at q G n) = Some q.
Proof.
  intros HG H.
  destruct (qs_inside_sound sel n q H) as (i & q' & pr & ks & -> & _ & _).
  destruct n as [pr0 ks0|s]; cbn in H |- *; [|discriminate].
  apply find_first_update_keep; [exact H|].
  intros c _ Hc. apply qs_node_update_first; assumption.
Qed.

Lemma qs_inside_keeps (sel : selector) (F : node -> node) (q : path) (n : node) :
  keeps_queries F -> q <> [] ->
  qs_inside sel (update_at q F n) = qs_inside sel n.
Proof.
  intros HF Hq. destruct q as [|i q]; [congruence|].
  destruct n as [pr ks|s]; cbn; auto.
  apply find_first_update_same. intros c. apply update_at_keeps_queries, HF.
Qed.

Lemma qs_inside_text_none (sel : selector) (G : node -> node) (q : path)
    (n : node) :
  only_sets_text G -> q <> [] ->
  qs_inside sel n = None -> qs_inside sel (update_at q G n) = None.
Proof.
  intros HG Hq H. destruct q as [|i q]; [congruence|].
  destruct n as [pr ks|s]; cbn in *; auto.
  apply find_first_update_none; [|exact H].
  intros c. apply update_at_text_none, HG.
Qed.

End QueryFacts.

(* ------------------------------------------------------------------ *)
(** ** Repainting a button *)

Module PaintFacts.
Import Js Dom Async Likes Samples Obs DomFacts QueryFacts IdentityFacts ToggleFacts.

Lemma update_at_ext_get (p : path) (f g : node -> node) (n : node) :
  (forall x, get n p = Some x -> f x = g x) ->
  update_at p f n = update_at p g n.
Proof.
  revert n; induction p as [|i p IH]; intros n H; cbn; [apply H; reflexivity|].
  destruct n as [pr kids|s]; auto.
  f_equal. revert i H. induction kids as [|k kids IHk]; intros [|i] H; cbn; auto.
  - f_equal. apply IH. intros x Hx. apply H. cbn. exact Hx.
  - f_equal. apply IHk. intros x Hx. apply H. exact Hx.
Qed.

Lemma querySelector_root (sel : selector) (n : node) :
  querySelector sel [] n = qs_inside sel n.
Proof.
  unfold querySelector. cbn. destruct (qs_inside sel n); reflexivity.
Qed.

(** [updateLikeButton] only works inside the button it is given. *)
Lemma updateLikeButton_local (b : path) (v : jsval) (d n : node) :
  get d b = Some n ->
  updateLikeButton (Some b) v d = update_at b (updateLikeButton (Some []) v) d.
Proof.
  intros H. unfold updateLikeButton at 1. unfold querySelector. rewrite H.
  transitivity
    (update_at b
       (fun _ =>
          let icon := qs_inside like_icon n in
          let text := qs_inside like_text n in
          if truthy v then
            let d1 := classList_add [] "liked" n in
            let d2 :=
              match icon with
              | Some i =>
                  set_style i (with_stroke liked_colour)
                    (set_style i (with_fill liked_colour) d1)
              | None => d1
              end in
            match text with
            | Some t => set_textContent t liked_label d2
            | None => d2
            end
          else
            let d1 := classList_remove [] "liked" n in
            let d2 :=
              match icon with
              | Some i =>
                  set_style i (with_stroke "") (set_style i (with_fill "none") d1)
              | None => d1
              end in
            match text with
            | Some t => set_textContent t like_label d2
            | None => d2
            end) d).
  - cbv zeta.
    unfold classList_add, classList_remove, set_style, set_textContent, set_children.
    destruct (truthy v), (qs_inside like_icon n), (qs_inside like_text n); cbn [option_map];
      rewrite ?update_at_app, ?update_at_compose;
      apply update_at_ext_get; intros x Hx; rewrite H in Hx;
      injection Hx as <-; cbn [update_at]; rewrite ?update_at_compose;
      reflexivity.
  - apply update_at_ext_get. intros x Hx. rewrite H in Hx. injection Hx as <-.
    unfold updateLikeButton. rewrite !querySelector_root. reflexivity.
Qed.

Lemma spares_cons (j : nat) (q p : path) :
  spares (j :: q) (j :: p) -> spares q p.
Proof.
  intros [H|H].
  - left. cbn in H. rewrite Nat.eqb_refl in H. exact H.
  - right. congruence.
Qed.

Lemma find_first_text_update (sel : selector) (G : node -> node)
    (ks : list node) (j : nat) (q : path) (i : nat) (p : path) :
  only_sets_text G ->
  (forall c, qs_node sel c = Some p -> spares q p ->
             qs_node sel (update_at q G c) = Some p) ->
  find_first (qs_node sel) ks 0 = Some (i :: p) ->
  spares (j :: q) (i :: p) ->
  find_first (qs_node sel) (update_nth j (update_at q G) ks) 0 = Some (i :: p).
Proof.
  intros HG IH H Hs.
  destruct (find_first_inv _ _ _ _ H) as (i' & p' & c & E & Hn & Hf & Hb).
  cbn in E. injection E as <- <-.
  destruct (Nat.eq_dec j i) as [->|Hji].
  - apply (find_first_intro _ _ 0 i (update_at q G c)).
    + rewrite nth_error_update_nth_same, Hn. reflexivity.
    + apply IH; [exact Hf|]. apply (spares_cons i), Hs.
    + intros k c' Hk Hc.
      rewrite nth_error_update_nth_other in Hc by lia. apply (Hb k c' Hk Hc).
  - apply (find_first_intro _ _ 0 i c).
    + rewrite nth_error_update_nth_other by exact Hji. exact Hn.
    + exact Hf.
    + intros k c' Hk Hc.
      destruct (Nat.eq_dec j k) as [->|Hjk].
      * rewrite nth_error_update_nth_same in Hc.
        destruct (nth_error ks k) as [c0|] eqn:E0; [|discriminate].
        injection Hc as <-.
        apply update_at_text_none; [exact HG|]. apply (Hb k c0 Hk E0).
      * rewrite nth_error_update_nth_other in Hc by exact Hjk.
        apply (Hb k c' Hk Hc).
Qed.

(** A text update that spares the first match leaves it the first match. *)
Lemma qs_node_text_update (sel : selector) (G : node -> node) (q : path) :
  only_sets_text G ->
  forall p n, qs_node sel n = Some p -> spares q p ->
    qs_node sel (update_at q G n) = Some p.
Proof.
  intros HG. induction q as [|j q IH]; intros p n H Hs.
  - destruct Hs as [Hs|<-]; [discriminate|].
    cbn. destruct (qs_node_sound sel [] n H) as (pr & ks & Hg & M).
    cbn in Hg. injection Hg as ->.
    destruct (HG (Elem pr ks)) as (ks' & -> & _). cbn. rewrite M. reflexivity.
  - destruct n as [pr ks|s]; cbn in H |- *; [|discriminate].
    destruct (matches sel pr); [exact H|].
    destruct (find_first_inv _ _ _ _ H) as (i & p' & c & E & _).
    cbn in E. subst p.
    apply find_first_text_update; auto.
Qed.

Lemma qs_inside_text_update (sel : selector) (G : node -> node)
    (q p : path) (n : node) :
  only_sets_text G -> q <> [] ->
  qs_inside sel n = Some p -> spares q p ->
  qs_inside sel (update_at q G n) = Some p.
Proof.
  intros HG Hq H Hs. destruct q as [|j q]; [congruence|].
  destruct n as [pr ks|s]; cbn in H |- *; [|discriminate].
  destruct (find_first_inv _ _ _ _ H) as (i & p' & c & E & _).
  cbn in E. subst p.
  apply find_first_text_update; auto.
  intros c0. apply qs_node_text_update, HG.
Qed.

(** An update of the children at [q] keeps the properties of an element
    it spares. *)
Lemma props_at_children_update (g : list node -> list node) (q : path) :
  forall p n pr,
    props_at n p = Some pr -> spares q p ->
    props_at (update_at q (on_children g) n) p = Some pr.
Proof.
  unfold props_at.
  induction q as [|j q IH]; intros p n pr H Hs.
  - destruct Hs as [Hs|<-]; [discriminate|].
    cbn in H |- *. destruct n; cbn; [exact H|discriminate].
  - destruct p as [|i p].
    + cbn in H |- *. destruct n; cbn; [exact H|discriminate].
    + destruct n as [pr0 ks|s]; cbn in H |- *; [|discriminate].
      destruct (Nat.eq_dec j i) as [->|Hji].
      * rewrite nth_error_update_nth_same.
        destruct (nth_error ks i) as [c|]; [|discriminate]. cbn.
        apply IH; [exact H|]. apply (spares_cons i), Hs.
      * rewrite nth_error_update_nth_other by exact Hji. exact H.
Qed.

Lemma has_class_add (c : string) (cs : list string) :
  existsb (String.eqb c) (class_add c cs) = true.
Proof.
  unfold class_add. destruct (existsb (String.eqb c) cs) eqn:E; [exact E|].
  rewrite existsb_app. cbn. rewrite String.eqb_refl, orb_true_r. reflexivity.
Qed.

Lemma has_class_remove (c : string) (cs : list string) :
  existsb (String.eqb c) (class_remove c cs) = false.
Proof.
  unfold class_remove. induction cs as [|x cs IH]; cbn; [reflexivity|].
  destruct (String.eqb c x) eqn:E; cbn; [exact IH|].
  rewrite E. exact IH.
Qed.

Lemma outline_update_at (q : path) (F : node -> node) (c : node) :
  (forall x, outline (F x) = outline x) ->
  outline (update_at q F c) = outline c.
Proof.
  intros H. destruct q as [|i q]; cbn; [apply H|].
  destruct c; reflexivity.
Qed.

Lemma children_outline_update_at (q : path) (F : node -> node) (n : node) :
  (forall x, outline (F x) = outline x) -> q <> [] ->
  children_outline (update_at q F n) = children_outline n.
Proof.
  intros H Hq. destruct q as [|i q]; [congruence|].
  clear Hq. destruct n as [pr ks|s]; cbn; [|reflexivity].
  revert i. induction ks as [|k ks IH]; intros [|i]; cbn; auto.
  - rewrite outline_update_at by exact H. reflexivity.
  - rewrite IH. reflexivity.
Qed.

End PaintFacts.

(* ------------------------------------------------------------------ *)
(** ** What a repaint leaves behind *)

Module RepaintFacts.
Import Js Dom Async Likes Page Samples Obs DomFacts QueryFacts IdentityFacts PaintFacts.

Lemma updateLikeButton_paint_with (v : jsval) (n : node) :
  updateLikeButton (Some []) v n
  = if truthy v
    then paint_with (class_add "liked") liked_colour liked_colour liked_label n
    else paint_with (class_remove "liked") "none" "" like_label n.
Proof.
  unfold updateLikeButton, paint_with. rewrite !querySelector_root.
  destruct (truthy v); reflexivity.
Qed.

Lemma append_empty_r (s : string) : String.append s "" = s.
Proof. induction s as [|c s IH]; cbn; [reflexivity|]. rewrite IH. reflexivity. Qed.

Lemma style_keeps_queries (g : Style -> Style) :
  keeps_queries (on_props (fun pr => with_style (g (style pr)) pr)).
Proof. apply on_props_keeps_queries. intros pr. cbn. auto. Qed.

Lemma paint_with_spec (cop : list string -> list string)
    (fv sv lb : string) (pr : Props) (ks : list node) :
  lb <> "" ->
  (forall i t,
     qs_inside like_icon (Elem pr ks) = Some i ->
     qs_inside like_text (Elem pr ks) = Some t -> spares t i) ->
  exists ks',
    let n' := Elem (with_classes (cop (classList pr)) pr) ks' in
    paint_with cop fv sv lb (Elem pr ks) = n'
    /\ map outline ks' = map outline ks
    /\ match qs_inside like_icon n' with
       | Some q =>
           option_map (fun p => (fill (style p), stroke (style p)))
             (props_at n' q)
       | None => None
       end
       = (if is_some (qs_inside like_icon (Elem pr ks))
          then Some (fv, sv) else None)
    /\ match qs_inside like_text n' with
       | Some q => option_map textContent (get n' q)
       | None => None
       end
       = (if is_some (qs_inside like_text (Elem pr ks))
          then Some lb else None).
Proof.
  intros Hlb Hsp.
  set (pa := with_classes (cop (classList pr)) pr).
  set (st := fun x : node =>
               on_props (fun p => with_style (with_stroke sv (style p)) p)
                 (on_props (fun p => with_style (with_fill fv (style p)) p) x)).
  set (G := on_children (fun _ : list node => [Text lb])).
  assert (Hst : keeps_queries st).
  { intros sel x. unfold st. rewrite !style_keeps_queries. reflexivity. }
  assert (HG : only_sets_text G).
  { intros [p k|s]; cbn; [|reflexivity]. eexists; split; [reflexivity|].
    intros sel c [<-|[]]. reflexivity. }
  assert (Hso : forall x, outline (st x) = outline x) by (intros [p k|s]; reflexivity).
  assert (HGo : forall x, outline (G x) = outline x) by (intros [p k|s]; reflexivity).
  apply String.eqb_neq in Hlb.
  unfold paint_with, set_textContent, set_children, set_style. rewrite Hlb.
  fold G. cbn [update_at on_props]. fold pa.
  (* the icon step *)
  destruct (qs_inside like_icon (Elem pr ks)) as [i|] eqn:Ei.
  - destruct (qs_inside_sound _ _ _ Ei) as (i0 & i' & pi & ki & -> & Hgi & Mi).
    rewrite update_at_compose. fold st.
    set (nb := update_at (i0 :: i') st (Elem pa ks)).
    assert (Hqi : qs_inside like_icon nb = Some (i0 :: i')).
    { unfold nb. rewrite qs_inside_keeps by (exact Hst || discriminate). exact Ei. }
    assert (Hqt : qs_inside like_text nb = qs_inside like_text (Elem pr ks)).
    { unfold nb. rewrite qs_inside_keeps by (exact Hst || discriminate). reflexivity. }
    assert (Hpi : props_at nb (i0 :: i')
                  = Some (with_style (with_stroke sv (with_fill fv (style pi))) pi)).
    { unfold nb, props_at. rewrite get_update_at_same.
      change (get (Elem pa ks) (i0 :: i')) with (get (Elem pr ks) (i0 :: i')).
      rewrite Hgi. reflexivity. }
    assert (Hnb : exists kb, nb = Elem pa kb /\ map outline kb = map outline ks).
    { unfold nb. cbn. eexists. split; [reflexivity|].
      apply (children_outline_update_at (i0 :: i') st (Elem pa ks) Hso).
      discriminate. }
    destruct Hnb as (kb & Enb & Hob).
    destruct (qs_inside like_text (Elem pr ks)) as [t|] eqn:Et.
    + destruct (qs_inside_sound _ _ _ Et) as (t0 & t' & pt & kt & -> & Hgt & Mt).
      specialize (Hsp _ _ eq_refl eq_refl).
      assert (Hgt' : exists pt' kt', get nb (t0 :: t') = Some (Elem pt' kt')).
      { destruct (qs_inside_sound _ _ _ Hqt) as (? & ? & p1 & k1 & _ & Hg1 & _).
        eauto. }
      destruct Hgt' as (pt' & kt' & Hgt').
      assert (Hnc : exists kc, update_at (t0 :: t') G nb = Elem pa kc
                               /\ map outline kc = map outline ks).
      { rewrite Enb. cbn. eexists. split; [reflexivity|]. rewrite <- Hob.
        apply (children_outline_update_at (t0 :: t') G (Elem pa kb) HGo).
        discriminate. }
      destruct Hnc as (kc & Enc & Hoc).
      exists kc. cbv zeta. fold pa. split; [exact Enc|]. split; [exact Hoc|].
      rewrite <- Enc. split.
      * rewrite (qs_inside_text_update like_icon G (t0 :: t') (i0 :: i') nb HG)
          by (discriminate || assumption).
        unfold G. rewrite (props_at_children_update _ _ _ _ _ Hpi Hsp).
        reflexivity.
      * rewrite (qs_inside_text_update like_text G (t0 :: t') (t0 :: t') nb HG)
          by (discriminate || exact Hqt || (right; reflexivity)).
        rewrite get_update_at_same, Hgt'. cbn.
        rewrite append_empty_r. reflexivity.
    + exists kb. cbv zeta. fold pa. split; [exact Enb|]. split; [exact Hob|].
      rewrite <- Enb, Hqi, Hqt, Hpi. cbn. auto.
  - destruct (qs_inside like_text (Elem pr ks)) as [t|] eqn:Et.
    + destruct (qs_inside_sound _ _ _ Et) as (t0 & t' & pt & kt & -> & Hgt & Mt).
      assert (Hnc : exists kc, update_at (t0 :: t') G (Elem pa ks) = Elem pa kc
                               /\ map outline kc = map outline ks).
      { cbn. eexists. split; [reflexivity|].
        apply (children_outline_update_at (t0 :: t') G (Elem pa ks) HGo).
        discriminate. }
      destruct Hnc as (kc & Enc & Hoc).
      exists kc. cbv zeta. fold pa. split; [exact Enc|]. split; [exact Hoc|].
      rewrite <- Enc. split.
      * rewrite (qs_inside_text_none like_icon G (t0 :: t') (Elem pa ks) HG)
          by (discriminate || exact Ei).
        reflexivity.
      * rewrite (qs_inside_update_first like_text G (t0 :: t') (Elem pa ks))
          by ((intros [p k|s]; reflexivity) || exact Et).
        rewrite get_update_at_same.
        change (get (Elem pa ks) (t0 :: t')) with (get (Elem pr ks) (t0 :: t')).
        rewrite Hgt. cbn. rewrite append_empty_r. reflexivity.
    + exists ks. cbv zeta. fold pa. split; [reflexivity|]. split; [reflexivity|].
      change (qs_inside like_icon (Elem pa ks)) with (qs_inside like_icon (Elem pr ks)).
      change (qs_inside like_text (Elem pa ks)) with (qs_inside like_text (Elem pr ks)).
      rewrite Ei, Et. auto.
Qed.

(** [updateLikeButton] changes the classes of the button and nothing else
    of its own properties; its children keep their outline; and the visual
    state afterwards is the one that stands for the value it was given,
    whenever the label does not enclose the icon. *)
Lemma updateLikeButton_visual (v : jsval) (pr : Props) (ks : list node) :
  (forall i t,
     qs_inside like_icon (Elem pr ks) = Some i ->
     qs_inside like_text (Elem pr ks) = Some t -> spares t i) ->
  exists ks',
    updateLikeButton (Some []) v (Elem pr ks)
    = Elem (with_classes
              (if truthy v then class_add "liked" (classList pr)
               else class_remove "liked" (classList pr)) pr) ks'
    /\ map outline ks' = map outline ks
    /\ visual_of (updateLikeButton (Some []) v (Elem pr ks))
       = Some (painted (truthy v)
                 (is_some (qs_inside like_icon (Elem pr ks)))
                 (is_some (qs_inside like_text (Elem pr ks)))).
Proof.
  intros Hsp. rewrite updateLikeButton_paint_with.
  destruct (truthy v).
  - destruct (paint_with_spec (class_add "liked") liked_colour liked_colour
                liked_label pr ks) as (ks' & E & Ho & Hi & Ht);
      [discriminate|exact Hsp|].
    cbv zeta in E, Hi, Ht.
    exists ks'. split; [exact E|]. split; [exact Ho|].
    rewrite E. unfold visual_of. rewrite Hi, Ht. unfold painted.
    unfold has_class, with_classes; cbn [classList]. rewrite has_class_add.
    reflexivity.
  - destruct (paint_with_spec (class_remove "liked") "none" "" like_label pr ks)
      as (ks' & E & Ho & Hi & Ht);
      [discriminate|exact Hsp|].
    cbv zeta in E, Hi, Ht.
    exists ks'. split; [exact E|]. split; [exact Ho|].
    rewrite E. unfold visual_of. rewrite Hi, Ht. unfold painted.
    unfold has_class, with_classes; cbn [classList]. rewrite has_class_remove.
    reflexivity.
Qed.

Lemma cloneNode_querySelector (sel : selector) (b : path) (d n : node) :
  get d b = Some n ->
  cloneNode d (querySelector sel b d)
  = match qs_inside sel n with Some q => get n q | None => None end.
Proof.
  intros H. unfold cloneNode, querySelector. rewrite H.
  destruct (qs_inside sel n) as [q|]; cbn; [|reflexivity].
  rewrite get_app, H. reflexivity.
Qed.

Lemma is_some_querySelector (sel : selector) (b : path) (d n : node) :
  get d b = Some n ->
  is_some (querySelector sel b d) = is_some (qs_inside sel n).
Proof.
  intros H. unfold querySelector. rewrite H.
  destruct (qs_inside sel n); reflexivity.
Qed.

Lemma visual_of_disabled (x : bool) (pr : Props) (ks : list node) :
  visual_of (Elem (with_disabled x pr) ks) = visual_of (Elem pr ks).
Proof.
  unfold visual_of.
  change (qs_inside like_icon (Elem (with_disabled x pr) ks))
    with (qs_inside like_icon (Elem pr ks)).
  change (qs_inside like_text (Elem (with_disabled x pr) ks))
    with (qs_inside like_text (Elem pr ks)).
  f_equal. f_equal.
  - destruct (qs_inside like_icon (Elem pr ks)) as [q|] eqn:E; [|reflexivity].
    destruct (qs_inside_sound _ _ _ E) as (i & q' & _ & _ & -> & _).
    reflexivity.
  - destruct (qs_inside like_text (Elem pr ks)) as [q|] eqn:E; [|reflexivity].
    destruct (qs_inside_sound _ _ _ E) as (i & q' & _ & _ & -> & _).
    reflexivity.
Qed.

(** The button rebuilt from the captured icon and label answers queries
    as the button before the click did, and its label does not enclose its
    icon. *)
Lemma restored_queries (pr pr1 : Props) (kids : list node) :
  let n0 := Elem pr kids in
  let icon := match qs_inside like_icon n0 with Some q => get n0 q | None => None end in
  let text := match qs_inside like_text n0 with Some q => get n0 q | None => None end in
  let n1 := Elem pr1 (olist icon ++ olist text) in
  is_some icon = is_some (qs_inside like_icon n0)
  /\ is_some text = is_some (qs_inside like_text n0)
  /\ is_some (qs_inside like_icon n1) = is_some (qs_inside like_icon n0)
  /\ is_some (qs_inside like_text n1) = is_some (qs_inside like_text n0)
  /\ (forall i t,
        qs_inside like_icon n1 = Some i ->
        qs_inside like_text n1 = Some t -> spares t i).
Proof.
  cbv zeta.
  destruct (qs_inside like_icon (Elem pr kids)) as [qi|] eqn:Ei;
    destruct (qs_inside like_text (Elem pr kids)) as [qt|] eqn:Et.
  - destruct (qs_inside_sound _ _ _ Ei) as (i0 & i' & pi & ki & -> & Hgi & Mi).
    destruct (qs_inside_sound _ _ _ Et) as (t0 & t' & pt & kt & -> & Hgt & Mt).
    rewrite Hgi, Hgt. cbn [olist app qs_inside find_first qs_node is_some].
    rewrite Mi.
    destruct (matches like_text pi) eqn:Mti.
    + repeat split. intros i t Hi Ht. injection Hi as <-. injection Ht as <-.
      right. reflexivity.
    + destruct (find_first (qs_node like_text) ki 0) as [p|] eqn:Ef.
      * repeat split. intros i t Hi Ht. injection Hi as <-. injection Ht as <-.
        destruct (find_first_inv _ _ _ _ Ef) as (j & q & c & -> & _).
        left. reflexivity.
      * rewrite Mt. repeat split.
        intros i t Hi Ht. injection Hi as <-. injection Ht as <-.
        left. reflexivity.
  - destruct (qs_inside_sound _ _ _ Ei) as (i0 & i' & pi & ki & -> & Hgi & Mi).
    rewrite Hgi. cbn [olist app qs_inside find_first qs_node is_some].
    rewrite Mi.
    pose proof (qs_inside_none_below like_text i0 i' _ _ Et Hgi) as Hn.
    cbn [qs_node] in Hn. rewrite Hn. repeat split. intros i t _ Ht. discriminate.
  - destruct (qs_inside_sound _ _ _ Et) as (t0 & t' & pt & kt & -> & Hgt & Mt).
    rewrite Hgt. cbn [olist app qs_inside find_first qs_node is_some].
    rewrite Mt.
    pose proof (qs_inside_none_below like_icon t0 t' _ _ Ei Hgt) as Hn.
    cbn [qs_node] in Hn. rewrite Hn. repeat split. intros i t Hi _. discriminate.
  - cbn. repeat split. intros i t Hi _. discriminate.
Qed.

(** [cloneNode(true)] copies the element with everything below it. *)
Lemma subtree_cloneNode (d : node) (ref : option path) :
  subtree d ref = cloneNode d ref.
Proof. reflexivity. Qed.

(** What the two clones captured from a button are: an element with the
    icon class, an element with the label class; and where one of the two
    is missing, the other one holds nothing of its kind. *)
Lemma captured_shape (pr : Props) (kids : list node) :
  let n0 := Elem pr kids in
  let icon := match qs_inside like_icon n0 with Some q => get n0 q | None => None end in
  let text := match qs_inside like_text n0 with Some q => get n0 q | None => None end in
  (forall ni, icon = Some ni -> matches_node like_icon ni = true)
  /\ (forall nt, text = Some nt -> matches_node like_text nt = true)
  /\ (icon = None -> forall nt, text = Some nt -> qs_node like_icon nt = None)
  /\ (text = None -> forall ni, icon = Some ni -> qs_node like_text ni = None).
Proof.
  cbv zeta.
  destruct (qs_inside like_icon (Elem pr kids)) as [qi|] eqn:Ei;
    destruct (qs_inside like_text (Elem pr kids)) as [qt|] eqn:Et.
  - destruct (qs_inside_sound _ _ _ Ei) as (i0 & i' & pi & ki & -> & Hgi & Mi).
    destruct (qs_inside_sound _ _ _ Et) as (t0 & t' & pt & kt & -> & Hgt & Mt).
    rewrite Hgi, Hgt. repeat split; try discriminate.
    + intros ni E. injection E as <-. exact Mi.
    + intros nt E. injection E as <-. exact Mt.
  - destruct (qs_inside_sound _ _ _ Ei) as (i0 & i' & pi & ki & -> & Hgi & Mi).
    rewrite Hgi. repeat split; try discriminate.
    + intros ni E. injection E as <-. exact Mi.
    + intros _ ni E. injection E as <-.
      apply (qs_inside_none_below like_text i0 i' _ _ Et Hgi).
  - destruct (qs_inside_sound _ _ _ Et) as (t0 & t' & pt & kt & -> & Hgt & Mt).
    rewrite Hgt. repeat split; try discriminate.
    + intros nt E. injection E as <-. exact Mt.
    + intros _ nt E. injection E as <-.
      apply (qs_inside_none_below like_icon t0 t' _ _ Ei Hgt).
  - repeat split; discriminate.
Qed.

(** The repaint of a button that was just rebuilt from the two clones, in
    closed form. *)
Lemma rebuilt_repaint (v : jsval) (pr1 : Props) (icon text : option node) :
  (forall ni, icon = Some ni -> matches_node like_icon ni = true) ->
  (forall nt, text = Some nt -> matches_node like_text nt = true) ->
  (icon = None -> forall nt, text = Some nt -> qs_node like_icon nt = None) ->
  (text = None -> forall ni, icon = Some ni -> qs_node like_text ni = None) ->
  updateLikeButton (Some []) v (Elem pr1 (olist icon ++ olist text))
  = Elem (with_classes
            (if truthy v then class_add "liked" (classList pr1)
             else class_remove "liked" (classList pr1)) pr1)
      (repainted (truthy v) icon text).
Proof.
  intros Hi Ht Hni Hnt.
  unfold updateLikeButton. rewrite !querySelector_root.
  destruct icon as [ni|]; destruct text as [nt|]; cbn [olist app].
  - specialize (Hi ni eq_refl). specialize (Ht nt eq_refl).
    destruct ni as [pi ki|si]; [|discriminate].
    destruct nt as [pt kt|st]; [|discriminate].
    cbn [matches_node] in Hi, Ht.
    unfold repainted.
    cbn [qs_inside find_first qs_node]. rewrite Hi.
    destruct (matches like_text pi) eqn:Mti.
    + destruct (truthy v); reflexivity.
    + destruct (find_first (qs_node like_text) ki 0) as [q|] eqn:Ef.
      * destruct (truthy v); reflexivity.
      * rewrite Ht. destruct (truthy v); reflexivity.
  - specialize (Hi ni eq_refl). specialize (Hnt eq_refl ni eq_refl).
    destruct ni as [pi ki|si]; [|discriminate].
    cbn [matches_node] in Hi. cbn [qs_node] in Hnt.
    cbn [qs_inside find_first qs_node]. rewrite Hi.
    destruct (matches like_text pi); [discriminate|]. rewrite Hnt.
    destruct (truthy v); reflexivity.
  - specialize (Ht nt eq_refl). specialize (Hni eq_refl nt eq_refl).
    destruct nt as [pt kt|st]; [|discriminate].
    cbn [matches_node] in Ht. cbn [qs_node] in Hni.
    cbn [qs_inside find_first qs_node]. rewrite Ht.
    destruct (matches like_icon pt); [discriminate|]. rewrite Hni.
    destruct (truthy v); reflexivity.
  - destruct (truthy v); reflexivity.
Qed.

(** C2. For a button element, a viewer identity and a successful response
    whose body carries the boolean field [liked], [toggleLike] returns that
    boolean.  Afterwards the button is enabled; of its own properties only
    the class list changed, by adding or removing [liked] as the boolean
    says; its children are exactly the icon and the label captured before
    the click, each with all of its content, the icon with the fill and
    stroke and the label with the text that stand for the boolean; and its
    visual state -- the [liked] class, the fill and stroke of the icon, the
    text of the label -- is the one that stands for the boolean, whatever
    the button looked like before.  No notice is shown. *)
Theorem toggle_success_repaints_from_response :
  forall (d : node) (b : path) (pr : Props) (kids : list node)
         (postId : jsnum) (userId : option Z) (tr : list Effect)
         (r : Response) (fields : list (string * json)) (liked : bool),
    get d b = Some (Elem pr kids) ->
    truthy_id userId = true ->
    ok r = true ->
    json_body r = Some (JObj fields) ->
    field "liked" fields = Some (JBool liked) ->
    let icon := subtree d (querySelector like_icon b d) in
    let text := subtree d (querySelector like_text b d) in
    exists w' kids',
      run_with (Responded r)
        (toggleLike postId userId (Some b) (mkWorld d tr))
      = Finished (Normal (Some (JBool liked))) w'
      /\ get (doc w') b
         = Some (Elem
                   (mkProps (tagName pr)
                      (if liked then class_add "liked" (classList pr)
                       else class_remove "liked" (classList pr))
                      (attributes pr) (style pr) false)
                   kids')
      /\ kids' = repainted liked icon text
      /\ map outline kids' = map outline (olist icon ++ olist text)
      /\ visual_state (doc w') b
         = Some (painted liked (is_some icon) (is_some text))
      /\ alerts (trace w') = alerts tr.
Proof.
  intros d b pr kids postId userId tr r fields liked Hb Hu Hok Hj Hf.
  cbv zeta. rewrite !subtree_cloneNode.
  unfold toggleLike. rewrite Hu.
  run_task. rewrite Hok. run_task. rewrite Hj. run_task. rewrite ?Hf.
  rewrite !(cloneNode_querySelector _ _ _ _ Hb).
  set (n0 := Elem pr kids).
  set (icon := match qs_inside like_icon n0 with Some q => get n0 q | None => None end).
  set (text := match qs_inside like_text n0 with Some q => get n0 q | None => None end).
  set (pr1 := with_disabled true pr).
  set (n1 := Elem pr1 (olist icon ++ olist text)).
  set (d5 := update_at b (fun _ => n1) d).
  assert (Hd5 : get d5 b = Some n1).
  { unfold d5. rewrite get_update_at_same, Hb. reflexivity. }
  destruct (restored_queries pr pr1 kids) as (Si & St & Qi & Qt & Hsp).
  fold n0 icon text n1 in Si, St, Qi, Qt, Hsp.
  destruct (updateLikeButton_visual (Some (JBool liked)) pr1
              (olist icon ++ olist text) Hsp) as (ks2 & E2 & Ho2 & Hv2).
  fold n1 in E2, Hv2. rewrite Qi, Qt, <- Si, <- St in Hv2.
  cbn [truthy] in E2, Hv2.
  assert (Hks : ks2 = repainted liked icon text).
  { destruct (captured_shape pr kids) as (C1 & C2 & C3 & C4).
    fold n0 icon text in C1, C2, C3, C4.
    pose proof (rebuilt_repaint (Some (JBool liked)) pr1 icon text C1 C2 C3 C4)
      as E3.
    fold n1 in E3. rewrite E3 in E2. cbn [truthy] in E2.
    injection E2 as <-. reflexivity. }
  set (pr2 := with_classes
                (if liked then class_add "liked" (classList pr1)
                 else class_remove "liked" (classList pr1)) pr1) in E2.
  assert (Hrun : forall dd,
             dd = d5 ->
             get (set_disabled b false
                    (updateLikeButton (Some b) (Some (JBool liked)) dd)) b
             = Some (Elem (with_disabled false pr2) ks2)
             /\ visual_state
                  (set_disabled b false
                     (updateLikeButton (Some b) (Some (JBool liked)) dd)) b
                = Some (painted liked (is_some icon) (is_some text))).
  { intros dd ->.
    assert (G : get (set_disabled b false
                       (updateLikeButton (Some b) (Some (JBool liked)) d5)) b
                = Some (Elem (with_disabled false pr2) ks2)).
    { rewrite (updateLikeButton_local _ _ _ _ Hd5).
      unfold set_disabled. rewrite update_at_compose, get_update_at_same, Hd5.
      cbn [option_map]. rewrite E2. reflexivity. }
    split; [exact G|].
    unfold visual_state. rewrite G, visual_of_disabled, <- E2. exact Hv2. }
  assert (Hchain : forall (f : node -> node),
             (f n0 = n1) -> update_at b f d = d5).
  { intros f Hfn. unfold d5. apply update_at_ext_get.
    intros x Hx. rewrite Hb in Hx. injection Hx as <-. exact Hfn. }
  clearbody icon text.
  destruct icon as [ni|]; destruct text as [nt|];
    run_task;
    (eexists; exists ks2;
     split; [reflexivity|]; cbn [doc trace];
     match goal with
     | |- get (set_disabled b false (updateLikeButton _ _ ?dd)) b = _ /\ _ =>
         assert (Edd : dd = d5)
           by (unfold set_children, appendChild, set_disabled;
               rewrite ?update_at_compose; apply Hchain; reflexivity);
         destruct (Hrun dd Edd) as [R1 R2]
     end;
     split; [exact R1|];
     split; [exact Hks|];
     split; [exact Ho2|];
     split;
     [ exact R2
     | rewrite alerts_app; cbn; rewrite app_nil_r; reflexivity ]).
Qed.

Lemma toggle_success_repaints_from_response_witness :
  exists w' kids',
    run_with (ok_liked false)
      (toggleLike (Num 9) (Some 42%Z) (Some button_9_ref) (mkWorld page_heart []))
    = Finished (Normal (Some (JBool false))) w'
    /\ get (doc w') button_9_ref
       = Some (Elem
                 (mkProps "button" ["like-button"]
                    [("data-post-id", "9")] no_style false)
                 kids')
    /\ kids' = [icon_heart (mkStyle "none" "" "" "" ""); text_plain]
    /\ map outline kids' = map outline [icon_heart no_style; text_plain]
    /\ visual_state (doc w') button_9_ref = Some (painted false true true)
    /\ alerts (trace w') = [].
Proof.
  exact (toggle_success_repaints_from_response page_heart button_9_ref
           (mkProps "button" ["like-button"; "liked"] [("data-post-id", "9")]
              no_style false)
           [icon_heart (mkStyle liked_colour liked_colour "" "" ""); text_liked]
           (Num 9) (Some 42%Z) []
           (mkResponse true (Some (JObj [("liked", JBool false)])) (Some ""))
           [("liked", JBool false)] false
           eq_refl eq_refl eq_refl eq_refl eq_refl).
Defined.

End RepaintFacts.

(* ------------------------------------------------------------------ *)
(** ** Status sync for a viewer without identity *)

Module SyncFacts.
Import Js Dom Async Likes Samples Obs JsFacts DomFacts QueryFacts PaintFacts RepaintFacts.

Lemma no_identity_getCurrentUserId (d : node) :
  no_identity d -> getCurrentUserId d = None.
Proof.
  unfold no_identity, meta_content, getCurrentUserId.
  destruct (qs_node user_meta d) as [m|]; [|reflexivity].
  intros [H|[H|H]]; rewrite ?H.
  - reflexivity.
  - rewrite String.eqb_refl, orb_true_r. reflexivity.
  - destruct (_ || _); reflexivity.
Qed.

Lemma updateLikeButton_at (b : path) (v : jsval) (d : node) :
  updateLikeButton (Some b) v d = update_at b (updateLikeButton (Some []) v) d.
Proof.
  destruct (get d b) as [n|] eqn:E; [apply (updateLikeButton_local _ _ _ _ E)|].
  rewrite (update_at_stale _ _ _ E).
  unfold updateLikeButton, querySelector. rewrite E.
  unfold classList_add, classList_remove.
  rewrite !(update_at_stale _ _ _ E). destruct (truthy v); reflexivity.
Qed.

(** Painting buttons one after the other: a reference apart from all of
    them sees nothing of it. *)
Lemma paint_all_apart (v : jsval) (a : path) (l : list path) :
  forall d,
    (forall b, In b l -> apart b a) ->
    get (fold_left (fun d b => updateLikeButton (Some b) v d) l d) a = get d a.
Proof.
  induction l as [|b l IH]; intros d H; cbn [fold_left]; [reflexivity|].
  rewrite IH by (intros b' Hb'; apply H; right; exact Hb').
  rewrite updateLikeButton_at. apply get_update_at_apart, H. left. reflexivity.
Qed.

(** Painting buttons that are apart from one another paints each of them
    once. *)
Lemma paint_all_each (v : jsval) (l : list path) :
  forall d,
    ForallOrdPairs apart l ->
    forall b, In b l ->
      get (fold_left (fun d b => updateLikeButton (Some b) v d) l d) b
      = option_map (updateLikeButton (Some []) v) (get d b).
Proof.
  induction l as [|a l IH]; intros d H b Hb; [contradiction|].
  inversion H as [|a' l' Ha Hl]; subst. cbn [fold_left].
  destruct Hb as [<-|Hb].
  - rewrite paint_all_apart.
    + rewrite updateLikeButton_at. apply get_update_at_same.
    + intros b' Hb'. apply apart_sym. apply (proj1 (Forall_forall _ _) Ha), Hb'.
  - rewrite (IH _ Hl b Hb). f_equal.
    rewrite updateLikeButton_at. apply get_update_at_apart.
    apply (proj1 (Forall_forall _ _) Ha), Hb.
Qed.

Section CollectAll.
Context {A : Type}.
Variable g : A -> list path.

Lemma collect_all_In (ks : list A) (i j : nat) (q : path) :
  In (j :: q) (collect_all g ks i) ->
  exists c, i <= j /\ nth_error ks (j - i) = Some c /\ In q (g c).
Proof.
  revert i; induction ks as [|k ks IH]; intros i; cbn; [contradiction|].
  rewrite in_app_iff, in_map_iff. intros [(q' & E & Hq)|H].
  - injection E as <- <-. exists k. rewrite Nat.sub_diag. auto.
  - destruct (IH _ H) as (c & Hle & Hn & Hq). exists c.
    split; [lia|]. split; [|exact Hq].
    replace (j - i) with (S (j - S i)) by lia. exact Hn.
Qed.

End CollectAll.

(** What [querySelectorAll] returns are elements. *)
Lemma qsa_node_sound (sel : selector) (b : path) :
  forall n, In b (qsa_node sel n) -> exists pr ks, get n b = Some (Elem pr ks).
Proof.
  induction b as [|i b IH]; intros n H; destruct n as [pr ks|s];
    cbn in H; try contradiction.
  - exists pr, ks. reflexivity.
  - apply in_app_iff in H. destruct H as [H|H].
    + destruct (matches sel pr); cbn in H; [destruct H as [H|[]]; discriminate|contradiction].
    + destruct (collect_all_In _ _ _ _ _ H) as (c & _ & Hn & Hq).
      rewrite Nat.sub_0_r in Hn. cbn. rewrite Hn. apply IH, Hq.
Qed.

Lemma is_prefix_app_inv (b t i : path) :
  is_prefix (b ++ t) (b ++ i) = is_prefix t i.
Proof.
  induction b as [|x b IH]; cbn; [reflexivity|].
  rewrite Nat.eqb_refl. exact IH.
Qed.

Lemma label_spares_icon_inside (d : node) (b : path) (pr : Props)
    (ks : list node) :
  get d b = Some (Elem pr ks) ->
  label_spares_icon d b ->
  forall i t,
    qs_inside like_icon (Elem pr ks) = Some i ->
    qs_inside like_text (Elem pr ks) = Some t -> spares t i.
Proof.
  intros Hg H i t Hi Ht.
  destruct (H (b ++ i) (b ++ t)) as [S|S].
  - unfold querySelector. rewrite Hg, Hi. reflexivity.
  - unfold querySelector. rewrite Hg, Ht. reflexivity.
  - left. rewrite is_prefix_app_inv in S. exact S.
  - right. apply (app_inv_head b), S.
Qed.

(** C5. On a page without viewer identity -- the user-id meta element is
    missing, or its content is empty, blank or not a number --
    [initializeLikes] sends no request and leaves none in flight, and
    every button selected by [.like-button[data-post-id]] ends in the
    not-liked visual state (no [liked] class, icon fill [none] and empty
    stroke, label text of the not-liked state).  The page has the shape
    the script expects: buttons not nested, label not enclosing the
    icon. *)
Theorem status_sync_anonymous_paints_not_liked :
  forall (w : World),
    no_identity (doc w) ->
    buttons_well_formed (doc w) ->
    exists w',
      initializeLikes w = (w', [])
      /\ trace w' = trace w
      /\ forall b,
           In b (qsa_node like_button_with_id (doc w)) ->
           visual_state (doc w') b
           = Some (painted false
                     (is_some (querySelector like_icon b (doc w)))
                     (is_some (querySelector like_text b (doc w)))).
Proof.
  intros w Hid [Hap Hsp].
  unfold initializeLikes.
  rewrite (no_identity_getCurrentUserId _ Hid). cbn [truthy_id negb].
  eexists. split; [reflexivity|]. split; [reflexivity|].
  intros b Hb. cbn [doc].
  unfold visual_state. rewrite (paint_all_each _ _ _ Hap b Hb).
  destruct (qsa_node_sound _ _ _ Hb) as (pr & ks & Hg). rewrite Hg.
  cbn [option_map].
  destruct (updateLikeButton_visual js_false pr ks
              (label_spares_icon_inside _ _ _ _ Hg (Hsp b Hb)))
    as (ks' & _ & _ & Hv).
  rewrite Hv.
  rewrite !(is_some_querySelector _ _ _ _ Hg). reflexivity.
Qed.

Lemma status_sync_anonymous_paints_not_liked_witness :
  exists w',
    initializeLikes (world_of page_anonymous) = (w', [])
    /\ trace w' = []
    /\ forall b,
         In b [button_7_ref; button_8_ref] ->
         visual_state (doc w') b
         = Some (painted false
                   (is_some (querySelector like_icon b page_anonymous))
                   (is_some (querySelector like_text b page_anonymous))).
Proof.
  apply (status_sync_anonymous_paints_not_liked (world_of page_anonymous)).
  - exact I.
  - split.
    + repeat constructor.
    + intros b [<-|[<-|[]]] i t Hi Ht;
        injection Hi as <-; injection Ht as <-; left; reflexivity.
Defined.

End SyncFacts.

(* ------------------------------------------------------------------ *)
(** ** The button processing lock *)

Module LockFacts.
Import Js Dom Async Likes LikedPosts Page Samples Obs JsFacts DomFacts QueryFacts IdentityFacts.
Import ToggleFacts.

Lemma closest_sound (sel : selector) (t : path) :
  forall d b, closest sel d t = Some b ->
    exists pr ks, get d b = Some (Elem pr ks) /\ matches sel pr = true.
Proof.
  induction t as [|i t IH]; intros d b H; cbn in H.
  - destruct d as [pr ks|s]; cbn in H; [|discriminate].
    destruct (matches sel pr) eqn:M; [|discriminate].
    injection H as <-. exists pr, ks. auto.
  - destruct d as [pr ks|s]; [|discriminate].
    destruct (nth_error ks i) as [c|] eqn:E; [|discriminate].
    destruct (closest sel c t) as [q|] eqn:Ec.
    + injection H as <-. cbn. rewrite E. apply IH, Ec.
    + destruct (matches sel pr) eqn:M; [|discriminate].
      injection H as <-. exists pr, ks. auto.
Qed.

Lemma disabled_at_locked (b : path) (d : node) (pr : Props) (ks : list node) :
  get d b = Some (Elem pr ks) ->
  disabled_at (set_children b [spinner] (set_disabled b true d)) b = true.
Proof.
  intros H. unfold disabled_at, props_at, set_children, set_disabled.
  rewrite update_at_compose, get_update_at_same, H. reflexivity.
Qed.

(** What one click on the button does. *)
Lemma likes_click_cases (target b : path) (w : World) :
  closest like_button (doc w) target = Some b ->
  (disabled_at (doc w) b = true -> likes_click target w = Finished (Normal tt) w)
  /\ (forall r k w1,
        likes_click target w = Awaiting r k w1 ->
        r = toggle_request (post_id_of (doc w) b)
        /\ disabled_at (doc w) b = false
        /\ disabled_at (doc w1) b = true
        /\ trace w1 = trace w ++ [EFetch r]
        /\ forall o w', exists c w'', k o w' = Finished c w'')
  /\ (forall c w1,
        likes_click target w = Finished c w1 ->
        requests (trace w1) = requests (trace w)).
Proof.
  intros Hb.
  destruct (closest_sound _ _ _ _ Hb) as (pr & ks & Hg & _).
  unfold likes_click. run_task. rewrite Hb.
  destruct (disabled_at (doc w) b) eqn:Hd.
  - split; [reflexivity|]. split; [discriminate|].
    intros c w1 H. injection H as _ <-. reflexivity.
  - split; [discriminate|].
    destruct (isNaN (post_id_of (doc w) b)) eqn:Hn.
    + run_task. split; [discriminate|].
      intros c w1 H. injection H as _ <-. cbn.
      rewrite requests_app, app_nil_r. reflexivity.
    + unfold toggleLike.
      destruct (truthy_id (getCurrentUserId (doc w))) eqn:Hu.
      * run_task. split.
        -- intros r k w1 H. injection H as <- <- <-.
           split; [reflexivity|]. split; [reflexivity|].
           split; [apply (disabled_at_locked _ _ _ _ Hg)|].
           split; [reflexivity|].
           intros o w'. run_all; eauto.
        -- discriminate.
      * run_task. split; [discriminate|].
        intros c w1 H. injection H as _ <-. cbn.
        rewrite requests_app, app_nil_r. reflexivity.
Qed.

Lemma step_keeps_lock (b : path) (ev : Event) (s : Sys) :
  match ev with
  | Click target => closest like_button (doc (world s)) target = Some b
  | Respond _ _ => True
  end ->
  locked_or_idle b s -> locked_or_idle b (step ev s).
Proof.
  intros Hev Inv. destruct ev as [target|i o]; cbn [step].
  - destruct (likes_click_cases target b (world s) Hev) as (Hdis & Haw & _).
    destruct Inv as [Hidle|(r & k & Hin & Hd & Hk)].
    + rewrite Hidle.
      destruct (likes_click target (world s)) as [c w1|r k w1] eqn:E; cbn.
      * left. reflexivity.
      * destruct (Haw r k w1 eq_refl) as (_ & _ & Hd1 & _ & Hk).
        right. exists r, k. auto.
    + rewrite (Hdis Hd). cbn. right. exists r, k. auto.
  - destruct Inv as [Hidle|(r & k & Hin & Hd & Hk)].
    + rewrite Hidle. destruct i; cbn; left; exact Hidle.
    + rewrite Hin. destruct i as [|i]; cbn.
      * destruct (Hk o (world s)) as (c & w' & ->). cbn. left. reflexivity.
      * destruct i; cbn; right; exists r, k; auto.
Qed.

Lemma run_keeps_lock (b : path) (s : Sys) (evs : list Event) (s' : Sys) :
  clicks_on b s evs s' -> locked_or_idle b s -> locked_or_idle b s'.
Proof.
  induction 1 as [s|s target evs s' Hc _ IH|s i o evs s' _ IH]; intros Inv.
  - exact Inv.
  - apply IH. apply (step_keeps_lock b (Click target)); assumption.
  - apply IH. apply (step_keeps_lock b (Respond i o)); [exact I|assumption].
Qed.

(** A reference to an element that matches is its own nearest match. *)
Lemma closest_self (sel : selector) (b : path) :
  forall d pr ks,
    get d b = Some (Elem pr ks) -> matches sel pr = true ->
    closest sel d b = Some b.
Proof.
  induction b as [|i b IH]; intros d pr ks Hg M; cbn in Hg |- *.
  - injection Hg as ->. cbn. rewrite M. reflexivity.
  - destruct d as [pr0 ks0|s]; [|discriminate].
    destruct (nth_error ks0 i) as [c|]; [|discriminate].
    rewrite (IH c pr ks Hg M). reflexivity.
Qed.

(** A click on an enabled button with a valid item reference, by a viewer
    with identity: the handler disables the button, shows the loading
    indicator, sends the toggle request and is suspended. *)
Lemma likes_click_sends (target b : path) (w : World) :
  closest like_button (doc w) target = Some b ->
  disabled_at (doc w) b = false ->
  truthy_id (getCurrentUserId (doc w)) = true ->
  isNaN (post_id_of (doc w) b) = false ->
  exists k,
    likes_click target w
    = Awaiting (toggle_request (post_id_of (doc w) b)) k
        (mkWorld (set_children b [spinner] (set_disabled b true (doc w)))
           (trace w ++ [EFetch (toggle_request (post_id_of (doc w) b))])).
Proof.
  intros Hb Hd Hu Hn. unfold likes_click. run_task. rewrite Hb, Hd, Hn.
  unfold toggleLike. rewrite Hu. run_task. eexists. reflexivity.
Qed.

(** C3. Start with nothing in flight and let any sequence of clicks on
    one button and of responses happen.  Then at most one toggle request
    is in flight at any time, and while one is in flight a further click
    on the button changes nothing.  And whenever nothing is in flight, the
    button is enabled and carries a valid item reference, and the viewer
    has an identity, a click on the button sends the toggle request and
    leaves the button disabled with that one request in flight; the button
    is still the nearest like button of itself, and a second click on it
    before the response changes nothing, so that the two clicks together
    have sent exactly one request. *)
Theorem one_toggle_in_flight_per_button :
  forall (b : path) (s0 : Sys) (evs : list Event) (s : Sys),
    inflight s0 = [] ->
    clicks_on b s0 evs s ->
    List.length (inflight s) <= 1
    /\ (forall target,
          inflight s <> [] ->
          closest like_button (doc (world s)) target = Some b ->
          step (Click target) s = s)
    /\ (forall t1,
          inflight s = [] ->
          closest like_button (doc (world s)) t1 = Some b ->
          disabled_at (doc (world s)) b = false ->
          truthy_id (getCurrentUserId (doc (world s))) = true ->
          isNaN (post_id_of (doc (world s)) b) = false ->
          let req := toggle_request (post_id_of (doc (world s)) b) in
          let s1 := step (Click t1) s in
          (exists k, inflight s1 = [(req, k)])
          /\ requests (trace (world s1)) = requests (trace (world s)) ++ [req]
          /\ disabled_at (doc (world s1)) b = true
          /\ closest like_button (doc (world s1)) b = Some b
          /\ forall t2,
               closest like_button (doc (world s1)) t2 = Some b ->
               let s2 := step (Click t2) s1 in
               s2 = s1
               /\ List.length (inflight s2) = 1
               /\ requests (trace (world s2))
                  = requests (trace (world s)) ++ [req]).
Proof.
  intros b s0 evs s H0 Hrun.
  assert (Inv : locked_or_idle b s).
  { apply (run_keeps_lock b s0 evs s Hrun). left. exact H0. }
  assert (Noop : forall s' target,
             locked_or_idle b s' -> inflight s' <> [] ->
             closest like_button (doc (world s')) target = Some b ->
             step (Click target) s' = s').
  { intros s' target [Hidle|(r & k & Hin & Hd & Hk)] Hne Hc; [congruence|].
    destruct (likes_click_cases target b (world s') Hc) as (Hdis & _ & _).
    cbn [step]. rewrite (Hdis Hd). destruct s'; reflexivity. }
  split; [|split].
  - destruct Inv as [->|(r & k & -> & _)]; cbn; lia.
  - intros target. apply Noop, Inv.
  - intros t1 Hidle Hc1 Hen Hu Hn req s1.
    assert (Inv1 : locked_or_idle b s1).
    { apply (step_keeps_lock b (Click t1)); assumption. }
    destruct (closest_sound _ _ _ _ Hc1) as (pr & ks & Hg & M).
    destruct (likes_click_sends t1 b (world s) Hc1 Hen Hu Hn) as (k & E).
    assert (E1 : s1
                 = mkSys
                     (mkWorld
                        (set_children b [spinner]
                           (set_disabled b true (doc (world s))))
                        (trace (world s) ++ [EFetch req]))
                     [(req, k)]).
    { subst s1. cbn [step]. rewrite E, Hidle. reflexivity. }
    assert (G1 : get (doc (world s1)) b
                 = Some (Elem (with_disabled true pr) [spinner])).
    { rewrite E1. cbn [world doc]. unfold set_children, set_disabled.
      rewrite update_at_compose, get_update_at_same, Hg. reflexivity. }
    assert (R1 : requests (trace (world s1))
                 = requests (trace (world s)) ++ [req]).
    { rewrite E1. cbn [world trace]. rewrite requests_app. reflexivity. }
    split; [exists k; rewrite E1; reflexivity|].
    split; [exact R1|].
    split; [unfold disabled_at, props_at; rewrite G1; reflexivity|].
    split; [apply (closest_self _ _ _ _ _ G1); exact M|].
    intros t2 Hc2 s2.
    assert (E2 : s2 = s1).
    { apply Noop; [exact Inv1| |exact Hc2]. rewrite E1. discriminate. }
    split; [exact E2|]. rewrite E2. split; [|exact R1].
    rewrite E1. reflexivity.
Qed.

Lemma one_toggle_in_flight_per_button_witness :
  let s := step (Respond 0 (ok_liked true))
             (step (Click button_7_ref)
                (step (Click button_7_ref) (mkSys (world_of page_42) []))) in
  let s1 := step (Click (button_7_ref ++ [0])%nat) s in
  let s2 := step (Click button_7_ref) s1 in
  inflight s = []
  /\ map fst (inflight s1) = [toggle_request (Num 7)]
  /\ disabled_at (doc (world s1)) button_7_ref = true
  /\ s2 = s1
  /\ requests (trace (world s))
     = [toggle_request (Num 7)]
  /\ requests (trace (world s2))
     = [toggle_request (Num 7); toggle_request (Num 7)].
Proof.
  pose (s := step (Respond 0 (ok_liked true))
               (step (Click button_7_ref)
                  (step (Click button_7_ref) (mkSys (world_of page_42) [])))).
  assert (Hrun : clicks_on button_7_ref (mkSys (world_of page_42) [])
                   [Click button_7_ref; Click button_7_ref;
                    Respond 0 (ok_liked true)] s).
  { apply run_click; [reflexivity|].
    apply run_click; [reflexivity|].
    apply run_respond. apply run_done. }
  destruct (one_toggle_in_flight_per_button button_7_ref
              (mkSys (world_of page_42) []) _ s eq_refl Hrun)
    as (_ & _ & Two).
  destruct (Two (button_7_ref ++ [0])%nat
              eq_refl eq_refl eq_refl eq_refl eq_refl)
    as ((k & Hin) & R1 & Hd & _ & Second).
  destruct (Second button_7_ref eq_refl) as (E2 & _ & R2).
  cbv zeta. fold s.
  split; [reflexivity|].
  split; [rewrite Hin; reflexivity|].
  split; [exact Hd|].
  split; [exact E2|].
  split; [reflexivity|exact R2].
Defined.

End LockFacts.

(* ------------------------------------------------------------------ *)
(** ** The liked-items page *)

Module LikedPostsFacts.
Import Js Dom Async Likes LikedPosts Page Samples Obs JsFacts DomFacts QueryFacts IdentityFacts.
Import ToggleFacts LockFacts.

(** A change of an element's properties that no selector looks at does
    not change what [closest] finds. *)
Lemma closest_on_props (sel : selector) (g : Props -> Props) (t : path) :
  (forall pr, matches sel (g pr) = matches sel pr) ->
  forall p d, closest sel (update_at p (on_props g) d) t = closest sel d t.
Proof.
  intros Hg. induction t as [|i t IH]; intros p d.
  - destruct p as [|j p]; destruct d as [pr ks|s]; cbn; auto.
    rewrite Hg. reflexivity.
  - destruct p as [|j p]; destruct d as [pr ks|s]; cbn; auto.
    + rewrite Hg. reflexivity.
    + destruct (Nat.eq_dec j i) as [->|Hji].
      * rewrite nth_error_update_nth_same.
        destruct (nth_error ks i) as [c|]; cbn; [|reflexivity].
        rewrite IH. reflexivity.
      * rewrite nth_error_update_nth_other by exact Hji. reflexivity.
Qed.

Lemma closest_set_disabled (sel : selector) (b : path) (x : bool) (d : node)
    (t : path) :
  closest sel (set_disabled b x d) t = closest sel d t.
Proof.
  apply closest_on_props. intros pr. destruct sel; reflexivity.
Qed.

(** A reference to the list is not moved by the removal of a node inside
    the list. *)
Lemma relocate_inside (l : path) (x : nat) (rest : path) :
  relocate (l ++ x :: rest) l = Some l.
Proof.
  induction l as [|a l IH]; cbn.
  - destruct rest; reflexivity.
  - destruct (l ++ x :: rest) as [|y c] eqn:E.
    + destruct l; discriminate.
    + rewrite Nat.eqb_refl, IH. reflexivity.
Qed.

Lemma enable_after_disable (b : path) (d : node) :
  disabled_at d b = false ->
  set_disabled b false (set_disabled b true d) = d.
Proof.
  intros H. unfold set_disabled. rewrite update_at_compose.
  apply update_at_id. intros n Hn.
  unfold disabled_at, props_at in H. rewrite Hn in H.
  destruct n as [pr ks|s]; [|reflexivity].
  destruct pr as [tg cl at_ st di]. cbn in H |- *. rewrite H. reflexivity.
Qed.

(** The timer callback, for a card inside the list. *)
Lemma run_timer_inside (l : path) (x : nat) (rest : path) (w : World) :
  let card := l ++ x :: rest in
  let d' := remove_at card (doc w) in
  run_timer (RemoveCard card l) w
  = Finished (Normal tt)
      (mkWorld d'
         (trace w
          ++ (if (List.length (querySelectorAll article_card l d') =? 0)%nat
              then [EReload] else []))).
Proof.
  cbv zeta. unfold run_timer. run_task. rewrite relocate_inside.
  destruct (_ =? 0)%nat; run_task; [reflexivity|].
  rewrite app_nil_r. destruct w; reflexivity.
Qed.

(** C4. On the liked-items page, take a click that passes the guards of
    the listener (an enabled like button with a valid item reference, a
    viewer identity) and a successful response.

    If the response says [liked: false] and the button sits in a card of
    the list, the handler sets the card's transition to 0.3 s on opacity
    and transform, its opacity to 0 and its scale to 0.95, and arms a
    timer of 300 ms; when the timer fires the card is removed from the
    document, and the page is reloaded exactly when no card is left in
    the list.

    If the response says [liked: true], the handler re-enables the button:
    the document is as it was before the click, nothing is removed and no
    timer is armed. *)
Theorem liked_items_unlike_removes_card :
  forall (w : World) (l target b : path) (r : Response)
         (fields : list (string * json)),
    closest like_button (doc w) target = Some b ->
    disabled_at (doc w) b = false ->
    truthy_id (getCurrentUserId (doc w)) = true ->
    isNaN (post_id_of (doc w) b) = false ->
    ok r = true ->
    json_body r = Some (JObj fields) ->
    let req := toggle_request (post_id_of (doc w) b) in
    let run := run_with (Responded r) (likedPosts_click true l target w) in
    (forall card x rest,
       field "liked" fields = Some (JBool false) ->
       closest article_card (doc w) b = Some card ->
       card = l ++ x :: rest ->
       exists w2 w3 prc,
         run = Finished (Normal tt) w2
         /\ props_at (doc w2) card = Some prc
         /\ transition (style prc) = "opacity 0.3s ease, transform 0.3s ease"
         /\ opacity (style prc) = "0"
         /\ transform (style prc) = "scale(0.95)"
         /\ trace w2
            = trace w ++ [EFetch req; ESetTimeout (RemoveCard card l) 300]
         /\ run_timer (RemoveCard card l) w2 = Finished (Normal tt) w3
         /\ doc w3 = remove_at card (doc w2)
         /\ trace w3
            = trace w2
              ++ (if (List.length (querySelectorAll article_card l (doc w3)) =? 0)%nat
                  then [EReload] else []))
    /\ (field "liked" fields = Some (JBool true) ->
        exists w2,
          run = Finished (Normal tt) w2
          /\ doc w2 = doc w
          /\ disabled_at (doc w2) b = false
          /\ trace w2 = trace w ++ [EFetch req]).
Proof.
  intros w l target b r fields Hb Hd Hu Hn Hok Hj req run.
  subst req run. unfold likedPosts_click. run_task.
  rewrite Hb, Hd, Hu, Hn. run_task. rewrite Hok. run_task.
  rewrite Hj. run_task.
  split.
  - intros card x rest Hf Hc Hcard. rewrite Hf. cbn [truthy negb]. run_task.
    rewrite closest_set_disabled, Hc. run_task.
    assert (Hc1 : closest article_card (set_disabled b true (doc w)) b = Some card)
      by (rewrite closest_set_disabled; exact Hc).
    destruct (closest_sound _ _ _ _ Hc1) as (pc1 & kc1 & Hg1 & _).
    do 3 eexists. split; [reflexivity|]. cbn [doc trace].
    split.
    { unfold set_style, props_at. rewrite !update_at_compose, get_update_at_same, Hg1.
      reflexivity. }
    split; [reflexivity|]. split; [reflexivity|]. split; [reflexivity|].
    split; [rewrite <- !app_assoc; reflexivity|].
    subst card. rewrite run_timer_inside. cbn [doc trace].
    split; [reflexivity|]. split; reflexivity.
  - intros Hf. rewrite Hf. cbn [truthy negb]. run_task.
    eexists. split; [reflexivity|]. cbn [doc trace].
    rewrite (enable_after_disable _ _ Hd). auto.
Qed.

Lemma liked_items_unlike_removes_card_witness :
  let w := world_of page_last_card in
  let b := [1; 0; 0; 1]%nat in
  let card := [1; 0; 0]%nat in
  let req := toggle_request (Num 8) in
  (exists w2 w3 prc,
     run_with (ok_liked false) (likedPosts_click true list_ref b w)
     = Finished (Normal tt) w2
     /\ props_at (doc w2) card = Some prc
     /\ transition (style prc) = "opacity 0.3s ease, transform 0.3s ease"
     /\ opacity (style prc) = "0"
     /\ transform (style prc) = "scale(0.95)"
     /\ trace w2 = [EFetch req; ESetTimeout (RemoveCard card list_ref) 300]
     /\ run_timer (RemoveCard card list_ref) w2 = Finished (Normal tt) w3
     /\ doc w3 = remove_at card (doc w2)
     /\ trace w3 = trace w2 ++ [EReload])
  /\ exists w2,
       run_with (ok_liked true) (likedPosts_click true list_ref b w)
       = Finished (Normal tt) w2
       /\ doc w2 = page_last_card
       /\ disabled_at (doc w2) b = false
       /\ trace w2 = [EFetch req].
Proof.
  cbv zeta. split.
  - destruct (liked_items_unlike_removes_card (world_of page_last_card)
                list_ref [1; 0; 0; 1]%nat [1; 0; 0; 1]%nat
                (mkResponse true (Some (JObj [("liked", JBool false)])) (Some ""))
                [("liked", JBool false)]
                eq_refl eq_refl eq_refl eq_refl eq_refl eq_refl) as [A _].
    destruct (A [1; 0; 0]%nat 0%nat [] eq_refl eq_refl eq_refl)
      as (w2 & w3 & prc & H1 & H2 & H3 & H4 & H5 & H6 & H7 & H8 & H9).
    exists w2, w3, prc. repeat (split; [assumption|]).
    rewrite H9. rewrite H8.
    injection H1 as <-. reflexivity.
  - destruct (liked_items_unlike_removes_card (world_of page_last_card)
                list_ref [1; 0; 0; 1]%nat [1; 0; 0; 1]%nat
                (mkResponse true (Some (JObj [("liked", JBool true)])) (Some ""))
                [("liked", JBool true)]
                eq_refl eq_refl eq_refl eq_refl eq_refl eq_refl) as [_ B].
    exact (B eq_refl).
Defined.

End LikedPostsFacts.

(* ------------------------------------------------------------------ *)
(** ** Further properties of likes.js: identity, inert clicks, status sync *)

Module SyncMoreFacts.
Import Js Dom Async Likes LikedPosts Page Samples Obs LikesMore.
Import JsFacts DomFacts QueryFacts IdentityFacts ToggleFacts PaintFacts RepaintFacts SyncFacts LockFacts.

(** X1. The viewer identity is [parseInt] of the content of the user-id
    meta element when that is a number, and [null] in every other case:
    the tests for an empty and for a blank content never change the
    result. *)
Theorem getCurrentUserId_is_parseInt_of_content :
  forall (d : node),
    getCurrentUserId d
    = match meta_content d with
      | Some content =>
          match parseInt content with
          | Num userId => Some userId
          | NaN => None
          end
      | None => None
      end.
Proof.
  intros d. unfold getCurrentUserId, meta_content.
  destruct (qs_node user_meta d) as [m|]; [|reflexivity].
  set (content := match getAttribute d m "content" with
                  | Some c => c | None => "" end).
  destruct (parseInt content) as [|z] eqn:E.
  - destruct (_ || _); reflexivity.
  - destruct (parseInt_num_not_blank _ _ E) as [H1 H2].
    apply String.eqb_neq in H1, H2. rewrite H1, H2. reflexivity.
Qed.

Lemma post_id_of_missing (d : node) (b : path) :
  getAttribute d b "data-post-id" = None -> isNaN (post_id_of d b) = true.
Proof. intros H. unfold post_id_of. rewrite H. reflexivity. Qed.

(** X2. A click is inert when its target is in no like button, when the
    button is disabled, or when the button's item reference is missing or
    not a number: on either kind of page it sends no request, shows no
    notice and leaves the document as it was. *)
Theorem inert_clicks_change_nothing :
  forall (v : view) (target : path) (w : World),
    (closest like_button (doc w) target = None
     \/ exists b,
          closest like_button (doc w) target = Some b
          /\ (disabled_at (doc w) b = true
              \/ getAttribute (doc w) b "data-post-id" = None
              \/ isNaN (post_id_of (doc w) b) = true)) ->
    exists c w',
      dispatch_click v target w = Finished c w'
      /\ doc w' = doc w
      /\ requests (trace w') = requests (trace w)
      /\ alerts (trace w') = alerts (trace w).
Proof.
  intros v target w H.
  assert (L : forall m l, likedPosts_click m l target w = Finished (Normal tt) w).
  { intros m l. unfold likedPosts_click. run_task.
    destruct H as [->|(b & -> & Hb)]; [reflexivity|].
    destruct (disabled_at (doc w) b); [reflexivity|].
    assert (Hn : isNaN (post_id_of (doc w) b) = true).
    { destruct Hb as [Hb|[Hb|Hb]];
        [discriminate|apply post_id_of_missing, Hb|exact Hb]. }
    rewrite Hn, orb_true_r. reflexivity. }
  assert (K : exists c w',
             likes_click target w = Finished c w'
             /\ doc w' = doc w
             /\ requests (trace w') = requests (trace w)
             /\ alerts (trace w') = alerts (trace w)).
  { unfold likes_click. run_task.
    destruct H as [->|(b & -> & Hb)]; [eauto 6|].
    destruct (disabled_at (doc w) b); [eauto 6|].
    assert (Hn : isNaN (post_id_of (doc w) b) = true).
    { destruct Hb as [Hb|[Hb|Hb]];
        [discriminate|apply post_id_of_missing, Hb|exact Hb]. }
    rewrite Hn. run_task. do 2 eexists. split; [reflexivity|]. cbn.
    rewrite requests_app, alerts_app, !app_nil_r. auto. }
  destruct v as [|l]; cbn [dispatch_click]; [exact K|].
  run_task.
  destruct (is_prefix l target); [|exact K].
  destruct (stops_propagation (doc w) target).
  - rewrite L. eauto 6.
  - rewrite L. run_task. exact K.
Qed.

Lemma inert_clicks_change_nothing_witness :
  exists c w',
    dispatch_click GenericView [0; 0]%nat (world_of page_42) = Finished c w'
    /\ doc w' = page_42
    /\ requests (trace w') = []
    /\ alerts (trace w') = [].
Proof.
  apply (inert_clicks_change_nothing GenericView [0; 0]%nat (world_of page_42)).
  left. reflexivity.
Defined.

Lemma flat_map_if_filter {A B : Type} (p : A -> bool) (f : A -> B) (l : list A) :
  flat_map (fun a => if p a then [f a] else []) l = map f (filter p l).
Proof.
  induction l as [|a l IH]; cbn; [reflexivity|].
  destruct (p a); cbn; rewrite IH; reflexivity.
Qed.

(** One status query, for a viewer with identity: it is suspended on its
    request, and its continuation paints the button from the answer. *)
Lemma sync_button_awaits (userId : option Z) (b : path) (postId : jsnum)
    (w : World) :
  truthy_id userId = true ->
  exists k,
    sync_button userId b postId w
    = Awaiting (status_request userId postId) k
        (mkWorld (doc w) (trace w ++ [EFetch (status_request userId postId)]))
    /\ forall o w2,
         exists errs,
           k o w2
           = Finished (Normal tt)
               (mkWorld (updateLikeButton (Some b) (status_answer o) (doc w2))
                  (trace w2 ++ map EConsoleError errs)).
Proof.
  intros H. unfold sync_button, isLiked. rewrite H. run_task.
  eexists. split; [reflexivity|].
  intros o w2. destruct o as [|r]; run_task.
  - exists ["Error checking like status:"]. reflexivity.
  - unfold status_answer. destruct (ok r); run_task.
    + destruct (json_body r); run_task.
      * exists []. cbn. rewrite app_nil_r. destruct w2; reflexivity.
      * exists ["Error checking like status:"]. reflexivity.
    + destruct (text_body r); run_task.
      * exists ["Error checking like status:"]. reflexivity.
      * exists ["Error checking like status:"]. reflexivity.
Qed.

Lemma spawn_sync_buttons (userId : option Z) (d : node) (bs : list path) :
  truthy_id userId = true ->
  forall w,
    exists pending,
      spawn_all (map (fun b => sync_button userId b (post_id_of d b)) bs) w
      = (mkWorld (doc w)
           (trace w
            ++ map (fun b => EFetch (status_request userId (post_id_of d b))) bs),
         pending)
      /\ Forall2 (paints_from_answer userId d) bs pending.
Proof.
  intros H. induction bs as [|b bs IH]; intros w; cbn [map spawn_all].
  - exists []. rewrite app_nil_r. destruct w. split; [reflexivity|constructor].
  - destruct (sync_button_awaits userId b (post_id_of d b) w H) as (k & -> & Hk).
    destruct (IH (mkWorld (doc w)
                    (trace w ++ [EFetch (status_request userId (post_id_of d b))])))
      as (pending & -> & Hp).
    exists ((status_request userId (post_id_of d b), k) :: pending).
    cbn [doc trace]. rewrite <- app_assoc. split; [reflexivity|].
    constructor; [|exact Hp]. split; [reflexivity|].
    intros o w2 _. apply Hk.
Qed.

Lemma is_prefix_app_l (a x b : path) :
  is_prefix (a ++ x) b = true -> is_prefix a b = true.
Proof.
  revert b. induction a as [|i a IH]; intros b H; [reflexivity|].
  destruct b as [|j b]; cbn in H |- *; [discriminate|].
  apply andb_true_iff in H. destruct H as [H1 H2].
  rewrite H1. cbn. apply IH, H2.
Qed.

Lemma is_prefix_longer (b : path) (i : nat) (x : path) :
  is_prefix (b ++ i :: x) b = false.
Proof.
  induction b as [|j b IH]; cbn; [reflexivity|].
  rewrite Nat.eqb_refl. exact IH.
Qed.

(** A write below an element that is not a proper ancestor of [b] is not
    a write to an ancestor of [b] either. *)
Lemma spares_below (a : path) (i : nat) (x b : path) :
  spares a b -> spares (a ++ i :: x) b.
Proof.
  intros [H|<-]; left.
  - destruct (is_prefix (a ++ i :: x) b) eqn:E; [|reflexivity].
    rewrite (is_prefix_app_l _ _ _ E) in H. discriminate.
  - apply is_prefix_longer.
Qed.

Lemma props_write_keeps_element (g : Props -> Props) (p : path) :
  forall b d,
    (exists pr ks, get d b = Some (Elem pr ks)) ->
    exists pr ks, get (update_at p (on_props g) d) b = Some (Elem pr ks).
Proof.
  induction p as [|i p IH]; intros b d (pr & ks & H).
  - destruct d as [pr0 ks0|s0]; [|destruct b; cbn in H |- *; eauto; discriminate].
    destruct b as [|j b]; cbn in H |- *; eauto.
  - destruct d as [pr0 ks0|s0]; [|cbn; eauto].
    destruct b as [|j b]; [cbn; eauto|].
    cbn in H |- *.
    destruct (Nat.eq_dec i j) as [->|Hij].
    + rewrite nth_error_update_nth_same.
      destruct (nth_error ks0 j) as [c|]; [|discriminate]. cbn.
      apply IH. eauto.
    + rewrite nth_error_update_nth_other by exact Hij. eauto.
Qed.

Lemma children_write_keeps_element (h : list node -> list node) (p : path) :
  forall b d,
    spares p b ->
    (exists pr ks, get d b = Some (Elem pr ks)) ->
    exists pr ks, get (update_at p (on_children h) d) b = Some (Elem pr ks).
Proof.
  induction p as [|i p IH]; intros b d Hs (pr & ks & H).
  - destruct Hs as [Hs|<-]; [discriminate|].
    cbn in H |- *. injection H as ->. cbn. eauto.
  - destruct d as [pr0 ks0|s0]; [|cbn; eauto].
    destruct b as [|j b]; [cbn; eauto|].
    cbn in H |- *.
    destruct (Nat.eq_dec i j) as [->|Hij].
    + rewrite nth_error_update_nth_same.
      destruct (nth_error ks0 j) as [c|]; [|discriminate]. cbn.
      apply IH; [apply (spares_cons j), Hs|eauto].
    + rewrite nth_error_update_nth_other by exact Hij. eauto.
Qed.

(** Where a document was written in place for [b], the reference still
    leads to an element. *)
Lemma stays_put_element (b : path) (d d2 : node) :
  stays_put b d d2 ->
  (exists pr ks, get d b = Some (Elem pr ks)) ->
  exists pr ks, get d2 b = Some (Elem pr ks).
Proof.
  intros H Hd. induction H as [|d1 d2 _ IH Hw]; [exact Hd|].
  destruct Hw as [p g d1|p h d1 Hs].
  - apply props_write_keeps_element, IH.
  - apply children_write_keeps_element; [exact Hs|exact IH].
Qed.

Lemma synced_buttons_elements (d : node) (b : path) :
  In b (synced_buttons d) -> exists pr ks, get d b = Some (Elem pr ks).
Proof.
  unfold synced_buttons. intros H. apply filter_In in H.
  apply (qsa_node_sound like_button_with_id b d), H.
Qed.

(** A repaint of the button [a] is made of writes in place for every
    reference [b] of which [a] is not a proper ancestor. *)
Lemma repaint_stays_put (a b : path) (v : jsval) (d d2 : node) :
  spares a b ->
  stays_put b d d2 ->
  stays_put b d (updateLikeButton (Some a) v d2).
Proof.
  intros Hs H.
  assert (T : forall t, querySelector like_text a d2 = Some t -> spares t b).
  { intros t Ht. unfold querySelector in Ht.
    destruct (get d2 a) as [n|]; [|discriminate].
    destruct (qs_inside like_text n) as [q|] eqn:E; [|discriminate].
    destruct (qs_inside_sound _ _ _ E) as (i & q' & _ & _ & -> & _).
    injection Ht as <-. apply spares_below, Hs. }
  unfold updateLikeButton, classList_add, classList_remove, set_style,
    set_textContent, set_children.
  destruct (truthy v);
    destruct (querySelector like_icon a d2) as [i|];
    destruct (querySelector like_text a d2) as [t|];
    repeat first
      [ exact H
      | eapply stays_step; [|apply write_children; apply T; reflexivity]
      | eapply stays_step; [|apply write_props] ].
Qed.

(** X3. For a viewer with identity [initializeLikes] sends one status
    query per selected button whose item reference is a number, in
    document order, all of them before any answer is read; buttons with an
    invalid reference are skipped; and until an answer arrives the
    document is as it was.  Each suspended query, resumed in a document in
    which its button is still where it was when the query was sent (the
    document was meanwhile only written in place: no node was inserted or
    removed at an ancestor of the button), finds an element there,
    finishes normally, shows no notice, sends nothing more and repaints
    that element with the answer -- the parsed body of a successful
    response, [false] for everything else -- leaving all that is apart
    from it as it was.  The repaint of one button is such a write in place
    for every button that is not inside it, so the answers may arrive in
    any order. *)
Theorem status_sync_queries_each_button :
  forall (w : World),
    truthy_id (getCurrentUserId (doc w)) = true ->
    let userId := getCurrentUserId (doc w) in
    let buttons := synced_buttons (doc w) in
    exists w' pending,
      initializeLikes w = (w', pending)
      /\ doc w' = doc w
      /\ trace w'
         = trace w
           ++ map (fun b => EFetch (status_request userId (post_id_of (doc w) b)))
                buttons
      /\ map fst pending
         = map (fun b => status_request userId (post_id_of (doc w) b)) buttons
      /\ Forall2
           (fun b q =>
              forall o w2,
                stays_put b (doc w) (doc w2) ->
                exists w3 pr2 ks2,
                  snd q o w2 = Finished (Normal tt) w3
                  /\ get (doc w2) b = Some (Elem pr2 ks2)
                  /\ doc w3 = updateLikeButton (Some b) (status_answer o) (doc w2)
                  /\ get (doc w3) b
                     = Some (updateLikeButton (Some []) (status_answer o)
                               (Elem pr2 ks2))
                  /\ (forall a, apart b a -> get (doc w3) a = get (doc w2) a)
                  /\ requests (trace w3) = requests (trace w2)
                  /\ alerts (trace w3) = alerts (trace w2))
           buttons pending
      /\ (forall a b v d2,
            spares a b ->
            stays_put b (doc w) d2 ->
            stays_put b (doc w) (updateLikeButton (Some a) v d2)).
Proof.
  intros w H. cbv zeta. unfold initializeLikes. rewrite H. cbn [negb].
  rewrite (flat_map_if_filter
             (fun b => negb (isNaN (post_id_of (doc w) b)))
             (fun b => sync_button (getCurrentUserId (doc w)) b
                         (post_id_of (doc w) b))).
  fold (synced_buttons (doc w)).
  destruct (spawn_sync_buttons (getCurrentUserId (doc w)) (doc w)
              (synced_buttons (doc w)) H w) as (pending & E & Hp).
  exists (mkWorld (doc w)
            (trace w
             ++ map (fun b => EFetch (status_request (getCurrentUserId (doc w))
                                        (post_id_of (doc w) b)))
                  (synced_buttons (doc w)))), pending.
  split; [exact E|]. split; [reflexivity|]. split; [reflexivity|].
  split; [|split].
  - clear E. induction Hp as [|b q bs qs [Hq _] _ IH]; cbn; [reflexivity|].
    rewrite Hq, IH. reflexivity.
  - clear E.
    assert (El : forall b, In b (synced_buttons (doc w)) ->
                   exists pr ks, get (doc w) b = Some (Elem pr ks))
      by (intros b; apply synced_buttons_elements).
    induction Hp as [|b q bs qs [_ Hq] _ IH]; constructor.
    + intros o w2 Hw2. destruct (Hq o w2 Hw2) as (errs & ->).
      destruct (stays_put_element b (doc w) (doc w2) Hw2
                  (El b (or_introl eq_refl))) as (pr2 & ks2 & G2).
      eexists. exists pr2, ks2.
      split; [reflexivity|]. cbn [doc trace]. split; [exact G2|].
      split; [reflexivity|].
      split; [rewrite updateLikeButton_at, get_update_at_same, G2; reflexivity|].
      split.
      { intros a Ha. rewrite updateLikeButton_at.
        apply get_update_at_apart, Ha. }
      rewrite requests_app, alerts_app.
      assert (R : requests (map EConsoleError errs) = []
                  /\ alerts (map EConsoleError errs) = []).
      { clear. induction errs as [|e errs [IH1 IH2]]; cbn; auto. }
      destruct R as [-> ->]. rewrite !app_nil_r. auto.
    + apply IH. intros b' Hb'. apply El. right. exact Hb'.
  - intros a b v d2. apply repaint_stays_put.
Qed.

Lemma status_sync_queries_each_button_witness :
  exists w' q7 q8 w3 w4,
    initializeLikes (world_of page_42) = (w', [q7; q8])
    /\ trace w'
       = [EFetch (status_request (Some 42%Z) (Num 7));
          EFetch (status_request (Some 42%Z) (Num 8))]
    /\ snd q8 NetworkFailure w' = Finished (Normal tt) w3
    /\ snd q7 (Responded (mkResponse true (Some (JBool true)) None)) w3
       = Finished (Normal tt) w4
    /\ doc w4
       = updateLikeButton (Some button_7_ref) (Some (JBool true))
           (updateLikeButton (Some button_8_ref) js_false page_42).
Proof.
  destruct (status_sync_queries_each_button (world_of page_42) eq_refl)
    as (w' & pending & E & Hd & Ht & _ & HF & Cl).
  cbv zeta in HF, Ht, Cl.
  change (synced_buttons (doc (world_of page_42)))
    with [button_7_ref; button_8_ref] in HF.
  change (doc (world_of page_42)) with page_42 in HF, Hd, Cl.
  inversion HF as [|b7 q7 bs7 qs7 H7 HF' Eb Eq]. subst.
  inversion HF' as [|b8 q8 bs8 qs8 H8 HF'' Eb Eq]. subst.
  inversion HF''. subst.
  assert (S8 : stays_put button_8_ref page_42 (doc w'))
    by (rewrite Hd; apply stays_refl).
  destruct (H8 NetworkFailure w' S8) as (w3 & p8 & k8 & R8 & _ & D8 & _).
  assert (S7 : stays_put button_7_ref page_42 (doc w3)).
  { rewrite D8. apply Cl; [left; reflexivity|].
    rewrite Hd. apply stays_refl. }
  destruct (H7 (Responded (mkResponse true (Some (JBool true)) None)) w3 S7)
    as (w4 & p7 & k7 & R7 & _ & D7 & _).
  exists w', q7, q8, w3, w4.
  split; [exact E|]. split; [exact Ht|]. split; [exact R8|].
  split; [exact R7|].
  rewrite D7, D8, Hd. reflexivity.
Defined.

End SyncMoreFacts.

(* ------------------------------------------------------------------ *)
(** ** Further properties of likes.js: repaints *)

Module PaintMoreFacts.
Import Js Dom Async Likes LikedPosts Page Samples Obs LikesMore.
Import JsFacts DomFacts QueryFacts IdentityFacts ToggleFacts PaintFacts RepaintFacts SyncFacts.

Lemma update_nth_commute {A : Type} (i j : nat) (f g : A -> A) (l : list A) :
  i <> j ->
  update_nth i f (update_nth j g l) = update_nth j g (update_nth i f l).
Proof.
  revert i j; induction l as [|x l IH]; intros [|i] [|j] H; cbn; auto.
  - congruence.
  - rewrite IH by congruence. reflexivity.
Qed.

(** Writes through references that are apart commute. *)
Lemma update_at_commute_apart (p q : path) (f g : node -> node) :
  apart p q ->
  forall n, update_at p f (update_at q g n) = update_at q g (update_at p f n).
Proof.
  unfold apart. revert q; induction p as [|i p IH]; intros q [H1 H2] n.
  - discriminate.
  - destruct q as [|j q]; [discriminate|].
    destruct n as [pr ks|s]; cbn; [|reflexivity].
    cbn in H1, H2. f_equal.
    destruct (Nat.eq_dec i j) as [->|Hij].
    + rewrite Nat.eqb_refl in H1, H2. cbn in H1, H2.
      rewrite !update_nth_compose. apply update_nth_ext.
      intros x. apply IH. split; assumption.
    + apply update_nth_commute, Hij.
Qed.

(** X4. A repaint is local to its button.  It leaves every node that is
    apart from the button as it was, and repaints of two buttons that are
    apart from each other commute: the order in which status answers
    arrive does not matter for the document. *)
Theorem repaints_are_local_and_commute :
  forall (a b : path) (u v : jsval) (d : node),
    apart a b ->
    get (updateLikeButton (Some a) u d) b = get d b
    /\ updateLikeButton (Some a) u (updateLikeButton (Some b) v d)
       = updateLikeButton (Some b) v (updateLikeButton (Some a) u d).
Proof.
  intros a b u v d H. split.
  - rewrite updateLikeButton_at. apply get_update_at_apart, H.
  - rewrite !updateLikeButton_at. apply update_at_commute_apart, H.
Qed.

Lemma repaints_are_local_and_commute_witness :
  get (updateLikeButton (Some button_7_ref) (Some (JBool true)) page_42)
    button_8_ref
  = get page_42 button_8_ref
  /\ updateLikeButton (Some button_7_ref) (Some (JBool true))
       (updateLikeButton (Some button_8_ref) js_false page_42)
     = updateLikeButton (Some button_8_ref) js_false
         (updateLikeButton (Some button_7_ref) (Some (JBool true)) page_42).
Proof.
  apply (repaints_are_local_and_commute button_7_ref button_8_ref
           (Some (JBool true)) js_false page_42).
  split; reflexivity.
Defined.

(** A change of an element's properties and a replacement of children
    commute when the replacement spares the element. *)
Lemma props_children_commute (g : Props -> Props) (h : list node -> list node)
    (t : path) :
  forall i n,
    spares t i ->
    update_at i (on_props g) (update_at t (on_children h) n)
    = update_at t (on_children h) (update_at i (on_props g) n).
Proof.
  induction t as [|j t IH]; intros i n Hs.
  - destruct Hs as [Hs|<-]; [discriminate|].
    destruct n; reflexivity.
  - destruct i as [|k i].
    + destruct n; reflexivity.
    + destruct n as [pr ks|s]; cbn; [|reflexivity]. f_equal.
      destruct (Nat.eq_dec k j) as [->|Hkj].
      * rewrite !update_nth_compose. apply update_nth_ext.
        intros x. apply IH. apply (spares_cons j), Hs.
      * apply update_nth_commute, Hkj.
Qed.

Lemma update_at_idem (p : path) (f : node -> node) (n : node) :
  (forall x, f (f x) = f x) ->
  update_at p f (update_at p f n) = update_at p f n.
Proof.
  intros H. rewrite update_at_compose. apply update_at_ext, H.
Qed.

Lemma class_add_idem (c : string) (cs : list string) :
  class_add c (class_add c cs) = class_add c cs.
Proof.
  unfold class_add at 1. rewrite has_class_add. reflexivity.
Qed.

Lemma class_remove_idem (c : string) (cs : list string) :
  class_remove c (class_remove c cs) = class_remove c cs.
Proof.
  unfold class_remove. induction cs as [|x cs IH]; cbn; [reflexivity|].
  destruct (String.eqb c x) eqn:E; cbn; [exact IH|].
  rewrite E. cbn. rewrite IH. reflexivity.
Qed.

(** Under the page shape, [paint_with] finds the icon and the label of
    the button where they were before it ran. *)
Lemma paint_with_queries (cop : list string -> list string)
    (fv sv lb : string) (pr : Props) (ks : list node) :
  (forall i t,
     qs_inside like_icon (Elem pr ks) = Some i ->
     qs_inside like_text (Elem pr ks) = Some t -> spares t i) ->
  qs_inside like_icon (paint_with cop fv sv lb (Elem pr ks))
  = qs_inside like_icon (Elem pr ks)
  /\ qs_inside like_text (paint_with cop fv sv lb (Elem pr ks))
     = qs_inside like_text (Elem pr ks).
Proof.
  intros Hsp.
  set (pa := with_classes (cop (classList pr)) pr).
  set (st := fun x : node =>
               on_props (fun p => with_style (with_stroke sv (style p)) p)
                 (on_props (fun p => with_style (with_fill fv (style p)) p) x)).
  set (G := on_children (fun _ : list node => if String.eqb lb "" then [] else [Text lb])).
  assert (Hst : keeps_queries st).
  { intros sel x. unfold st. rewrite !style_keeps_queries. reflexivity. }
  assert (HG : only_sets_text G).
  { intros [p k|s]; cbn; [|reflexivity]. eexists; split; [reflexivity|].
    intros sel c Hc. destruct (String.eqb lb ""); cbn in Hc; [contradiction|].
    destruct Hc as [<-|[]]. reflexivity. }
  unfold paint_with, set_textContent, set_children, set_style.
  fold G. cbn [update_at on_props]. fold pa.
  change (qs_inside like_icon (Elem pr ks)) with (qs_inside like_icon (Elem pa ks)) in *.
  change (qs_inside like_text (Elem pr ks)) with (qs_inside like_text (Elem pa ks)) in *.
  destruct (qs_inside like_icon (Elem pa ks)) as [i|] eqn:Ei.
  - destruct (qs_inside_sound _ _ _ Ei) as (i0 & i' & pi & ki & -> & _ & _).
    rewrite update_at_compose. fold st.
    set (nb := update_at (i0 :: i') st (Elem pa ks)).
    assert (Hqi : qs_inside like_icon nb = Some (i0 :: i')).
    { unfold nb. rewrite qs_inside_keeps by (exact Hst || discriminate). exact Ei. }
    assert (Hqt : qs_inside like_text nb = qs_inside like_text (Elem pa ks)).
    { unfold nb. rewrite qs_inside_keeps by (exact Hst || discriminate). reflexivity. }
    destruct (qs_inside like_text (Elem pa ks)) as [t|] eqn:Et.
    + destruct (qs_inside_sound _ _ _ Et) as (t0 & t' & pt & kt & -> & _ & _).
      specialize (Hsp _ _ eq_refl eq_refl). split.
      * apply qs_inside_text_update; (exact HG || discriminate || assumption).
      * apply qs_inside_text_update;
          (exact HG || discriminate || exact Hqt || (right; reflexivity)).
    + split; assumption.
  - destruct (qs_inside like_text (Elem pa ks)) as [t|] eqn:Et.
    + destruct (qs_inside_sound _ _ _ Et) as (t0 & t' & pt & kt & -> & _ & _).
      split.
      * apply qs_inside_text_none; (exact HG || discriminate || exact Ei).
      * apply qs_inside_text_update;
          (exact HG || discriminate || exact Et || (right; reflexivity)).
    + split; assumption.
Qed.

Lemma paint_with_idem (cop : list string -> list string)
    (fv sv lb : string) (pr : Props) (ks : list node) :
  (forall cs, cop (cop cs) = cop cs) ->
  (forall i t,
     qs_inside like_icon (Elem pr ks) = Some i ->
     qs_inside like_text (Elem pr ks) = Some t -> spares t i) ->
  paint_with cop fv sv lb (paint_with cop fv sv lb (Elem pr ks))
  = paint_with cop fv sv lb (Elem pr ks).
Proof.
  intros Hcop Hsp.
  destruct (paint_with_queries cop fv sv lb pr ks Hsp) as [Qi Qt].
  set (n := Elem pr ks) in *.
  unfold paint_with at 1. rewrite Qi, Qt.
  unfold paint_with.
  set (C := on_props (fun p => with_classes (cop (classList p)) p)).
  set (S1 := on_props (fun p => with_style (with_fill fv (style p)) p)).
  set (S2 := on_props (fun p => with_style (with_stroke sv (style p)) p)).
  set (h := fun _ : list node => if String.eqb lb "" then [] else [Text lb]).
  unfold set_textContent, set_children, set_style. fold S1 S2 h.
  cbn [update_at].
  assert (HC : forall x, C (C x) = C x).
  { intros [p k|s]; cbn; [|reflexivity]. unfold with_classes; cbn.
    rewrite Hcop. reflexivity. }
  assert (HCS : forall q g x, q <> [] ->
            C (update_at q g x) = update_at q g (C x)).
  { intros q g x Hq. destruct q; [congruence|]. destruct x; reflexivity. }
  assert (HS : forall x, S2 (S1 (S2 (S1 x))) = S2 (S1 x)).
  { intros [p k|s]; reflexivity. }
  assert (HT : forall x, on_children h (on_children h x) = on_children h x).
  { intros [p k|s]; reflexivity. }
  destruct (qs_inside like_icon n) as [i|] eqn:Ei;
    destruct (qs_inside like_text n) as [t|] eqn:Et.
  - destruct (qs_inside_sound _ _ _ Ei) as (i0 & i' & _ & _ & -> & _ & _).
    destruct (qs_inside_sound _ _ _ Et) as (t0 & t' & _ & _ & -> & _ & _).
    specialize (Hsp _ _ eq_refl eq_refl).
    rewrite !update_at_compose.
    set (S := fun x => S2 (S1 x)).
    rewrite !HCS by discriminate. rewrite HC.
    rewrite <- (update_at_compose (i0 :: i') S1 S2).
    fold (update_at (i0 :: i')).
    change (update_at (i0 :: i') S2 (update_at (i0 :: i') S1 ?x))
      with (update_at (i0 :: i') S2 (update_at (i0 :: i') S1 x)).
    rewrite !update_at_compose. fold S.
    assert (HcommS : forall x,
              update_at (i0 :: i') S (update_at (t0 :: t') (on_children h) x)
              = update_at (t0 :: t') (on_children h) (update_at (i0 :: i') S x)).
    { intros x. unfold S.
      rewrite <- (update_at_compose (i0 :: i') S1 S2).
      unfold S1 at 1, S2 at 1.
      rewrite (props_children_commute _ h (t0 :: t') (i0 :: i') _ Hsp).
      rewrite (props_children_commute _ h (t0 :: t') (i0 :: i') _ Hsp).
      rewrite update_at_compose. reflexivity. }
    rewrite HcommS. rewrite update_at_idem by exact HT.
    f_equal. rewrite update_at_compose. apply update_at_ext. intros x. apply HS.
  - destruct (qs_inside_sound _ _ _ Ei) as (i0 & i' & _ & _ & -> & _ & _).
    rewrite !update_at_compose.
    rewrite !HCS by discriminate. rewrite HC.
    rewrite update_at_compose. apply update_at_ext. intros x. apply HS.
  - destruct (qs_inside_sound _ _ _ Et) as (t0 & t' & _ & _ & -> & _ & _).
    rewrite !HCS by discriminate. rewrite HC.
    apply update_at_idem, HT.
  - apply HC.
Qed.

(** X5. Repainting is idempotent: on a button whose label does not
    enclose its icon, [updateLikeButton] applied twice with the same value
    leaves the document exactly as one application does. *)
Theorem repaint_is_idempotent :
  forall (b : path) (v : jsval) (d : node),
    label_spares_icon d b ->
    updateLikeButton (Some b) v (updateLikeButton (Some b) v d)
    = updateLikeButton (Some b) v d.
Proof.
  intros b v d H. rewrite !updateLikeButton_at, update_at_compose.
  apply update_at_ext_get. intros n Hn.
  destruct n as [pr ks|s].
  - pose proof (label_spares_icon_inside _ _ _ _ Hn H) as Hsp.
    cbv beta. rewrite (updateLikeButton_paint_with v (Elem pr ks)).
    destruct (truthy v) eqn:Ev; rewrite updateLikeButton_paint_with, Ev.
    + apply paint_with_idem; [apply class_add_idem|exact Hsp].
    + apply paint_with_idem; [apply class_remove_idem|exact Hsp].
  - cbv beta.
    assert (E : updateLikeButton (Some []) v (Text s) = Text s).
    { unfold updateLikeButton. rewrite !querySelector_root.
      destruct (truthy v); reflexivity. }
    rewrite !E. reflexivity.
Qed.

Lemma repaint_is_idempotent_witness :
  updateLikeButton (Some button_8_ref) js_false
    (updateLikeButton (Some button_8_ref) js_false page_42)
  = updateLikeButton (Some button_8_ref) js_false page_42.
Proof.
  apply (repaint_is_idempotent button_8_ref js_false page_42).
  intros i t Hi Ht. injection Hi as <-. injection Ht as <-.
  left. reflexivity.
Defined.

End PaintMoreFacts.

(* ------------------------------------------------------------------ *)
(** ** Further properties of likes.js: the toggle handler *)

Module ToggleMoreFacts.
Import Js Dom Async Likes LikedPosts Page Samples Obs LikesMore.
Import JsFacts DomFacts QueryFacts IdentityFacts ToggleFacts PaintFacts RepaintFacts SyncFacts.

(** X6. [updateLikeButton] goes by the truthiness of the value it is
    given.  On a button element whose label does not enclose its icon, the
    visual state afterwards is the one that stands for that truthiness; of
    the button's own properties only the class list changes; and the
    children keep their tag, classes and attributes.  Without a button it
    does nothing. *)
Theorem updateLikeButton_paints_truthiness :
  forall (d : node) (b : path) (pr : Props) (ks : list node) (v : jsval),
    get d b = Some (Elem pr ks) ->
    label_spares_icon d b ->
    updateLikeButton None v d = d
    /\ exists ks',
         get (updateLikeButton (Some b) v d) b
         = Some (Elem
                   (mkProps (tagName pr)
                      (if truthy v then class_add "liked" (classList pr)
                       else class_remove "liked" (classList pr))
                      (attributes pr) (style pr) (disabled pr))
                   ks')
         /\ map outline ks' = map outline ks
         /\ visual_state (updateLikeButton (Some b) v d) b
            = Some (painted (truthy v)
                      (is_some (querySelector like_icon b d))
                      (is_some (querySelector like_text b d))).
Proof.
  intros d b pr ks v Hg Hsp. split; [reflexivity|].
  destruct (updateLikeButton_visual v pr ks
              (label_spares_icon_inside _ _ _ _ Hg Hsp)) as (ks' & E & Ho & Hv).
  exists ks'.
  assert (G : get (updateLikeButton (Some b) v d) b
              = Some (updateLikeButton (Some []) v (Elem pr ks))).
  { rewrite updateLikeButton_at, get_update_at_same, Hg. reflexivity. }
  split; [rewrite G, E; reflexivity|]. split; [exact Ho|].
  unfold visual_state. rewrite G, Hv.
  rewrite !(is_some_querySelector _ _ _ _ Hg). reflexivity.
Qed.

Lemma updateLikeButton_paints_truthiness_witness :
  updateLikeButton None (Some (JNum 0)) page_42 = page_42
  /\ exists ks',
       get (updateLikeButton (Some button_8_ref) (Some (JNum 0)) page_42)
         button_8_ref
       = Some (Elem
                 (mkProps "button" ["like-button"] [("data-post-id", "8")]
                    no_style false)
                 ks')
       /\ map outline ks' = map outline [icon_liked; text_liked]
       /\ visual_state
            (updateLikeButton (Some button_8_ref) (Some (JNum 0)) page_42)
            button_8_ref
          = Some (painted false true true).
Proof.
  apply (updateLikeButton_paints_truthiness page_42 button_8_ref
           (mkProps "button" ["like-button"; "liked"] [("data-post-id", "8")]
              no_style false)
           [icon_liked; text_liked] (Some (JNum 0)) eq_refl).
  intros i t Hi Ht. injection Hi as <-. injection Ht as <-.
  left. reflexivity.
Defined.

(** The document after the reconcile step of [toggleLike]: the button is
    rebuilt from the captured icon and label, repainted and enabled. *)
Lemma reconcile_step (d : node) (b : path) (pr : Props) (kids : list node)
    (v : jsval) :
  get d b = Some (Elem pr kids) ->
  let icon := cloneNode d (querySelector like_icon b d) in
  let text := cloneNode d (querySelector like_text b d) in
  let d3 := set_children b [] (set_children b [spinner] (set_disabled b true d)) in
  let d4 := match icon with Some i => appendChild b i d3 | None => d3 end in
  let d5 := match text with Some t => appendChild b t d4 | None => d4 end in
  let dfin := set_disabled b false (updateLikeButton (Some b) v d5) in
  exists kids',
    get dfin b
    = Some (Elem
              (mkProps (tagName pr)
                 (if truthy v then class_add "liked" (classList pr)
                  else class_remove "liked" (classList pr))
                 (attributes pr) (style pr) false)
              kids')
    /\ kids' = repainted (truthy v) icon text
    /\ map outline kids' = map outline (olist icon ++ olist text)
    /\ visual_state dfin b
       = Some (painted (truthy v) (is_some icon) (is_some text))
    /\ exists F, dfin = update_at b F d.
Proof.
  intros Hb. cbv zeta.
  rewrite !(cloneNode_querySelector _ _ _ _ Hb).
  set (n0 := Elem pr kids).
  set (icon := match qs_inside like_icon n0 with Some q => get n0 q | None => None end).
  set (text := match qs_inside like_text n0 with Some q => get n0 q | None => None end).
  set (pr1 := with_disabled true pr).
  set (n1 := Elem pr1 (olist icon ++ olist text)).
  set (d5 := update_at b (fun _ => n1) d).
  assert (Hd5 : get d5 b = Some n1).
  { unfold d5. rewrite get_update_at_same, Hb. reflexivity. }
  destruct (restored_queries pr pr1 kids) as (Si & St & Qi & Qt & Hsp).
  fold n0 icon text n1 in Si, St, Qi, Qt, Hsp.
  destruct (updateLikeButton_visual v pr1 (olist icon ++ olist text) Hsp)
    as (ks2 & E2 & Ho2 & Hv2).
  fold n1 in E2, Hv2. rewrite Qi, Qt, <- Si, <- St in Hv2.
  assert (Hks : ks2 = repainted (truthy v) icon text).
  { destruct (captured_shape pr kids) as (C1 & C2 & C3 & C4).
    fold n0 icon text in C1, C2, C3, C4.
    pose proof (rebuilt_repaint v pr1 icon text C1 C2 C3 C4) as E3.
    fold n1 in E3. rewrite E3 in E2. injection E2 as <-. reflexivity. }
  set (pr2 := with_classes
                (if truthy v then class_add "liked" (classList pr1)
                 else class_remove "liked" (classList pr1)) pr1) in E2.
  assert (Hchain : forall (f : node -> node),
             (f n0 = n1) -> update_at b f d = d5).
  { intros f Hfn. unfold d5. apply update_at_ext_get.
    intros x Hx. rewrite Hb in Hx. injection Hx as <-. exact Hfn. }
  assert (Edd :
    match text with
    | Some t =>
        appendChild b t
          match icon with
          | Some i =>
              appendChild b i
                (set_children b [] (set_children b [spinner] (set_disabled b true d)))
          | None =>
              set_children b [] (set_children b [spinner] (set_disabled b true d))
          end
    | None =>
        match icon with
        | Some i =>
            appendChild b i
              (set_children b [] (set_children b [spinner] (set_disabled b true d)))
        | None =>
            set_children b [] (set_children b [spinner] (set_disabled b true d))
        end
    end = d5).
  { subst n1. clearbody icon text. destruct icon, text;
      unfold set_children, appendChild, set_disabled;
      rewrite ?update_at_compose; apply Hchain; reflexivity. }
  rewrite Edd.
  assert (G : get (set_disabled b false (updateLikeButton (Some b) v d5)) b
              = Some (Elem (with_disabled false pr2) ks2)).
  { rewrite (updateLikeButton_local _ _ _ _ Hd5).
    unfold set_disabled. rewrite update_at_compose, get_update_at_same, Hd5.
    cbn [option_map]. rewrite E2. reflexivity. }
  exists ks2. split; [exact G|]. split; [exact Hks|]. split; [exact Ho2|]. split.
  - unfold visual_state. rewrite G, visual_of_disabled, <- E2. exact Hv2.
  - rewrite updateLikeButton_at. unfold set_disabled, d5.
    rewrite !update_at_compose. eexists. reflexivity.
Qed.

Lemma json_eq_null (j : json) : j = JNull \/ j <> JNull.
Proof. destruct j; (left; reflexivity) || (right; discriminate). Qed.

(** The reconcile step as [toggleLike] runs it. *)
Lemma reconcile_run :
  forall (d : node) (b : path) (pr : Props) (kids : list node)
         (postId : jsnum) (userId : option Z) (tr : list Effect)
         (r : Response) (result : json),
    get d b = Some (Elem pr kids) ->
    truthy_id userId = true ->
    ok r = true ->
    json_body r = Some result ->
    result <> JNull ->
    let icon := cloneNode d (querySelector like_icon b d) in
    let text := cloneNode d (querySelector like_text b d) in
    let liked := liked_of result in
    exists w' kids',
      run_with (Responded r)
        (toggleLike postId userId (Some b) (mkWorld d tr))
      = Finished (Normal liked) w'
      /\ get (doc w') b
         = Some (Elem
                   (mkProps (tagName pr)
                      (if truthy liked then class_add "liked" (classList pr)
                       else class_remove "liked" (classList pr))
                      (attributes pr) (style pr) false)
                   kids')
      /\ kids' = repainted (truthy liked) icon text
      /\ map outline kids' = map outline (olist icon ++ olist text)
      /\ visual_state (doc w') b
         = Some (painted (truthy liked) (is_some icon) (is_some text))
      /\ (forall a, apart b a -> get (doc w') a = get d a)
      /\ trace w' = tr ++ [EFetch (toggle_request postId)].
Proof.
  intros d b pr kids postId userId tr r result Hb Hu Hok Hj Hnn.
  cbv zeta.
  destruct (reconcile_step d b pr kids (liked_of result) Hb)
    as (kids' & G & Hk & Ho & Hv & F & HF).
  cbv zeta in G, Hk, Hv, HF.
  assert (Fr : forall a, apart b a -> get (update_at b F d) a = get d a)
    by (intros a Ha; apply get_update_at_apart, Ha).
  rewrite <- HF in Fr. clear HF.
  unfold toggleLike. rewrite Hu.
  run_task. rewrite Hok. run_task. rewrite Hj. run_task.
  destruct result; try congruence; run_task;
    destruct (cloneNode d (querySelector like_icon b d));
    destruct (cloneNode d (querySelector like_text b d));
    run_task;
    (eexists; exists kids'; split; [reflexivity|]; cbn [doc trace];
     split; [exact G|]; split; [exact Hk|]; split; [exact Ho|];
     split; [exact Hv|]; split; [exact Fr|reflexivity]).
Qed.

(** X7. A successful response with any JSON body other than [null] is
    taken at the truthiness of its [liked] property.  [toggleLike] returns
    that property as it is -- [undefined] when the body is not an object
    or has no such key -- and the button ends enabled, its children
    exactly the captured icon and label, each with all of its content and
    painted for the truthiness of the property, in the visual state that
    stands for that truthiness: a missing [liked] paints not-liked.  No
    notice is shown. *)
Theorem toggle_success_goes_by_truthiness :
  forall (d : node) (b : path) (pr : Props) (kids : list node)
         (postId : jsnum) (userId : option Z) (tr : list Effect)
         (r : Response) (result : json),
    get d b = Some (Elem pr kids) ->
    truthy_id userId = true ->
    ok r = true ->
    json_body r = Some result ->
    result <> JNull ->
    let icon := subtree d (querySelector like_icon b d) in
    let text := subtree d (querySelector like_text b d) in
    let liked := liked_of result in
    exists w' kids',
      run_with (Responded r)
        (toggleLike postId userId (Some b) (mkWorld d tr))
      = Finished (Normal liked) w'
      /\ get (doc w') b
         = Some (Elem
                   (mkProps (tagName pr)
                      (if truthy liked then class_add "liked" (classList pr)
                       else class_remove "liked" (classList pr))
                      (attributes pr) (style pr) false)
                   kids')
      /\ kids' = repainted (truthy liked) icon text
      /\ map outline kids' = map outline (olist icon ++ olist text)
      /\ visual_state (doc w') b
         = Some (painted (truthy liked) (is_some icon) (is_some text))
      /\ (forall a, apart b a -> get (doc w') a = get d a)
      /\ trace w' = tr ++ [EFetch (toggle_request postId)].
Proof.
  intros d b pr kids postId userId tr r result Hb Hu Hok Hj Hnn.
  cbv zeta. rewrite !subtree_cloneNode.
  apply (reconcile_run d b pr kids postId userId tr r result Hb Hu Hok Hj Hnn).
Qed.

Lemma toggle_success_goes_by_truthiness_witness :
  exists w' kids',
    run_with (Responded (mkResponse true (Some (JObj [("ok", JBool true)])) None))
      (toggleLike (Num 9) (Some 42%Z) (Some button_9_ref) (mkWorld page_heart []))
    = Finished (Normal None) w'
    /\ get (doc w') button_9_ref
       = Some (Elem
                 (mkProps "button" ["like-button"] [("data-post-id", "9")]
                    no_style false)
                 kids')
    /\ kids' = [icon_heart (mkStyle "none" "" "" "" ""); text_plain]
    /\ map outline kids' = map outline [icon_heart no_style; text_liked]
    /\ visual_state (doc w') button_9_ref = Some (painted false true true)
    /\ (forall a, apart button_9_ref a -> get (doc w') a = get page_heart a)
    /\ trace w' = [EFetch (toggle_request (Num 9))].
Proof.
  refine (toggle_success_goes_by_truthiness page_heart button_9_ref
            (mkProps "button" ["like-button"; "liked"] [("data-post-id", "9")]
               no_style false)
            [icon_heart (mkStyle liked_colour liked_colour "" "" ""); text_liked]
            (Num 9) (Some 42%Z) []
            (mkResponse true (Some (JObj [("ok", JBool true)])) None)
            (JObj [("ok", JBool true)])
            eq_refl eq_refl eq_refl eq_refl _).
  discriminate.
Defined.

(** The [catch] block of [toggleLike] for a button element, when it is
    reached before the body of the response was read: the loading
    indicator is still the content of the button. *)
Lemma toggle_catch_early (d : node) (b : path) (pr : Props)
    (kids : list node) (postId : jsnum) (userId : option Z)
    (tr : list Effect) (o : FetchOutcome) :
  get d b = Some (Elem pr kids) ->
  truthy_id userId = true ->
  fails_before_body o ->
  run_with o (toggleLike postId userId (Some b) (mkWorld d tr))
  = Finished (Normal js_false)
      (mkWorld
         (set_disabled b false
            (set_children b [spinner] (set_disabled b true d)))
         (tr ++ [EFetch (toggle_request postId);
                 EConsoleError "Error toggling like:";
                 EAlert failure_notice])).
Proof.
  intros Hb Hu Ho. unfold toggleLike. rewrite Hu. run_task.
  assert (G : get (set_disabled b false
                     (set_children b [spinner] (set_disabled b true d))) b
              = Some (Elem (with_disabled false pr) [spinner])).
  { unfold set_disabled, set_children.
    rewrite !update_at_compose, get_update_at_same, Hb. reflexivity. }
  assert (Q : querySelector like_icon b
                (set_disabled b false
                   (set_children b [spinner] (set_disabled b true d)))
              = None).
  { unfold querySelector. rewrite G. reflexivity. }
  destruct o as [|r]; run_task.
  - rewrite Q. run_task. rewrite <- !app_assoc. reflexivity.
  - destruct (ok r) eqn:Hok; run_task.
    + destruct Ho as [Ho|Ho]; [congruence|]. rewrite Ho. run_task.
      rewrite Q. run_task. rewrite <- !app_assoc. reflexivity.
    + rewrite Q. run_task. rewrite <- !app_assoc. reflexivity.
Qed.

Lemma querySelector_at (sel : selector) (b : path) (d n : node) :
  get d b = Some n ->
  querySelector sel b d = option_map (app b) (qs_inside sel n).
Proof. intros H. unfold querySelector. rewrite H. reflexivity. Qed.

Lemma skipn_app_length (b q : path) : skipn (List.length b) (b ++ q) = q.
Proof. induction b as [|x b IH]; cbn; [reflexivity|exact IH]. Qed.

(** What the [catch] block finds in a button that was just rebuilt from
    the two clones, and what it would put back. *)
Lemma reattach_rebuilt (d : node) (b : path) (p0 : Props)
    (icon text : option node) :
  get d b = Some (Elem p0 (olist icon ++ olist text)) ->
  (forall ni, icon = Some ni -> matches_node like_icon ni = true) ->
  (forall nt, text = Some nt -> matches_node like_text nt = true) ->
  (icon = None -> forall nt, text = Some nt -> qs_node like_icon nt = None) ->
  (text = None -> forall ni, icon = Some ni -> qs_node like_text ni = None) ->
  match querySelector like_icon b d, querySelector like_text b d with
  | Some i, Some t => reattach_pair d i t
  | _, _ => olist icon ++ olist text
  end
  = caught_content icon text.
Proof.
  intros Hg Hi Ht Hni Hnt.
  rewrite !(querySelector_at _ _ _ _ Hg).
  destruct icon as [ni|]; destruct text as [nt|]; cbn [olist app] in *.
  - specialize (Hi ni eq_refl). specialize (Ht nt eq_refl).
    destruct ni as [pi ki|si]; [|discriminate].
    destruct nt as [pt kt|st]; [|discriminate].
    cbn [matches_node] in Hi, Ht.
    unfold caught_content.
    cbn [qs_inside find_first qs_node option_map]. rewrite Hi.
    cbn [option_map].
    assert (G0 : get d (b ++ [0]) = Some (Elem pi ki))
      by (rewrite get_app, Hg; reflexivity).
    destruct (matches like_text pi) eqn:Mti.
    + cbn [option_map]. unfold reattach_pair. rewrite G0.
      rewrite is_prefix_app_inv. reflexivity.
    + destruct (find_first (qs_node like_text) ki 0) as [q|] eqn:Ef.
      * cbn [option_map].
        destruct (find_first_inv _ _ _ _ Ef) as (j & q' & c & E & Hn & Hf & _).
        cbn in E. subst q.
        destruct (qs_node_sound _ _ _ Hf) as (pl & kl & Hgl & _).
        assert (G1 : get d (b ++ 0 :: j :: q') = Some (Elem pl kl)).
        { rewrite get_app, Hg. cbn. rewrite Hn. exact Hgl. }
        assert (G2 : get (Elem pi ki) (j :: q') = Some (Elem pl kl)).
        { cbn. rewrite Hn. exact Hgl. }
        unfold reattach_pair. rewrite G0, G1, G2.
        rewrite !is_prefix_app_inv.
        change (b ++ 0 :: j :: q') with (b ++ [0] ++ j :: q').
        rewrite app_assoc, skipn_app_length. reflexivity.
      * rewrite Ht. cbn [option_map].
        assert (G1 : get d (b ++ [1]) = Some (Elem pt kt))
          by (rewrite get_app, Hg; reflexivity).
        unfold reattach_pair. rewrite G0, G1.
        rewrite !is_prefix_app_inv. reflexivity.
  - specialize (Hi ni eq_refl). specialize (Hnt eq_refl ni eq_refl).
    destruct ni as [pi ki|si]; [|discriminate].
    cbn [matches_node] in Hi. cbn [qs_node] in Hnt.
    cbn [qs_inside find_first qs_node]. rewrite Hi.
    destruct (matches like_text pi); [discriminate|]. rewrite Hnt.
    reflexivity.
  - specialize (Ht nt eq_refl). specialize (Hni eq_refl nt eq_refl).
    destruct nt as [pt kt|st]; [|discriminate].
    cbn [matches_node] in Ht. cbn [qs_node] in Hni.
    cbn [qs_inside find_first qs_node].
    destruct (matches like_icon pt); [discriminate|]. rewrite Hni.
    reflexivity.
  - reflexivity.
Qed.

(** The [catch] block of [toggleLike] for a button element, when it is
    reached from the read of [result.liked] on a [null] body: by then the
    button was rebuilt from the captured icon and label. *)
Lemma toggle_catch_null (d : node) (b : path) (pr : Props)
    (kids : list node) (postId : jsnum) (userId : option Z)
    (tr : list Effect) (r : Response) :
  get d b = Some (Elem pr kids) ->
  truthy_id userId = true ->
  ok r = true ->
  json_body r = Some JNull ->
  let icon := cloneNode d (querySelector like_icon b d) in
  let text := cloneNode d (querySelector like_text b d) in
  exists w',
    run_with (Responded r) (toggleLike postId userId (Some b) (mkWorld d tr))
    = Finished (Normal js_false) w'
    /\ get (doc w') b
       = Some (Elem (with_disabled false pr) (caught_content icon text))
    /\ (forall a, apart b a -> get (doc w') a = get d a)
    /\ trace w'
       = tr ++ [EFetch (toggle_request postId);
                EConsoleError "Error toggling like:";
                EAlert failure_notice].
Proof.
  intros Hb Hu Hok Hj. cbv zeta.
  rewrite !(cloneNode_querySelector _ _ _ _ Hb).
  destruct (captured_shape pr kids) as (C1 & C2 & C3 & C4).
  cbv zeta in C1, C2, C3, C4.
  set (n0 := Elem pr kids) in *.
  set (icon := match qs_inside like_icon n0 with Some q => get n0 q | None => None end) in *.
  set (text := match qs_inside like_text n0 with Some q => get n0 q | None => None end) in *.
  set (n6 := Elem (with_disabled false pr) (olist icon ++ olist text)).
  set (d6 := update_at b (fun _ => n6) d).
  assert (Hd6 : get d6 b = Some n6).
  { unfold d6. rewrite get_update_at_same, Hb. reflexivity. }
  pose proof (reattach_rebuilt d6 b (with_disabled false pr) icon text
                Hd6 C1 C2 C3 C4) as R.
  assert (Hchain : forall (f : node -> node), f n0 = n6 -> update_at b f d = d6).
  { intros f Hfn. unfold d6. apply update_at_ext_get.
    intros x Hx. rewrite Hb in Hx. injection Hx as <-. exact Hfn. }
  assert (Edd :
    set_disabled b false
      match text with
      | Some t =>
          appendChild b t
            match icon with
            | Some i =>
                appendChild b i
                  (set_children b [] (set_children b [spinner] (set_disabled b true d)))
            | None =>
                set_children b [] (set_children b [spinner] (set_disabled b true d))
            end
      | None =>
          match icon with
          | Some i =>
              appendChild b i
                (set_children b [] (set_children b [spinner] (set_disabled b true d)))
          | None =>
              set_children b [] (set_children b [spinner] (set_disabled b true d))
          end
      end = d6).
  { subst n6. clearbody icon text. destruct icon, text;
      unfold set_children, appendChild, set_disabled;
      rewrite ?update_at_compose; apply Hchain; reflexivity. }
  assert (Fin : forall dd,
            dd = d6 ->
            exists w',
              match querySelector like_icon b dd, querySelector like_text b dd with
              | Some i, Some t =>
                  Finished (Normal js_false)
                    (mkWorld (set_children b (reattach_pair dd i t) dd)
                       (((tr ++ [EFetch (toggle_request postId)])
                         ++ [EConsoleError "Error toggling like:"])
                        ++ [EAlert failure_notice]))
              | _, _ =>
                  Finished (Normal js_false)
                    (mkWorld dd
                       (((tr ++ [EFetch (toggle_request postId)])
                         ++ [EConsoleError "Error toggling like:"])
                        ++ [EAlert failure_notice]))
              end
              = Finished (Normal js_false) w'
              /\ get (doc w') b
                 = Some (Elem (with_disabled false pr) (caught_content icon text))
              /\ (forall a, apart b a -> get (doc w') a = get d a)
              /\ trace w'
                 = tr ++ [EFetch (toggle_request postId);
                          EConsoleError "Error toggling like:";
                          EAlert failure_notice]).
  { intros dd ->.
    assert (Fr6 : forall a, apart b a -> get d6 a = get d a)
      by (intros a Ha; apply get_update_at_apart, Ha).
    destruct (querySelector like_icon b d6) as [i|];
      [destruct (querySelector like_text b d6) as [t|]|];
      (eexists; split; [reflexivity|]; cbn [doc trace]; split; [|split];
       [ | | rewrite <- !app_assoc; reflexivity ]).
    - unfold set_children. rewrite get_update_at_same, Hd6. cbn.
      rewrite R. reflexivity.
    - intros a Ha. unfold set_children.
      rewrite (get_update_at_apart _ _ _ _ Ha). apply Fr6, Ha.
    - rewrite Hd6. unfold n6. rewrite R. reflexivity.
    - exact Fr6.
    - rewrite Hd6. unfold n6. rewrite R. reflexivity.
    - exact Fr6. }
  unfold toggleLike. rewrite Hu.
  run_task. rewrite Hok. run_task. rewrite Hj. run_task.
  rewrite !(cloneNode_querySelector _ _ _ _ Hb). fold n0 icon text.
  clearbody icon text.
  destruct icon as [ni|]; destruct text as [nt|]; run_task;
    match goal with
    | |- context [querySelector like_icon b ?dd] =>
        destruct (Fin dd Edd) as (w' & E & F1 & F2 & F3)
    end;
    exists w'; (split; [|split; [exact F1|split; [exact F2|exact F3]]]);
    rewrite <- E;
    repeat split_match; run_task; reflexivity.
Qed.

(** X8. Whatever the network answers -- no response, a non-success
    status, a body that is not JSON, any JSON body -- [toggleLike] with a
    button element and an identity returns normally, having sent exactly
    one request.  The button ends enabled, with its tag, attributes and
    inline style as they were, and nothing that is apart from the button
    has changed.  When the answer sends the function to its [catch] block
    (which a [null] body and a body that is not JSON do as well as a
    failed request), it returns [false] after the failure notice and the
    classes of the button are as they were.  What is then left in the
    button depends on where the exception came from: the loading indicator
    when the request failed, the status was not a success or the body was
    not JSON; the captured icon and label, unpainted, when the body was
    [null], for then the exception comes from the read of [result.liked],
    after the button was rebuilt. *)
Theorem toggle_always_returns_and_reenables :
  forall (d : node) (b : path) (pr : Props) (kids : list node)
         (postId : jsnum) (userId : option Z) (tr : list Effect)
         (o : FetchOutcome),
    get d b = Some (Elem pr kids) ->
    truthy_id userId = true ->
    let icon := subtree d (querySelector like_icon b d) in
    let text := subtree d (querySelector like_text b d) in
    exists v w' pr' kids',
      run_with o (toggleLike postId userId (Some b) (mkWorld d tr))
      = Finished (Normal v) w'
      /\ get (doc w') b = Some (Elem pr' kids')
      /\ disabled pr' = false
      /\ tagName pr' = tagName pr
      /\ attributes pr' = attributes pr
      /\ style pr' = style pr
      /\ (forall a, apart b a -> get (doc w') a = get d a)
      /\ requests (trace w') = requests tr ++ [toggle_request postId]
      /\ (toggle_fails o ->
          v = js_false
          /\ classList pr' = classList pr
          /\ alerts (trace w') = alerts tr ++ [failure_notice])
      /\ (fails_before_body o -> kids' = [spinner])
      /\ (answers_null o -> kids' = caught_content icon text).
Proof.
  intros d b pr kids postId userId tr o Hb Hu. cbv zeta.
  rewrite !subtree_cloneNode.
  assert (Early : fails_before_body o ->
    exists v w' pr' kids',
      run_with o (toggleLike postId userId (Some b) (mkWorld d tr))
      = Finished (Normal v) w'
      /\ get (doc w') b = Some (Elem pr' kids')
      /\ disabled pr' = false
      /\ tagName pr' = tagName pr
      /\ attributes pr' = attributes pr
      /\ style pr' = style pr
      /\ (forall a, apart b a -> get (doc w') a = get d a)
      /\ requests (trace w') = requests tr ++ [toggle_request postId]
      /\ (toggle_fails o ->
          v = js_false
          /\ classList pr' = classList pr
          /\ alerts (trace w') = alerts tr ++ [failure_notice])
      /\ (fails_before_body o -> kids' = [spinner])
      /\ (answers_null o ->
          kids' = caught_content
                    (cloneNode d (querySelector like_icon b d))
                    (cloneNode d (querySelector like_text b d)))).
  { intros Ho. rewrite (toggle_catch_early _ _ _ _ _ _ _ _ Hb Hu Ho).
    exists js_false. eexists. exists (with_disabled false pr), [spinner].
    split; [reflexivity|]. cbn [doc trace]. split.
    { unfold set_disabled, set_children.
      rewrite !update_at_compose, get_update_at_same, Hb. reflexivity. }
    repeat (split; [reflexivity|]). split.
    { intros a Ha. unfold set_disabled, set_children.
      rewrite !update_at_compose. apply get_update_at_apart, Ha. }
    split; [rewrite requests_app; reflexivity|].
    split.
    { intros _. repeat (split; [reflexivity|]).
      rewrite alerts_app. reflexivity. }
    split; [reflexivity|].
    intros (r & -> & Hok & Hj). destruct Ho as [Ho|Ho]; congruence. }
  destruct o as [|r]; [apply Early; exact I|].
  destruct (ok r) eqn:Hok; [|apply Early; left; exact Hok].
  destruct (json_body r) as [j|] eqn:Hj; [|apply Early; right; exact Hj].
  destruct (json_eq_null j) as [->|Hnn].
  - destruct (toggle_catch_null d b pr kids postId userId tr r Hb Hu Hok Hj)
      as (w' & E & G & Fr & Ht).
    cbv zeta in G.
    exists js_false, w', (with_disabled false pr). eexists.
    split; [exact E|]. split; [exact G|].
    repeat (split; [reflexivity|]).
    split; [exact Fr|].
    split; [rewrite Ht, requests_app; reflexivity|].
    split.
    { intros _. repeat (split; [reflexivity|]).
      rewrite Ht, alerts_app. reflexivity. }
    split; [intros [Ho|Ho]; congruence|reflexivity].
  - destruct (reconcile_run d b pr kids postId userId tr r j
                Hb Hu Hok Hj Hnn) as (w' & kids' & E & G & _ & _ & _ & Fr & Ht).
    do 2 eexists. eexists. exists kids'.
    split; [exact E|]. split; [exact G|].
    repeat (split; [reflexivity|]).
    split; [exact Fr|].
    split; [rewrite Ht, requests_app; reflexivity|].
    split; [intros [Ho|[Ho|Ho]]; congruence|].
    split; [intros [Ho|Ho]; congruence|].
    intros (r' & Er & _ & Hj'). injection Er as <-. congruence.
Qed.

Lemma toggle_always_returns_and_reenables_witness :
  (exists w',
     run_with (Responded (mkResponse true (Some JNull) None))
       (toggleLike (Num 9) (Some 42%Z) (Some button_9_ref) (mkWorld page_heart []))
     = Finished (Normal js_false) w'
     /\ get (doc w') button_9_ref = get page_heart button_9_ref
     /\ alerts (trace w') = [failure_notice])
  /\ (exists w',
        run_with (Responded (mkResponse true None None))
          (toggleLike (Num 9) (Some 42%Z) (Some button_9_ref) (mkWorld page_heart []))
        = Finished (Normal js_false) w'
        /\ children_at (doc w') button_9_ref = Some [spinner]
        /\ disabled_at (doc w') button_9_ref = false).
Proof.
  split.
  - destruct (toggle_always_returns_and_reenables page_heart button_9_ref
                (mkProps "button" ["like-button"; "liked"]
                   [("data-post-id", "9")] no_style false)
                [icon_heart (mkStyle liked_colour liked_colour "" "" "");
                 text_liked]
                (Num 9) (Some 42%Z) []
                (Responded (mkResponse true (Some JNull) None))
                eq_refl eq_refl)
      as (v & w' & pr' & kids' & E & G & Hd & Htag & Hat & Hst & _ & _
          & Hf & _ & Hn).
    destruct (Hf (or_intror (or_intror eq_refl))) as (-> & Hcl & Hal).
    assert (Hk : kids'
                 = [icon_heart (mkStyle liked_colour liked_colour "" "" "");
                    text_liked]).
    { apply Hn. eexists. split; [reflexivity|]. split; reflexivity. }
    exists w'. split; [exact E|]. split; [|exact Hal].
    rewrite G, Hk. destruct pr' as [tg cl at' st dis].
    cbn in Hd, Htag, Hat, Hst, Hcl. subst. reflexivity.
  - destruct (toggle_always_returns_and_reenables page_heart button_9_ref
                (mkProps "button" ["like-button"; "liked"]
                   [("data-post-id", "9")] no_style false)
                [icon_heart (mkStyle liked_colour liked_colour "" "" "");
                 text_liked]
                (Num 9) (Some 42%Z) []
                (Responded (mkResponse true None None))
                eq_refl eq_refl)
      as (v & w' & pr' & kids' & E & G & Hd & _ & _ & _ & _ & _
          & Hf & He & _).
    destruct (Hf (or_intror (or_introl eq_refl))) as (-> & _ & _).
    exists w'. split; [exact E|].
    unfold children_at, disabled_at, props_at. rewrite G.
    rewrite (He (or_intror eq_refl)). split; [reflexivity|exact Hd].
Defined.

End ToggleMoreFacts.

(* ------------------------------------------------------------------ *)
(** ** Further properties of liked-posts.js *)

Module LikedMoreFacts.
Import Js Dom Async Likes LikedPosts Page Samples Obs LikesMore.
Import JsFacts DomFacts QueryFacts IdentityFacts ToggleFacts PaintFacts RepaintFacts SyncFacts.
Import LockFacts LikedPostsFacts ToggleMoreFacts.

(** A change of an element's properties that keeps [disabled] is not
    seen by a reader of [disabled], wherever it reads. *)
Lemma disabled_at_on_props (g : Props -> Props) (p : path) :
  (forall pr, disabled (g pr) = disabled pr) ->
  forall q d, disabled_at (update_at p (on_props g) d) q = disabled_at d q.
Proof.
  intros Hg. unfold disabled_at, props_at.
  induction p as [|i p IH]; intros q d.
  - destruct q as [|j q]; destruct d as [pr ks|s]; cbn; auto.
  - destruct q as [|j q]; destruct d as [pr ks|s]; cbn; auto.
    destruct (Nat.eq_dec i j) as [->|Hij].
    + rewrite nth_error_update_nth_same.
      destruct (nth_error ks j) as [c|]; cbn; [apply IH|reflexivity].
    + rewrite nth_error_update_nth_other by exact Hij. reflexivity.
Qed.

Lemma disabled_at_set_style (card : path) (g : Style -> Style) (q : path)
    (d : node) :
  disabled_at (set_style card g d) q = disabled_at d q.
Proof. apply disabled_at_on_props. reflexivity. Qed.

(** X9. On the liked-items page, when the request of a click that passed
    the guards fails -- no response, a non-success status, a body that is
    not JSON or the body [null] -- the listener logs the error, re-enables
    the button and shows the failure notice: the document is exactly as it
    was before the click, and no timer is armed. *)
Theorem liked_items_failure_restores_document :
  forall (w : World) (l target b : path) (o : FetchOutcome),
    closest like_button (doc w) target = Some b ->
    disabled_at (doc w) b = false ->
    truthy_id (getCurrentUserId (doc w)) = true ->
    isNaN (post_id_of (doc w) b) = false ->
    toggle_fails o ->
    run_with o (likedPosts_click true l target w)
    = Finished (Normal tt)
        (mkWorld (doc w)
           (trace w ++ [EFetch (toggle_request (post_id_of (doc w) b));
                        EConsoleError "Error toggling like:";
                        EAlert failure_notice])).
Proof.
  intros w l target b o Hb Hd Hu Hn Ho.
  unfold likedPosts_click. run_task. rewrite Hb, Hd, Hu, Hn. run_task.
  destruct o as [|r]; run_task.
  - rewrite (enable_after_disable _ _ Hd), <- !app_assoc. reflexivity.
  - destruct (ok r) eqn:Hok; run_task.
    + destruct Ho as [Ho|[Ho|Ho]]; [congruence| |]; rewrite Ho; run_task;
        rewrite (enable_after_disable _ _ Hd), <- !app_assoc; reflexivity.
    + rewrite (enable_after_disable _ _ Hd), <- !app_assoc. reflexivity.
Qed.

Lemma liked_items_failure_restores_document_witness :
  run_with NetworkFailure
    (likedPosts_click true list_ref button_8_ref (world_of page_42))
  = Finished (Normal tt)
      (mkWorld page_42
         [EFetch (toggle_request (Num 8));
          EConsoleError "Error toggling like:";
          EAlert failure_notice]).
Proof.
  exact (liked_items_failure_restores_document (world_of page_42) list_ref
           button_8_ref button_8_ref NetworkFailure
           eq_refl eq_refl eq_refl eq_refl I).
Defined.

(** X10. On the liked-items page a successful response with any JSON body
    other than [null] is taken at the truthiness of its [liked] property.
    A truthy one leaves the document exactly as it was before the click.
    A falsy one -- [false], but also a missing property -- never
    re-enables the button: if the button is in a card, the card's removal
    is scheduled; if it is in no card, nothing is scheduled and the only
    change to the document is that the button is now disabled.  No notice
    is shown in either case. *)
Theorem liked_items_success_goes_by_truthiness :
  forall (w : World) (l target b : path) (r : Response) (result : json),
    closest like_button (doc w) target = Some b ->
    disabled_at (doc w) b = false ->
    truthy_id (getCurrentUserId (doc w)) = true ->
    isNaN (post_id_of (doc w) b) = false ->
    ok r = true ->
    json_body r = Some result ->
    result <> JNull ->
    let req := toggle_request (post_id_of (doc w) b) in
    let run := run_with (Responded r) (likedPosts_click true l target w) in
    (truthy (liked_of result) = true ->
     run = Finished (Normal tt) (mkWorld (doc w) (trace w ++ [EFetch req])))
    /\ (truthy (liked_of result) = false ->
        closest article_card (doc w) b = None ->
        run = Finished (Normal tt)
                (mkWorld (set_disabled b true (doc w)) (trace w ++ [EFetch req]))
        /\ disabled_at (set_disabled b true (doc w)) b = true)
    /\ (truthy (liked_of result) = false ->
        forall card,
          closest article_card (doc w) b = Some card ->
          exists w',
            run = Finished (Normal tt) w'
            /\ disabled_at (doc w') b = true
            /\ trace w'
               = trace w ++ [EFetch req; ESetTimeout (RemoveCard card l) 300]).
Proof.
  intros w l target b r result Hb Hd Hu Hn Hok Hj Hnn req run.
  subst req run.
  destruct (closest_sound _ _ _ _ Hb) as (pb & kb & Hgb & _).
  assert (Dis : disabled_at (set_disabled b true (doc w)) b = true).
  { unfold disabled_at, props_at, set_disabled.
    rewrite get_update_at_same, Hgb. reflexivity. }
  unfold likedPosts_click. run_task. rewrite Hb, Hd, Hu, Hn. run_task.
  rewrite Hok. run_task. rewrite Hj. run_task.
  assert (E : forall (k : jsval -> Task unit) w0,
             bind_res
               (match result with
                | JNull =>
                    fun w1 => Finished (Thrown "TypeError: Cannot read properties of null") w1
                | JObj fields => fun w1 => Finished (Normal (field "liked" fields)) w1
                | _ => fun w1 => Finished (Normal None) w1
                end w0) k
             = k (liked_of result) w0).
  { intros k w0. destruct result; try congruence; reflexivity. }
  rewrite E. clear E.
  split; [|split].
  - intros Ht. rewrite Ht. run_task.
    rewrite (enable_after_disable _ _ Hd). reflexivity.
  - intros Ht Hc. rewrite Ht. run_task.
    rewrite closest_set_disabled, Hc. run_task. split; [reflexivity|exact Dis].
  - intros Ht card Hc. rewrite Ht. run_task.
    rewrite closest_set_disabled, Hc. run_task.
    eexists. split; [reflexivity|]. cbn [doc trace]. split.
    + rewrite !disabled_at_set_style. exact Dis.
    + rewrite <- !app_assoc. reflexivity.
Qed.

Lemma liked_items_success_goes_by_truthiness_witness :
  let r := mkResponse true (Some (JObj [])) None in
  let b := [1; 0; 0; 1]%nat in
  let req := toggle_request (Num 8) in
  let run := run_with (Responded r)
               (likedPosts_click true list_ref b (world_of page_last_card)) in
  (truthy (liked_of (JObj [])) = true ->
   run = Finished (Normal tt) (mkWorld page_last_card [EFetch req]))
  /\ (truthy (liked_of (JObj [])) = false ->
      closest article_card page_last_card b = None ->
      run = Finished (Normal tt)
              (mkWorld (set_disabled b true page_last_card) [EFetch req])
      /\ disabled_at (set_disabled b true page_last_card) b = true)
  /\ (truthy (liked_of (JObj [])) = false ->
      forall card,
        closest article_card page_last_card b = Some card ->
        exists w',
          run = Finished (Normal tt) w'
          /\ disabled_at (doc w') b = true
          /\ trace w' = [EFetch req; ESetTimeout (RemoveCard card list_ref) 300]).
Proof.
  refine (liked_items_success_goes_by_truthiness (world_of page_last_card)
            list_ref [1; 0; 0; 1]%nat [1; 0; 0; 1]%nat
            (mkResponse true (Some (JObj [])) None) (JObj [])
            eq_refl eq_refl eq_refl eq_refl eq_refl eq_refl _).
  discriminate.
Defined.

End LikedMoreFacts.

(* ------------------------------------------------------------------ *)
(** ** The processing lock on either kind of page *)

Module LockMoreFacts.
Import Js Dom Async Likes LikedPosts Page Samples Obs LikesMore.
Import JsFacts DomFacts QueryFacts IdentityFacts ToggleFacts LockFacts LikedPostsFacts.

(** What one click on the button does in the capturing listener of the
    liked-items page. *)
Lemma likedPosts_click_cases (l target b : path) (w : World) :
  closest like_button (doc w) target = Some b ->
  (disabled_at (doc w) b = true ->
   likedPosts_click true l target w = Finished (Normal tt) w)
  /\ (forall r k w1,
        likedPosts_click true l target w = Awaiting r k w1 ->
        disabled_at (doc w1) b = true
        /\ forall o w', exists c w'', k o w' = Finished c w'')
  /\ (forall c w1,
        likedPosts_click true l target w = Finished c w1 -> w1 = w).
Proof.
  intros Hb.
  destruct (closest_sound _ _ _ _ Hb) as (pr & ks & Hg & _).
  unfold likedPosts_click. run_task. rewrite Hb.
  destruct (disabled_at (doc w) b) eqn:Hd.
  - split; [reflexivity|]. split; [discriminate|].
    intros c w1 H. injection H as _ <-. reflexivity.
  - split; [discriminate|].
    destruct (negb (truthy_id (getCurrentUserId (doc w)))
              || isNaN (post_id_of (doc w) b)).
    + split; [discriminate|]. intros c w1 H. injection H as _ <-. reflexivity.
    + run_task. split; [|discriminate].
      intros r k w1 H. injection H as <- <- <-. split.
      * unfold disabled_at, props_at, set_disabled. cbn [doc].
        rewrite get_update_at_same, Hg. reflexivity.
      * intros o w'. run_all; eauto.
Qed.

(** What one click on the button does on a page of either kind. *)
Lemma dispatch_click_cases (v : view) (target b : path) (w : World) :
  closest like_button (doc w) target = Some b ->
  (disabled_at (doc w) b = true ->
   dispatch_click v target w = Finished (Normal tt) w)
  /\ (forall r k w1,
        dispatch_click v target w = Awaiting r k w1 ->
        disabled_at (doc w1) b = true
        /\ forall o w', exists c w'', k o w' = Finished c w'').
Proof.
  intros Hb.
  destruct (likes_click_cases target b w Hb) as (A1 & A2 & _).
  assert (A : (disabled_at (doc w) b = true ->
               likes_click target w = Finished (Normal tt) w)
              /\ (forall r k w1,
                    likes_click target w = Awaiting r k w1 ->
                    disabled_at (doc w1) b = true
                    /\ forall o w', exists c w'', k o w' = Finished c w'')).
  { split; [exact A1|]. intros r k w1 H.
    destruct (A2 r k w1 H) as (_ & _ & Hd & _ & Hk). auto. }
  destruct v as [|l]; cbn [dispatch_click]; [exact A|].
  run_task. destruct (is_prefix l target); [|exact A].
  unfold stops_propagation. rewrite Hb.
  destruct (likedPosts_click_cases l target b w Hb) as (B1 & B2 & _).
  split; assumption.
Qed.

Lemma step_on_keeps_lock (v : view) (b : path) (ev : Event) (s : Sys) :
  match ev with
  | Click target => closest like_button (doc (world s)) target = Some b
  | Respond _ _ => True
  end ->
  locked_or_idle b s -> locked_or_idle b (step_on v ev s).
Proof.
  intros Hev Inv. destruct ev as [target|i o]; cbn [step_on].
  - destruct (dispatch_click_cases v target b (world s) Hev) as (Hdis & Haw).
    destruct Inv as [Hidle|(r & k & Hin & Hd & Hk)].
    + rewrite Hidle.
      destruct (dispatch_click v target (world s)) as [c w1|r k w1] eqn:E; cbn.
      * left. reflexivity.
      * destruct (Haw r k w1 eq_refl) as (Hd1 & Hk).
        right. exists r, k. auto.
    + rewrite (Hdis Hd). cbn. right. exists r, k. auto.
  - destruct Inv as [Hidle|(r & k & Hin & Hd & Hk)].
    + rewrite Hidle. destruct i; cbn; left; exact Hidle.
    + rewrite Hin. destruct i as [|i]; cbn.
      * destruct (Hk o (world s)) as (c & w' & ->). cbn. left. reflexivity.
      * destruct i; cbn; right; exists r, k; auto.
Qed.

(** X11. The processing lock holds on either kind of page, whichever
    listener handles the click.  Start with nothing in flight and let any
    sequence of clicks on one button and of responses happen: at most one
    toggle request is in flight at any time, and while one is in flight a
    further click on the button changes nothing at all. *)
Theorem one_toggle_in_flight_on_either_view :
  forall (v : view) (b : path) (s0 : Sys) (evs : list Event) (s : Sys),
    inflight s0 = [] ->
    clicks_on_view v b s0 evs s ->
    List.length (inflight s) <= 1
    /\ (forall target,
          inflight s <> [] ->
          closest like_button (doc (world s)) target = Some b ->
          step_on v (Click target) s = s).
Proof.
  intros v b s0 evs s H0 Hrun.
  assert (Inv : locked_or_idle b s).
  { assert (I0 : locked_or_idle b s0) by (left; exact H0).
    clear H0. induction Hrun as [s|s target evs s' Hc _ IH|s i o evs s' _ IH].
    - exact I0.
    - apply IH. apply (step_on_keeps_lock v b (Click target)); assumption.
    - apply IH. apply (step_on_keeps_lock v b (Respond i o)); [exact I|assumption]. }
  split.
  - destruct Inv as [->|(r & k & -> & _)]; cbn; lia.
  - intros target Hne Hc.
    destruct Inv as [Hidle|(r & k & Hin & Hd & Hk)]; [congruence|].
    destruct (dispatch_click_cases v target b (world s) Hc) as (Hdis & _).
    cbn [step_on]. rewrite (Hdis Hd). destruct s; reflexivity.
Qed.

Lemma one_toggle_in_flight_on_either_view_witness :
  let v := LikedItemsView list_ref in
  let s := step_on v (Click button_8_ref)
             (step_on v (Click button_8_ref) (mkSys (world_of page_42) [])) in
  List.length (inflight s) <= 1
  /\ (forall target,
        inflight s <> [] ->
        closest like_button (doc (world s)) target = Some button_8_ref ->
        step_on v (Click target) s = s).
Proof.
  apply (one_toggle_in_flight_on_either_view (LikedItemsView list_ref)
           button_8_ref (mkSys (world_of page_42) [])
           [Click button_8_ref; Click button_8_ref]).
  - reflexivity.
  - apply view_click; [reflexivity|].
    apply view_click; [reflexivity|].
    apply view_done.
Defined.

End LockMoreFacts.

(* ------------------------------------------------------------------ *)
(** ** The liked-items query and the mutation observer *)

Module QueryMoreFacts.
Import Js Dom Async Likes LikedPosts Page Samples Obs LikesMore.
Import JsFacts DomFacts QueryFacts IdentityFacts ToggleFacts PaintFacts RepaintFacts.

Lemma map_post_ids_post_ids (items : list json) (w : World) :
  match post_ids items with
  | Some ids => map_post_ids items w = Finished (Normal ids) w
  | None => exists e, map_post_ids items w = Finished (Thrown e) w
  end.
Proof.
  induction items as [|j items IH]; cbn [post_ids map_post_ids]; [reflexivity|].
  run_task. unfold get_post_id.
  destruct j; run_task; try (eexists; reflexivity);
    (destruct (post_ids items) as [vs|];
     [rewrite IH; reflexivity
     |destruct IH as (e & ->); run_task; eexists; reflexivity]).
Qed.

Lemma post_ids_records (records : list (list (string * json))) :
  post_ids (map JObj records) = Some (map (field "post_id") records).
Proof.
  induction records as [|fs records IH]; cbn; [reflexivity|].
  rewrite IH. reflexivity.
Qed.

Lemma post_ids_null (items : list json) : In JNull items -> post_ids items = None.
Proof.
  induction items as [|j items IH]; intros H; [contradiction|].
  destruct H as [->|H]; [reflexivity|].
  cbn. rewrite (IH H). destruct j; reflexivity.
Qed.

(** [getLikedPosts] with an identity, run against an answer. *)
Lemma getLikedPosts_run (userId : option Z) (w : World) (o : FetchOutcome) :
  truthy_id userId = true ->
  exists errs,
    run_with o (getLikedPosts userId w)
    = Finished (Normal (list_answer o))
        (mkWorld (doc w)
           ((trace w ++ [EFetch (list_request userId)]) ++ map EConsoleError errs)).
Proof.
  intros Hu. unfold getLikedPosts. rewrite Hu. run_task.
  destruct o as [|r]; run_task.
  - exists ["Error fetching liked posts:"]. reflexivity.
  - unfold list_answer. destruct (ok r); run_task.
    + destruct (json_body r) as [j|]; run_task.
      * unfold likes_map.
        destruct j; try (exists ["Error fetching liked posts:"]; reflexivity).
        pose proof (map_post_ids_post_ids items
                      (mkWorld (doc w) (trace w ++ [EFetch (list_request userId)])))
          as H.
        destruct (post_ids items) as [ids|].
        -- rewrite H. run_task. exists []. cbn [map]. rewrite app_nil_r. reflexivity.
        -- destruct H as (e & ->). run_task.
           exists ["Error fetching liked posts:"]. reflexivity.
      * exists ["Error fetching liked posts:"]. reflexivity.
    + destruct (text_body r); run_task;
        exists ["Error fetching liked posts:"]; reflexivity.
Qed.

(** X12. [getLikedPosts] never throws, touches neither the document nor
    the user (no notice), and sends at most one request: none without an
    identity, one GET for the viewer's likes with one.  From a successful
    response whose body is an array of records it returns the [post_id] of
    each record, in order ([undefined] where a record has none).  It
    returns the empty list without identity, after a failed request or a
    non-success status, and for a body that is not JSON, not an array, or
    an array with a [null] in it. *)
Theorem getLikedPosts_returns_ids_or_nothing :
  forall (userId : option Z) (w : World) (o : FetchOutcome),
    exists ids w',
      run_with o (getLikedPosts userId w) = Finished (Normal ids) w'
      /\ doc w' = doc w
      /\ alerts (trace w') = alerts (trace w)
      /\ requests (trace w')
         = requests (trace w)
           ++ (if truthy_id userId then [list_request userId] else [])
      /\ (truthy_id userId = false -> ids = [])
      /\ (failed o -> ids = [])
      /\ (forall r,
            o = Responded r -> json_body r = None -> ids = [])
      /\ (forall r j,
            o = Responded r -> json_body r = Some j ->
            (forall items, j <> JArr items) -> ids = [])
      /\ (forall r items,
            o = Responded r -> json_body r = Some (JArr items) ->
            In JNull items -> ids = [])
      /\ (forall r records,
            truthy_id userId = true ->
            o = Responded r -> ok r = true ->
            json_body r = Some (JArr (map JObj records)) ->
            ids = map (field "post_id") records).
Proof.
  intros userId w o.
  destruct (truthy_id userId) eqn:Hu.
  2:{ unfold getLikedPosts. rewrite Hu. run_task.
      do 2 eexists. split; [reflexivity|].
      rewrite app_nil_r. repeat (split; [reflexivity|]).
      repeat split; try reflexivity; intros; try reflexivity; discriminate. }
  destruct (getLikedPosts_run userId w o Hu) as (errs & ->).
  do 2 eexists. split; [reflexivity|]. cbn [doc trace].
  assert (R : requests (map EConsoleError errs) = []
              /\ alerts (map EConsoleError errs) = []).
  { clear. induction errs as [|e errs [IH1 IH2]]; cbn; auto. }
  destruct R as [Rr Ra].
  split; [reflexivity|].
  split; [rewrite !alerts_app, Ra; cbn; rewrite !app_nil_r; reflexivity|].
  split; [rewrite !requests_app, Rr; cbn; rewrite !app_nil_r; reflexivity|].
  split; [discriminate|].
  split.
  { intros [->|(r & -> & Hr)]; [reflexivity|]. cbn. rewrite Hr. reflexivity. }
  split.
  { intros r -> Hj. cbn. rewrite Hj. destruct (ok r); reflexivity. }
  split.
  { intros r j -> Hj Hna. cbn. rewrite Hj.
    destruct (ok r); [|reflexivity].
    destruct j; try reflexivity. exfalso. apply (Hna items). reflexivity. }
  split.
  { intros r items -> Hj Hin. cbn. rewrite Hj, (post_ids_null _ Hin).
    destruct (ok r); reflexivity. }
  intros r records _ -> Hok Hj. cbn. rewrite Hok, Hj, post_ids_records.
  reflexivity.
Qed.

Lemma getLikedPosts_returns_ids_or_nothing_witness :
  exists ids w',
    run_with
      (Responded
         (mkResponse true
            (Some (JArr [JObj [("id", JNum 1); ("post_id", JNum 7)];
                         JObj [("post_id", JNum 8)]]))
            None))
      (getLikedPosts (Some 42%Z) (world_of page_42))
    = Finished (Normal ids) w'
    /\ doc w' = page_42
    /\ requests (trace w') = [list_request (Some 42%Z)]
    /\ ids = [Some (JNum 7); Some (JNum 8)].
Proof.
  destruct (getLikedPosts_returns_ids_or_nothing (Some 42%Z) (world_of page_42)
              (Responded
                 (mkResponse true
                    (Some (JArr [JObj [("id", JNum 1); ("post_id", JNum 7)];
                                 JObj [("post_id", JNum 8)]]))
                    None)))
    as (ids & w' & E & Hd & _ & Hr & _ & _ & _ & _ & _ & Hrec).
  exists ids, w'. split; [exact E|]. split; [exact Hd|]. split; [exact Hr|].
  exact (Hrec _ [[("id", JNum 1); ("post_id", JNum 7)]; [("post_id", JNum 8)]]
           eq_refl eq_refl eq_refl eq_refl).
Defined.

(** X13. What [toggleLike] and [updateLikeButton] insert into a button
    does not make the mutation observer start a new status sync: the
    loading indicator, the captured icon and label, and the text nodes of
    the labels all fail its test, as long as the button holds no article
    card and no other like button.  The test only looks for cards and for
    like buttons below the added node: an element that is itself a like
    button, added on its own, fails it as well. *)
Theorem toggle_insertions_do_not_resync :
  forall (d : node) (b : path) (pr : Props) (kids : list node),
    get d b = Some (Elem pr kids) ->
    qs_inside article_card (Elem pr kids) = None ->
    qs_inside like_button (Elem pr kids) = None ->
    let icon := cloneNode d (querySelector like_icon b d) in
    let text := cloneNode d (querySelector like_text b d) in
    shouldReinitialize
      [[spinner]; olist icon; olist text; [Text liked_label]; [Text like_label]]
    = false
    /\ (has_class "article-card" pr = false ->
        shouldReinitialize [[Elem pr kids]] = false).
Proof.
  intros d b pr kids Hb Hc Hl. cbv zeta.
  assert (Clone : forall sel,
            match cloneNode d (querySelector sel b d) with
            | Some n => node_calls_for_sync n = false
            | None => True
            end).
  { intros sel. rewrite (cloneNode_querySelector _ _ _ _ Hb).
    destruct (qs_inside sel (Elem pr kids)) as [q|] eqn:E; [|exact I].
    destruct (qs_inside_sound _ _ _ E) as (i & q' & pn & kn & -> & Hg & _).
    rewrite Hg.
    pose proof (qs_inside_none_below _ i q' _ _ Hc Hg) as H1.
    pose proof (qs_inside_none_below _ i q' _ _ Hl Hg) as H2.
    cbn [qs_node] in H1, H2. cbn [node_calls_for_sync qs_inside].
    change (has_class "article-card" pn) with (matches article_card pn).
    destruct (matches article_card pn); [discriminate|].
    destruct (matches like_button pn); [discriminate|].
    rewrite H1, H2. reflexivity. }
  split.
  - pose proof (Clone like_icon) as Hi. pose proof (Clone like_text) as Ht.
    unfold shouldReinitialize.
    destruct (cloneNode d (querySelector like_icon b d)),
             (cloneNode d (querySelector like_text b d));
      cbn [olist existsb]; rewrite ?Hi, ?Ht; reflexivity.
  - intros Hcard. unfold shouldReinitialize. cbn [existsb node_calls_for_sync].
    rewrite Hcard, Hc, Hl. reflexivity.
Qed.

Lemma toggle_insertions_do_not_resync_witness :
  shouldReinitialize
    [[spinner]; [icon_plain]; [text_plain]; [Text liked_label]; [Text like_label]]
  = false
  /\ (has_class "article-card"
        (mkProps "button" ["like-button"] [("data-post-id", "7")] no_style false)
      = false ->
      shouldReinitialize [[button_7]] = false).
Proof.
  exact (toggle_insertions_do_not_resync page_42 button_7_ref
           (mkProps "button" ["like-button"] [("data-post-id", "7")] no_style false)
           [icon_plain; text_plain] eq_refl eq_refl eq_refl).
Defined.

End QueryMoreFacts.

(* ------------------------------------------------------------------ *)
(** ** theme.js *)

Module ThemeFacts.
Import Dom Obs Theme DomFacts QueryFacts PaintFacts.
Import PaintMoreFacts.

Lemma get_set_key (k v : string) (l : list (string * string)) :
  get_key k (set_key k v l) = Some v.
Proof.
  unfold get_key. induction l as [|[k' v'] l IH]; cbn.
  - rewrite String.eqb_refl. reflexivity.
  - destruct (String.eqb k' k) eqn:E; cbn.
    + rewrite String.eqb_refl. reflexivity.
    + rewrite E. exact IH.
Qed.

Lemma set_key_overwrite (k v v' : string) (l : list (string * string)) :
  set_key k v (set_key k v' l) = set_key k v l.
Proof.
  induction l as [|[k0 v0] l IH]; cbn.
  - rewrite String.eqb_refl. reflexivity.
  - destruct (String.eqb k0 k) eqn:E; cbn.
    + rewrite String.eqb_refl. reflexivity.
    + rewrite E, IH. reflexivity.
Qed.

Lemma find_node_sound (pred : Props -> bool) (q : path) :
  forall n, find_node pred n = Some q ->
    exists pr ks, get n q = Some (Elem pr ks).
Proof.
  induction q as [|i q IH]; intros n H; destruct n as [pr ks|s];
    cbn in H; try discriminate.
  - cbn. eauto.
  - destruct (pred pr); [discriminate|].
    destruct (find_first_inv _ _ _ _ H) as (j & q' & c & E & Hn & Hf & _).
    cbn in E. injection E as -> ->.
    cbn. rewrite Hn. apply IH, Hf.
Qed.

(** The page after [applyTheme], for a document whose root is an
    element. *)
Lemma applyTheme_root (icon : option path) (t : string) (s : Store)
    (pr : Props) (ks : list node) :
  page s = Elem pr ks ->
  exists ks',
    page (applyTheme icon t s)
    = Elem (with_attributes (set_key "data-theme" t (attributes pr)) pr) ks'.
Proof.
  intros H. unfold applyTheme, setAttribute. rewrite H. cbn [update_at on_props page].
  destruct icon as [[|i q]|]; [| |eauto];
    destruct (String.eqb t "dark"); cbn; eauto.
Qed.

Lemma applyTheme_theme (icon : option path) (t : string) (s : Store)
    (pr : Props) (ks : list node) :
  page s = Elem pr ks ->
  current_theme (applyTheme icon t s) = Some t
  /\ get_key "theme" (storage (applyTheme icon t s)) = Some t.
Proof.
  intros H. split.
  - destruct (applyTheme_root icon t s pr ks H) as (ks' & E).
    unfold current_theme, getAttribute, props_at. rewrite E. cbn.
    apply get_set_key.
  - apply get_set_key.
Qed.

Lemma applyTheme_icon (icon : path) (t : string) (s : Store)
    (pr : Props) (ks : list node) (pi : Props) (ki : list node) :
  page s = Elem pr ks ->
  get (page s) icon = Some (Elem pi ki) ->
  exists pi',
    get (page (applyTheme (Some icon) t s)) icon
    = Some (Elem pi' [Text (if String.eqb t "dark" then sun else moon)]).
Proof.
  intros H Hi. unfold applyTheme, setAttribute, set_children. cbn [page].
  assert (G : exists pi',
             get (update_at []
                    (on_props (fun p => with_attributes
                                          (set_key "data-theme" t (attributes p)) p))
                    (page s)) icon = Some (Elem pi' ki)).
  { destruct icon as [|i q].
    - rewrite H in Hi |- *. cbn in Hi |- *. injection Hi as -> ->. eauto.
    - rewrite H in Hi |- *. cbn in Hi |- *. eauto. }
  destruct G as (pi' & G). exists pi'.
  destruct (String.eqb t "dark"); rewrite get_update_at_same, G; reflexivity.
Qed.

Lemma applyTheme_overwrite (icon : option path) (a b : string) (s : Store) :
  applyTheme icon a (applyTheme icon b s) = applyTheme icon a s.
Proof.
  unfold applyTheme. cbn [page storage]. f_equal; [|apply set_key_overwrite].
  unfold setAttribute, set_children.
  set (A := fun x => on_props (fun p => with_attributes
                                          (set_key "data-theme" x (attributes p)) p)).
  assert (HA : forall n, A a (A b n) = A a n).
  { intros [p k|x]; cbn; [|reflexivity]. unfold with_attributes; cbn.
    rewrite set_key_overwrite. reflexivity. }
  assert (Comm : forall i h x n,
            update_at [] (A x) (update_at i (on_children h) n)
            = update_at i (on_children h) (update_at [] (A x) n)).
  { intros i h x n. apply props_children_commute.
    destruct i; [right; reflexivity|left; reflexivity]. }
  destruct icon as [i|].
  - assert (E : forall (x y : list node) n,
              update_at i (on_children (fun _ => x))
                (update_at [] (A a) (update_at i (on_children (fun _ => y))
                                       (update_at [] (A b) n)))
              = update_at i (on_children (fun _ => x)) (update_at [] (A a) n)).
    { intros x y n. rewrite Comm, update_at_compose.
      cbn [update_at]. rewrite HA.
      apply update_at_ext. intros [p k|z]; reflexivity. }
    destruct (String.eqb a "dark"), (String.eqb b "dark"); apply E.
  - cbn [update_at]. apply HA.
Qed.

Lemma applied_settled (icon tg : option path) (t : string) (s : Store)
    (pr : Props) (ks : list node) :
  page s = Elem pr ks ->
  (forall i, icon = Some i -> exists pi ki, get (page s) i = Some (Elem pi ki)) ->
  t <> "" ->
  settled (mkLoaded (applyTheme icon t s) tg icon).
Proof.
  intros H Hi Ht. unfold settled. cbn [store themeIcon].
  destruct (applyTheme_root icon t s pr ks H) as (ks' & E).
  destruct (applyTheme_theme icon t s pr ks H) as [T1 T2].
  split; [eauto|]. split.
  - intros i ->. destruct (Hi i eq_refl) as (pi & ki & Hg).
    destruct (applyTheme_icon i t s pr ks pi ki H Hg) as (pi' & G). eauto.
  - exists t. repeat (split; [assumption|]).
    intros i ->. destruct (Hi i eq_refl) as (pi & ki & Hg).
    apply (applyTheme_icon i t s pr ks pi ki H Hg).
Qed.

Lemma or_light_nonempty (x : option string) : or_light x <> "".
Proof.
  destruct x as [s|]; cbn; [|discriminate].
  destruct (String.eqb s "") eqn:E; [discriminate|].
  apply String.eqb_neq, E.
Qed.

Lemma load_settled (s : Store) (pr : Props) (ks : list node) :
  page s = Elem pr ks -> settled (load s).
Proof.
  intros H. unfold load. apply (applied_settled _ _ _ _ pr ks H).
  - intros i Hi. unfold getElementById in Hi. apply (find_node_sound _ _ _ Hi).
  - apply or_light_nonempty.
Qed.

Lemma toggle_click_settled (l : Loaded) : settled l -> settled (toggle_click l).
Proof.
  intros Hs. unfold toggle_click.
  destruct (themeToggle l) as [tg|] eqn:E; [|exact Hs].
  destruct Hs as ((pr & ks & H) & Hi & _).
  apply (applied_settled _ _ _ _ pr ks H Hi).
  destruct (String.eqb _ "light"); discriminate.
Qed.

Lemma clicks_settled (n : nat) (s : Store) (pr : Props) (ks : list node) :
  page s = Elem pr ks -> settled (Nat.iter n toggle_click (load s)).
Proof.
  intros H. induction n as [|n IH]; cbn [Nat.iter nat_rect].
  - apply (load_settled s pr ks H).
  - apply toggle_click_settled. exact IH.
Qed.

(** X14. After the script has loaded and after any number of clicks on
    the toggle, the [data-theme] attribute of the root element and the
    stored preference agree, the theme is never empty, and the icon, if
    the page has one, shows the sun exactly when the theme is [dark].  A
    further load of any page with that storage shows the same theme: the
    preference survives navigation. *)
Theorem theme_attribute_storage_and_icon_agree :
  forall (s : Store) (pr : Props) (ks : list node) (n : nat),
    page s = Elem pr ks ->
    let l := Nat.iter n toggle_click (load s) in
    exists t,
      current_theme (store l) = Some t
      /\ get_key "theme" (storage (store l)) = Some t
      /\ t <> ""
      /\ (forall icon,
            themeIcon l = Some icon ->
            children_at (page (store l)) icon
            = Some [Text (if String.eqb t "dark" then sun else moon)])
      /\ (forall d' pr' ks',
            d' = Elem pr' ks' ->
            current_theme (store (load (mkStore d' (storage (store l)))))
            = Some t).
Proof.
  intros s pr ks n H l.
  destruct (clicks_settled n s pr ks H) as (_ & _ & t & T1 & T2 & T3 & T4).
  fold l in T1, T2, T3, T4.
  exists t. repeat (split; [assumption|]). split.
  - intros icon Hi. destruct (T4 icon Hi) as (pi & G).
    unfold children_at. rewrite G. reflexivity.
  - intros d' pr' ks' ->. unfold load. cbn [page storage store].
    rewrite T2.
    destruct (applyTheme_theme
                (getElementById "theme-icon" (Elem pr' ks'))
                (or_light (Some t))
                (mkStore (Elem pr' ks') (storage (store l))) pr' ks' eq_refl)
      as [A _].
    rewrite A. cbn [or_light]. apply String.eqb_neq in T3. rewrite T3.
    reflexivity.
Qed.

Lemma theme_attribute_storage_and_icon_agree_witness :
  exists t,
    current_theme (store (Nat.iter 3 toggle_click
                            (load (mkStore themed_page [("theme", "dark")]))))
    = Some t
    /\ get_key "theme"
         (storage (store (Nat.iter 3 toggle_click
                            (load (mkStore themed_page [("theme", "dark")])))))
       = Some t.
Proof.
  destruct (theme_attribute_storage_and_icon_agree
              (mkStore themed_page [("theme", "dark")]) _ _ 3 eq_refl)
    as (t & A & B & _).
  exists t. split; assumption.
Defined.

Lemma toggle_click_applies (l : Loaded) (tg : path) :
  themeToggle l = Some tg ->
  exists t,
    (t = "light" \/ t = "dark")
    /\ toggle_click l
       = mkLoaded (applyTheme (themeIcon l) t (store l)) (Some tg) (themeIcon l).
Proof.
  intros E. unfold toggle_click. rewrite E.
  destruct (String.eqb _ "light"); eauto.
Qed.

Lemma double_click (icon tg : option path) (t : string) (s : Store)
    (pr : Props) (ks : list node) :
  page s = Elem pr ks ->
  t = "light" \/ t = "dark" ->
  toggle_click (toggle_click (mkLoaded (applyTheme icon t s) tg icon))
  = mkLoaded (applyTheme icon t s) tg icon.
Proof.
  intros H Ht. destruct tg as [tg|]; [|reflexivity].
  assert (Step : forall a b,
            (a = "light" /\ b = "dark") \/ (a = "dark" /\ b = "light") ->
            toggle_click (mkLoaded (applyTheme icon a s) (Some tg) icon)
            = mkLoaded (applyTheme icon b s) (Some tg) icon).
  { intros a b Hab. unfold toggle_click. cbn [themeToggle store themeIcon].
    destruct (applyTheme_theme icon a s pr ks H) as [A _].
    unfold current_theme in A. rewrite A. rewrite applyTheme_overwrite.
    destruct Hab as [[-> ->] | [-> ->]]; reflexivity. }
  destruct Ht as [-> | ->].
  - rewrite (Step "light" "dark"), (Step "dark" "light"); auto.
  - rewrite (Step "dark" "light"), (Step "light" "dark"); auto.
Qed.

(** X15. The toggle is an involution on the two themes it knows: from
    the first click on, two further clicks give back exactly the page and
    the storage there were, and so they do right after loading when the
    stored theme is [light], [dark], empty or missing.  A stored theme of
    any other name is shown as it is at load time, and the first click
    replaces it by [light]. *)
Theorem two_clicks_restore_page_and_storage :
  forall (s : Store) (pr : Props) (ks : list node),
    page s = Elem pr ks ->
    (forall n,
       let l := Nat.iter (S n) toggle_click (load s) in
       toggle_click (toggle_click l) = l)
    /\ (or_light (get_key "theme" (storage s)) = "light"
        \/ or_light (get_key "theme" (storage s)) = "dark" ->
        toggle_click (toggle_click (load s)) = load s)
    /\ (forall t tg,
          get_key "theme" (storage s) = Some t ->
          t <> "" -> t <> "light" ->
          themeToggle (load s) = Some tg ->
          current_theme (store (load s)) = Some t
          /\ current_theme (store (toggle_click (load s))) = Some "light").
Proof.
  intros s pr ks H. split; [|split].
  - intros n l. subst l. cbn [Nat.iter nat_rect].
    set (l' := Nat.iter n toggle_click (load s)).
    assert (Hs : settled l') by apply (clicks_settled n s pr ks H).
    fold (Nat.iter n toggle_click (load s)). fold l'.
    destruct (themeToggle l') as [tg|] eqn:E.
    + destruct (toggle_click_applies l' tg E) as (t & Ht & ->).
      destruct Hs as ((pr' & ks' & H') & _).
      apply (double_click _ _ _ _ pr' ks' H' Ht).
    + assert (Id : toggle_click l' = l') by (unfold toggle_click; rewrite E; reflexivity).
      rewrite !Id. reflexivity.
  - intros Ht. unfold load. apply (double_click _ _ _ _ pr ks H Ht).
  - intros t tg Hk Hne Hnl Htg.
    assert (Hor : or_light (Some t) = t).
    { cbn. apply String.eqb_neq in Hne. rewrite Hne. reflexivity. }
    assert (L : current_theme (store (load s)) = Some t).
    { unfold load. cbn [store]. rewrite Hk, Hor.
      apply (applyTheme_theme _ _ _ pr ks H). }
    split; [exact L|].
    unfold toggle_click. rewrite Htg. cbn [store].
    unfold current_theme in L. rewrite L, Hor.
    apply String.eqb_neq in Hnl. rewrite Hnl.
    destruct (load_settled s pr ks H) as ((pr' & ks' & H') & _).
    apply (applyTheme_theme _ _ _ pr' ks' H').
Qed.

Lemma two_clicks_restore_page_and_storage_witness :
  toggle_click (toggle_click (load (mkStore themed_page [])))
  = load (mkStore themed_page []).
Proof.
  destruct (two_clicks_restore_page_and_storage
              (mkStore themed_page []) _ _ eq_refl) as (_ & R & _).
  apply R. left. reflexivity.
Defined.

Lemma get_set_key_other (k k' v : string) (l : list (string * string)) :
  k' <> k -> get_key k' (set_key k v l) = get_key k' l.
Proof.
  intros Hne. apply String.eqb_neq in Hne.
  assert (Hne' : String.eqb k k' = false)
    by (rewrite String.eqb_sym; exact Hne).
  unfold get_key. induction l as [|[k0 v0] l IH]; cbn.
  - rewrite Hne'. reflexivity.
  - destruct (String.eqb k0 k) eqn:E; cbn.
    + apply String.eqb_eq in E. subst k0. rewrite Hne'. reflexivity.
    + destruct (String.eqb k0 k'); [reflexivity|exact IH].
Qed.

Lemma applyTheme_frame (icon : option path) (t : string) (s : Store) :
  (forall k, k <> "theme" ->
     get_key k (storage (applyTheme icon t s)) = get_key k (storage s))
  /\ (forall k, k <> "data-theme" ->
        getAttribute (page (applyTheme icon t s)) [] k
        = getAttribute (page s) [] k)
  /\ (forall q, q <> [] ->
        (forall i, icon = Some i -> apart i q) ->
        get (page (applyTheme icon t s)) q = get (page s) q).
Proof.
  set (F := on_props (fun p => with_attributes
                                 (set_key "data-theme" t (attributes p)) p)).
  assert (Root : forall q, q <> [] -> get (F (page s)) q = get (page s) q).
  { intros [|j q] Hq; [congruence|]. destruct (page s); reflexivity. }
  assert (Attr : forall k n, k <> "data-theme" ->
            getAttribute (F n) [] k = getAttribute n [] k).
  { intros k [p c|x] Hk; [|reflexivity].
    unfold getAttribute, props_at. cbn.
    apply (get_set_key_other "data-theme" k t (attributes p) Hk). }
  assert (Kids : forall i x n k,
            getAttribute (update_at i (on_children (fun _ => x)) n) [] k
            = getAttribute n [] k).
  { intros [|j i] x [p c|y] k; reflexivity. }
  split; [|split].
  - intros k Hk. apply get_set_key_other, Hk.
  - intros k Hk. unfold applyTheme, setAttribute, set_children. cbn [page update_at].
    fold F. destruct icon as [i|]; [|apply Attr, Hk].
    destruct (String.eqb t "dark"); rewrite Kids; apply Attr, Hk.
  - intros q Hq Hi. unfold applyTheme, setAttribute, set_children. cbn [page update_at].
    fold F. destruct icon as [i|]; [|apply Root, Hq].
    destruct (String.eqb t "dark");
      rewrite (get_update_at_apart _ _ _ _ (Hi i eq_refl)); apply Root, Hq.
Qed.

Lemma clicks_keep_elements (n : nat) (l : Loaded) :
  themeIcon (Nat.iter n toggle_click l) = themeIcon l.
Proof.
  induction n as [|n IH]; cbn [Nat.iter nat_rect]; [reflexivity|].
  fold (Nat.iter n toggle_click l).
  unfold toggle_click at 1.
  destruct (themeToggle (Nat.iter n toggle_click l)); exact IH.
Qed.

(** X16. Loading the script and clicking the toggle any number of times
    touch nothing but the theme: every other key of the storage, every
    other attribute of the root element, and every node of the page that
    is neither the root nor an ancestor or a descendant of the icon (nor
    the icon itself) stay as they were. *)
Theorem theme_script_touches_only_the_theme :
  forall (s : Store) (n : nat),
    let l := Nat.iter n toggle_click (load s) in
    (forall k, k <> "theme" ->
       get_key k (storage (store l)) = get_key k (storage s))
    /\ (forall k, k <> "data-theme" ->
          getAttribute (page (store l)) [] k = getAttribute (page s) [] k)
    /\ (forall q, q <> [] ->
          (forall i, getElementById "theme-icon" (page s) = Some i -> apart i q) ->
          get (page (store l)) q = get (page s) q).
Proof.
  intros s n. induction n as [|n IH]; cbn zeta.
  - unfold load. cbn [Nat.iter nat_rect store]. apply applyTheme_frame.
  - cbn [Nat.iter nat_rect]. fold (Nat.iter n toggle_click (load s)).
    set (l' := Nat.iter n toggle_click (load s)) in *. cbn zeta in IH.
    destruct IH as (I1 & I2 & I3).
    destruct (themeToggle l') as [tg|] eqn:E.
    + destruct (toggle_click_applies l' tg E) as (t & _ & ->). cbn [store].
      destruct (applyTheme_frame (themeIcon l') t (store l')) as (F1 & F2 & F3).
      assert (Ic : themeIcon l' = getElementById "theme-icon" (page s))
        by (unfold l'; rewrite clicks_keep_elements; reflexivity).
      split; [|split].
      * intros k Hk. rewrite F1, I1; auto.
      * intros k Hk. rewrite F2, I2; auto.
      * intros q Hq Hi. rewrite F3, I3; auto.
        intros i Hic. apply Hi. rewrite <- Ic. exact Hic.
    + assert (Id : toggle_click l' = l') by (unfold toggle_click; rewrite E; reflexivity).
      rewrite Id. auto.
Qed.

Lemma theme_script_touches_only_the_theme_witness :
  get_key "token" (storage (store (Nat.iter 3 toggle_click
                     (load (mkStore themed_page [("token", "abc")])))))
  = Some "abc".
Proof.
  destruct (theme_script_touches_only_the_theme
              (mkStore themed_page [("token", "abc")]) 3) as (K & _).
  rewrite K; [reflexivity|discriminate].
Defined.

End ThemeFacts.
